(** * Merge-train scheduler and HTTP client of mergify-engine

    A shallow embedding of [mergify_engine/clients/http.py] and of
    [mergify_engine/queue/merge_train.py], and the properties proved about
    them.

    Conventions of the embedding.
    - A Python [int] is a [Z]; a [str] is a [string]; [None]-able values are
      [option]s; a [datetime] is its number of microseconds since the epoch
      and a duration its number of microseconds (the resolution of
      [timedelta]); the floats the source computes for waits are these
      durations in seconds.
    - A Python exception is a value of an error type; a function that may
      raise returns a sum.
    - The answers of the hosting platform, of the rule evaluator and of the
      clock are oracles ([Host]); the requests sent are recorded in a trace. *)

From Stdlib Require Import List ZArith String Ascii Bool Lia Permutation.
From Stdlib Require Import DecimalString.
Import ListNotations.

Local Open Scope string_scope.
Local Open Scope list_scope.
Local Open Scope Z_scope.

Local Set Warnings "-register-all".

(* ================================================================== *)
(** * Python built-ins used by the source *)
(* ================================================================== *)

Module Py.

(** [l[:n]] for a Python integer [n] (a negative [n] counts from the end). *)
Definition slice_to {A} (l : list A) (n : Z) : list A :=
  if 0 <=? n then firstn (Z.to_nat n) l
  else firstn (List.length l - Z.to_nat (- n))%nat l.

(** [l[n:]] for a Python integer [n]. *)
Definition slice_from {A} (l : list A) (n : Z) : list A :=
  if 0 <=? n then skipn (Z.to_nat n) l
  else skipn (List.length l - Z.to_nat (- n))%nat l.

(** [len(l)] *)
Definition len {A} (l : list A) : Z := Z.of_nat (List.length l).

(** [l.insert(i, x)]: the index is clamped to the list. *)
Definition insert {A} (l : list A) (i : Z) (x : A) : list A :=
  slice_to l i ++ x :: slice_from l i.

(** [del l[i]] *)
Definition del_at {A} (l : list A) (i : Z) : option (list A) :=
  let n := len l in
  if (0 <=? i) && (i <? n) then
    Some (firstn (Z.to_nat i) l ++ skipn (S (Z.to_nat i)) l)
  else if (- n <=? i) && (i <? 0) then
    Some (firstn (Z.to_nat (n + i)) l ++ skipn (S (Z.to_nat (n + i))) l)
  else None.

(** [sum(...)] over integers. *)
Definition sum (l : list Z) : Z := fold_right Z.add 0 l.

(** [str(n)] for an integer. *)
Definition str (n : Z) : string := NilZero.string_of_int (Z.to_int n).

(** [sep.join(l)] *)
Fixpoint join (sep : string) (l : list string) : string :=
  match l with
  | [] => ""
  | [s] => s
  | s :: l' => (s ++ sep ++ join sep l')%string
  end.

Definition is_ascii_digit (c : ascii) : bool :=
  let n := nat_of_ascii c in (48 <=? n)%nat && (n <=? 57)%nat.

(** [s.isdigit()], on ASCII text: a non-empty string of decimal digits. *)
Definition isdigit (s : string) : bool :=
  match s with
  | EmptyString => false
  | _ => forallb is_ascii_digit (list_ascii_of_string s)
  end.

(** [int(s)] for a string of decimal digits. *)
Definition int_of_digits (s : string) : Z :=
  fold_left (fun acc c => 10 * acc + (Z.of_nat (nat_of_ascii c) - 48))
            (list_ascii_of_string s) 0.

(** [s.startswith(p)] *)
Fixpoint startswith (s p : string) : bool :=
  match p, s with
  | EmptyString, _ => true
  | String c p', String d s' => Ascii.eqb c d && startswith s' p'
  | String _ _, EmptyString => false
  end.

(** [p in s] for two strings. *)
Fixpoint contains (s p : string) : bool :=
  startswith s p ||
  match s with
  | EmptyString => false
  | String _ s' => contains s' p
  end.

(** [all(...)] *)
Definition all {A} (p : A -> bool) (l : list A) : bool := forallb p l.

(** [l[-1]] *)
Definition last_opt {A} (l : list A) : option A :=
  match rev l with [] => None | x :: _ => Some x end.

(** [del l[-1]] on a non-empty list ([l[:-1]]). *)
Definition del_last {A} (l : list A) : list A := removelast l.

(** [l.index(x)] with the equality test [eqb]: position of the first equal
    element. *)
Fixpoint index {A} (eqb : A -> A -> bool) (x : A) (l : list A) : option nat :=
  match l with
  | [] => None
  | y :: l' => if eqb y x then Some 0%nat
               else option_map S (index eqb x l')
  end.

End Py.

(* ================================================================== *)
(** * clients/http.py *)
(* ================================================================== *)

Module Http.

(** The exception classes of the module, with the two httpx classes they
    derive from or are retried on; [OtherException] stands for any class
    outside this hierarchy. *)
Inductive exc_class : Type :=
| RequestError            (* httpx.RequestError *)
| HTTPStatusError         (* httpx.HTTPStatusError *)
| HTTPServerSideError
| HTTPClientSideError
| HTTPForbidden
| HTTPUnauthorized
| HTTPNotFound
| HTTPTooManyRequests
| HTTPServiceUnavailable
| OtherException.

Definition exc_class_eqb (a b : exc_class) : bool :=
  match a, b with
  | RequestError, RequestError
  | HTTPStatusError, HTTPStatusError
  | HTTPServerSideError, HTTPServerSideError
  | HTTPClientSideError, HTTPClientSideError
  | HTTPForbidden, HTTPForbidden
  | HTTPUnauthorized, HTTPUnauthorized
  | HTTPNotFound, HTTPNotFound
  | HTTPTooManyRequests, HTTPTooManyRequests
  | HTTPServiceUnavailable, HTTPServiceUnavailable
  | OtherException, OtherException => true
  | _, _ => false
  end.

(** The base class written in each [class] statement. *)
Definition base (c : exc_class) : option exc_class :=
  match c with
  | HTTPServerSideError => Some HTTPStatusError
  | HTTPClientSideError => Some HTTPStatusError
  | HTTPForbidden => Some HTTPClientSideError
  | HTTPUnauthorized => Some HTTPClientSideError
  | HTTPNotFound => Some HTTPClientSideError
  | HTTPTooManyRequests => Some HTTPClientSideError
  | HTTPServiceUnavailable => Some HTTPServerSideError
  | RequestError | HTTPStatusError | OtherException => None
  end.

(** [issubclass(c, d)]: [d] is reached from [c] along [base]; the hierarchy
    has depth three. *)
Fixpoint issubclass_fuel (fuel : nat) (c d : exc_class) : bool :=
  exc_class_eqb c d ||
  match fuel with
  | O => false
  | S fuel' =>
      match base c with
      | Some b => issubclass_fuel fuel' b d
      | None => false
      end
  end.

Definition issubclass (c d : exc_class) : bool := issubclass_fuel 3 c d.

(** What the source reads of an [httpx.Response]. *)
Record Response : Type := mkResponse {
  status_code : Z;
  retry_after : option string   (* resp.headers.get("retry-after") *)
}.

(** A raised exception: an [HTTPStatusError] (or subclass) built by
    [raise_for_status] carries its response; the others do not. *)
Inductive exception : Type :=
| StatusExc (cls : exc_class) (response : Response)
| PlainExc (cls : exc_class).

Definition class_of (e : exception) : exc_class :=
  match e with StatusExc c _ => c | PlainExc c => c end.

(** [isinstance(e, classes)] for a tuple of classes. *)
Definition isinstance (e : exception) (classes : list exc_class) : bool :=
  existsb (issubclass (class_of e)) classes.

(** [STATUS_CODE_TO_EXC.get(status)] *)
Definition STATUS_CODE_TO_EXC (status : Z) : option exc_class :=
  if status =? 401 then Some HTTPUnauthorized
  else if status =? 403 then Some HTTPForbidden
  else if status =? 404 then Some HTTPNotFound
  else if status =? 429 then Some HTTPTooManyRequests
  else if status =? 503 then Some HTTPServiceUnavailable
  else None.

Definition dict_get {A} (o : option A) (default : A) : A :=
  match o with Some x => x | None => default end.

(** [httpx.codes.is_client_error] and [httpx.codes.is_server_error]. *)
Definition is_client_error (value : Z) : bool :=
  (400 <=? value) && (value <=? 499).
Definition is_server_error (value : Z) : bool :=
  (500 <=? value) && (value <=? 599).

(** [raise_for_status]: [inl tt] is the plain [return], [inr e] the raised
    exception. *)
Definition raise_for_status (resp : Response) : unit + exception :=
  if is_client_error (status_code resp) then
    inr (StatusExc (dict_get (STATUS_CODE_TO_EXC (status_code resp))
                             HTTPClientSideError) resp)
  else if is_server_error (status_code resp) then
    inr (StatusExc (dict_get (STATUS_CODE_TO_EXC (status_code resp))
                             HTTPServerSideError) resp)
  else inl tt.

(** The outcome of one attempt ([retry_state.outcome]). *)
Inductive outcome : Type :=
| Returned (resp : Response)
| Raised (e : exception).

Section Retry.

(** [werkzeug.http.parse_date] and [date.utcnow()], in microseconds. *)
Variable parse_date : string -> option Z.
Variable utcnow : Z.

Definition second : Z := 1000000.

(** [wait_retry_after_header.__call__]; [None] is the state before the first
    attempt. *)
Definition wait_retry_after_header (outcome_ : option outcome) : Z :=
  match outcome_ with
  | None => 0
  | Some (Returned _) => 0
  | Some (Raised exc) =>
      match exc with
      | PlainExc _ => 0
      | StatusExc cls response =>
          if negb (issubclass cls HTTPStatusError) then 0
          else
            match retry_after response with
            | None => 0
            | Some value =>
                if Py.isdigit value then Py.int_of_digits value * second
                else
                  match parse_date value with
                  | None => 0
                  | Some d => Z.max 0 (d - utcnow)
                  end
            end
      end
  end.

(** Modelled from the spec: tenacity's [wait_exponential(multiplier)], whose
    code is not part of the repository: the wait after the attempt numbered
    [attempt_number] (from 1) is [multiplier * 2^(attempt_number - 1)], that
    is [multiplier * 2^k] before the retry numbered [k] from 0. *)
Definition wait_exponential (multiplier : Z) (attempt_number : nat) : Z :=
  multiplier * 2 ^ (Z.of_nat (attempt_number - 1)).

(** [tenacity.wait_combine]: the sum of the waits. *)
Definition wait_combine (waits : list Z) : Z := Py.sum waits.

(** [retry_if_exception_type(types)] *)
Definition retry_if_exception_type (types : list exc_class) (o : outcome)
  : bool :=
  match o with
  | Returned _ => false
  | Raised e => isinstance e types
  end.

(** [stop_after_attempt(n)] *)
Definition stop_after_attempt (n : nat) (attempt_number : nat) : bool :=
  (n <=? attempt_number)%nat.

(** The parameters given to [tenacity.retry] for [connectivity_issue_retry]
    ([reraise=True]: the exception of the last attempt is raised again). *)
Definition connectivity_retry (o : outcome) : bool :=
  retry_if_exception_type
    [RequestError; HTTPServerSideError; HTTPTooManyRequests] o.

Definition connectivity_wait (attempt_number : nat) (o : outcome) : Z :=
  wait_combine [wait_retry_after_header (Some o);
                wait_exponential 200000 attempt_number].

Definition connectivity_stop : nat -> bool := stop_after_attempt 5.

(** What [super().request] does at one attempt: a response, or an exception
    of httpx (never one of the status errors, which only [raise_for_status]
    builds). *)
Inductive transport : Type :=
| Responds (resp : Response)
| Fails (is_request_error : bool).

(** The body of [AsyncClient.request]. *)
Definition request_body (t : transport) : outcome :=
  match t with
  | Fails true => Raised (PlainExc RequestError)
  | Fails false => Raised (PlainExc OtherException)
  | Responds resp =>
      match raise_for_status resp with
      | inr e => Raised e
      | inl _ => Returned resp
      end
  end.

(** The run of a decorated call: its result (the response returned or the
    exception raised to the caller), the outcomes of the attempts made, in
    order, and the sleeps between them. *)
Record run : Type := mkRun {
  result : outcome;
  attempts : list outcome;
  sleeps : list Z
}.

(** Modelled from the spec: the loop of [tenacity.retry] (not part of the
    repository): an attempt whose outcome the [retry] predicate rejects ends
    the call with that outcome; otherwise, when [stop] holds the exception is
    raised again ([reraise=True]), else the call sleeps for [wait] and tries
    again.  [remaining] bounds the attempts still allowed; the stop predicate
    is reached first. *)
Fixpoint retrying (remaining : nat) (attempt_number : nat)
         (answers : nat -> transport) (made : list outcome) (slept : list Z)
  : run :=
  let o := request_body (answers attempt_number) in
  if negb (connectivity_retry o) then mkRun o (made ++ [o]) slept
  else if connectivity_stop attempt_number then mkRun o (made ++ [o]) slept
  else
    match remaining with
    | O => mkRun o (made ++ [o]) slept
    | S remaining' =>
        retrying remaining' (S attempt_number) answers (made ++ [o])
                 (slept ++ [connectivity_wait attempt_number o])
    end.

(** [AsyncClient.request]: [answers n] is what the transport does at the
    attempt numbered [n] (from 1). *)
Definition request (answers : nat -> transport) : run :=
  retrying 5 1 answers [] [].

End Retry.

End Http.

(* ================================================================== *)
(** * queue/merge_train.py: the data model *)
(* ================================================================== *)

Definition GitHubPullRequestNumber : Type := Z.
Definition SHAType : Type := string.

(** What the source reads of a queue rule's configuration
    ([rules.QueueRule.config]). *)
Record QueueConfig : Type := mkQueueConfig {
  speculative_checks : Z;
  batch_size : Z;
  batch_max_wait_time : Z;
  allow_inplace_checks : bool;
  allow_checks_interruption : bool;
  draft_bot_account : option string
}.

(** [queue.PullQueueConfig], the configuration snapshot of an embarked
    pull. *)
Record PullQueueConfig : Type := mkPullQueueConfig {
  name : string;
  effective_priority : Z;
  priority : Z;
  update_method : option string;
  update_bot_account : option string;
  queue_config : QueueConfig
}.

Record EmbarkedPull : Type := mkEmbarkedPull {
  user_pull_request_number : GitHubPullRequestNumber;
  config : PullQueueConfig;
  queued_at : Z
}.

Inductive TrainCarState : Type := pending | created | updated | failed.

(** Modelled from the spec: [check_api.Conclusion], declared outside the
    source files at hand; the spec lists these conclusions. *)
Inductive Conclusion : Type :=
| PENDING | SUCCESS | FAILURE | CANCELLED | NEUTRAL | ACTION_REQUIRED.

Inductive CheckStateT : Type :=
| st_success | st_failure | st_error | st_cancelled | st_skipped
| st_action_required | st_timed_out | st_pending | st_neutral | st_stale.

Record QueueCheck : Type := mkQueueCheck {
  qc_name : string;
  qc_description : string;
  qc_url : option string;
  qc_state : CheckStateT;
  qc_avatar_url : option string
}.

(** [TrainCar]; the back reference [train] is the train that holds the car
    and is not a field of the embedding. *)
Inductive TrainCar : Type := mkTrainCar {
  initial_embarked_pulls : list EmbarkedPull;
  still_queued_embarked_pulls : list EmbarkedPull;
  parent_pull_request_numbers : list GitHubPullRequestNumber;
  initial_current_base_sha : SHAType;
  creation_date : Z;
  creation_state : TrainCarState;
  checks_conclusion : Conclusion;
  queue_pull_request_number : option GitHubPullRequestNumber;
  failure_history : list TrainCar;
  head_branch : option string;
  last_checks : list QueueCheck;
  last_evaluated_conditions : option string;
  has_timed_out : bool
}.

(** The stored part of a [Train]. *)
Record Train : Type := mkTrain {
  cars : list TrainCar;
  waiting_pulls : list EmbarkedPull;
  current_base_sha : option SHAType
}.

(** ** Equality tests ([==] of the dataclasses, tuples and dicts) *)

Definition option_eqb {A} (eqb : A -> A -> bool) (a b : option A) : bool :=
  match a, b with
  | Some x, Some y => eqb x y
  | None, None => true
  | _, _ => false
  end.

Fixpoint list_eqb {A} (eqb : A -> A -> bool) (a b : list A) : bool :=
  match a, b with
  | [], [] => true
  | x :: a', y :: b' => eqb x y && list_eqb eqb a' b'
  | _, _ => false
  end.

Definition QueueConfig_eqb (a b : QueueConfig) : bool :=
  (speculative_checks a =? speculative_checks b) &&
  (batch_size a =? batch_size b) &&
  (batch_max_wait_time a =? batch_max_wait_time b) &&
  Bool.eqb (allow_inplace_checks a) (allow_inplace_checks b) &&
  Bool.eqb (allow_checks_interruption a) (allow_checks_interruption b) &&
  option_eqb String.eqb (draft_bot_account a) (draft_bot_account b).

Definition PullQueueConfig_eqb (a b : PullQueueConfig) : bool :=
  String.eqb (name a) (name b) &&
  (effective_priority a =? effective_priority b) &&
  (priority a =? priority b) &&
  option_eqb String.eqb (update_method a) (update_method b) &&
  option_eqb String.eqb (update_bot_account a) (update_bot_account b) &&
  QueueConfig_eqb (queue_config a) (queue_config b).

Definition EmbarkedPull_eqb (a b : EmbarkedPull) : bool :=
  (user_pull_request_number a =? user_pull_request_number b) &&
  PullQueueConfig_eqb (config a) (config b) &&
  (queued_at a =? queued_at b).

Definition TrainCarState_eqb (a b : TrainCarState) : bool :=
  match a, b with
  | pending, pending | created, created | updated, updated
  | failed, failed => true
  | _, _ => false
  end.

Definition Conclusion_eqb (a b : Conclusion) : bool :=
  match a, b with
  | PENDING, PENDING | SUCCESS, SUCCESS | FAILURE, FAILURE
  | CANCELLED, CANCELLED | NEUTRAL, NEUTRAL
  | ACTION_REQUIRED, ACTION_REQUIRED => true
  | _, _ => false
  end.

Definition CheckStateT_eqb (a b : CheckStateT) : bool :=
  match a, b with
  | st_success, st_success | st_failure, st_failure | st_error, st_error
  | st_cancelled, st_cancelled | st_skipped, st_skipped
  | st_action_required, st_action_required | st_timed_out, st_timed_out
  | st_pending, st_pending | st_neutral, st_neutral
  | st_stale, st_stale => true
  | _, _ => false
  end.

Definition QueueCheck_eqb (a b : QueueCheck) : bool :=
  String.eqb (qc_name a) (qc_name b) &&
  String.eqb (qc_description a) (qc_description b) &&
  option_eqb String.eqb (qc_url a) (qc_url b) &&
  CheckStateT_eqb (qc_state a) (qc_state b) &&
  option_eqb String.eqb (qc_avatar_url a) (qc_avatar_url b).

(** [TrainCar.__eq__], generated by [dataclasses.dataclass]: field by
    field (the [train] of two cars of one train is the same object). *)
Fixpoint TrainCar_eqb (a b : TrainCar) {struct a} : bool :=
  match a, b with
  | mkTrainCar i1 s1 p1 sha1 d1 cs1 cc1 q1 fh1 hb1 lc1 le1 t1,
    mkTrainCar i2 s2 p2 sha2 d2 cs2 cc2 q2 fh2 hb2 lc2 le2 t2 =>
      list_eqb EmbarkedPull_eqb i1 i2 &&
      list_eqb EmbarkedPull_eqb s1 s2 &&
      list_eqb Z.eqb p1 p2 &&
      String.eqb sha1 sha2 &&
      (d1 =? d2) &&
      TrainCarState_eqb cs1 cs2 &&
      Conclusion_eqb cc1 cc2 &&
      option_eqb Z.eqb q1 q2 &&
      (fix hist (l1 l2 : list TrainCar) {struct l1} : bool :=
         match l1, l2 with
         | [], [] => true
         | x :: l1', y :: l2' => TrainCar_eqb x y && hist l1' l2'
         | _, _ => false
         end) fh1 fh2 &&
      option_eqb String.eqb hb1 hb2 &&
      list_eqb QueueCheck_eqb lc1 lc2 &&
      option_eqb String.eqb le1 le2 &&
      Bool.eqb t1 t2
  end.

(** ** Python errors raised by the modelled code *)

Inductive exn : Type :=
| KeyError (key : string)
| TypeError
| IndexError
| UnboundLocalError
| RuntimeError (message : string)
| TrainCarPullRequestCreationPostponed
| TrainCarPullRequestCreationFailure
| ValueError
| RetryError
| HTTPError (cls : Http.exc_class) (status : Z) (message : string).

Inductive result (A : Type) : Type :=
| Ok (a : A)
| Err (e : exn).
Arguments Ok {A} a.
Arguments Err {A} e.

Definition rbind {A B} (r : result A) (f : A -> result B) : result B :=
  match r with Ok a => f a | Err e => Err e end.

Notation "x <-- c1 ;; c2" := (rbind c1 (fun x => c2))
  (at level 61, c1 at next level, right associativity).

Fixpoint rmap {A B} (f : A -> result B) (l : list A) : result (list B) :=
  match l with
  | [] => Ok []
  | x :: l' => y <-- f x ;; ys <-- rmap f l' ;; Ok (y :: ys)
  end.

(* ================================================================== *)
(** * queue/merge_train.py: the persisted document *)
(* ================================================================== *)

(** The values of a stored document.  [mergify_engine.json] writes and reads
    back datetimes and enumeration members as such, and a named tuple as a
    list; the configuration dict of an embarked pull is stored and read back
    whole and is a leaf here. *)
Inductive json : Type :=
| JNone
| JBool (b : bool)
| JInt (n : Z)
| JStr (s : string)
| JDatetime (t : Z)
| JConclusion (c : Conclusion)
| JConfig (c : PullQueueConfig)
| JList (l : list json)
| JDict (d : list (string * json)).

(** [d.get(key)] on the items of a dict. *)
Fixpoint dict_get (d : list (string * json)) (key : string) : option json :=
  match d with
  | [] => None
  | (k, v) :: d' => if String.eqb k key then Some v else dict_get d' key
  end.

(** [key in d] *)
Definition dict_has (d : list (string * json)) (key : string) : bool :=
  match dict_get d key with Some _ => true | None => false end.

(** [d[key]] *)
Definition dict_item (d : list (string * json)) (key : string) : result json :=
  match dict_get d key with Some v => Ok v | None => Err (KeyError key) end.

(** *** Values of the declared types, as document values *)

Definition json_of_option {A} (f : A -> json) (o : option A) : json :=
  match o with Some a => f a | None => JNone end.

Definition TrainCarState_str (st : TrainCarState) : string :=
  match st with
  | pending => "pending" | created => "created"
  | updated => "updated" | failed => "failed"
  end.

Definition CheckStateT_str (st : CheckStateT) : string :=
  match st with
  | st_success => "success" | st_failure => "failure" | st_error => "error"
  | st_cancelled => "cancelled" | st_skipped => "skipped"
  | st_action_required => "action_required" | st_timed_out => "timed_out"
  | st_pending => "pending" | st_neutral => "neutral" | st_stale => "stale"
  end.

(** An [EmbarkedPull] is a named tuple: a three-element list once stored. *)
Definition EmbarkedPull_json (ep : EmbarkedPull) : json :=
  JList [JInt (user_pull_request_number ep); JConfig (config ep);
         JDatetime (queued_at ep)].

(** [dataclasses.asdict(c)] for a [QueueCheck]. *)
Definition QueueCheck_asdict (c : QueueCheck) : json :=
  JDict [("name", JStr (qc_name c));
         ("description", JStr (qc_description c));
         ("url", json_of_option JStr (qc_url c));
         ("state", JStr (CheckStateT_str (qc_state c)));
         ("avatar_url", json_of_option JStr (qc_avatar_url c))].

(** [TrainCar.serialized] *)
Fixpoint serialized (self : TrainCar) : json :=
  match self with
  | mkTrainCar initial still parents sha date state conclusion number history
               branch checks conditions timed_out =>
      JDict
        [("initial_embarked_pulls", JList (map EmbarkedPull_json initial));
         ("still_queued_embarked_pulls", JList (map EmbarkedPull_json still));
         ("parent_pull_request_numbers", JList (map JInt parents));
         ("initial_current_base_sha", JStr sha);
         ("creation_date", JDatetime date);
         ("creation_state", JStr (TrainCarState_str state));
         ("checks_conclusion", JConclusion conclusion);
         ("queue_pull_request_number", json_of_option JInt number);
         ("failure_history", JList (map serialized history));
         ("head_branch", json_of_option JStr branch);
         ("last_checks", JList (map QueueCheck_asdict checks));
         ("last_evaluated_conditions", json_of_option JStr conditions);
         ("has_timed_out", JBool timed_out)]
  end.

(** *** Reading values of the declared types; a value of another type has no
    counterpart in the typed records and is answered with [TypeError]. *)

Definition as_int (v : json) : result Z :=
  match v with JInt n => Ok n | _ => Err TypeError end.
Definition as_str (v : json) : result string :=
  match v with JStr s => Ok s | _ => Err TypeError end.
Definition as_bool (v : json) : result bool :=
  match v with JBool b => Ok b | _ => Err TypeError end.
Definition as_datetime (v : json) : result Z :=
  match v with JDatetime t => Ok t | _ => Err TypeError end.
Definition as_conclusion (v : json) : result Conclusion :=
  match v with JConclusion c => Ok c | _ => Err TypeError end.
Definition as_config (v : json) : result PullQueueConfig :=
  match v with JConfig c => Ok c | _ => Err TypeError end.
Definition as_list (v : json) : result (list json) :=
  match v with JList l => Ok l | _ => Err TypeError end.
Definition as_dict (v : json) : result (list (string * json)) :=
  match v with JDict d => Ok d | _ => Err TypeError end.
Definition as_optional {A} (f : json -> result A) (v : json)
  : result (option A) :=
  match v with JNone => Ok None | _ => a <-- f v ;; Ok (Some a) end.

Definition as_TrainCarState (v : json) : result TrainCarState :=
  s <-- as_str v ;;
  if String.eqb s "pending" then Ok pending
  else if String.eqb s "created" then Ok created
  else if String.eqb s "updated" then Ok updated
  else if String.eqb s "failed" then Ok failed
  else Err TypeError.

Definition as_CheckStateT (v : json) : result CheckStateT :=
  s <-- as_str v ;;
  if String.eqb s "success" then Ok st_success
  else if String.eqb s "failure" then Ok st_failure
  else if String.eqb s "error" then Ok st_error
  else if String.eqb s "cancelled" then Ok st_cancelled
  else if String.eqb s "skipped" then Ok st_skipped
  else if String.eqb s "action_required" then Ok st_action_required
  else if String.eqb s "timed_out" then Ok st_timed_out
  else if String.eqb s "pending" then Ok st_pending
  else if String.eqb s "neutral" then Ok st_neutral
  else if String.eqb s "stale" then Ok st_stale
  else Err TypeError.

(** The constructor [EmbarkedPull] applied to the elements of [ep]. *)
Definition EmbarkedPull_of_json (ep : json) : result EmbarkedPull :=
  l <-- as_list ep ;;
  match l with
  | [n; c; t] =>
      n' <-- as_int n ;; c' <-- as_config c ;; t' <-- as_datetime t ;;
      Ok (mkEmbarkedPull n' c' t')
  | _ => Err TypeError
  end.

(** The constructor [QueueCheck] applied to the items of [c]: exactly the
    five fields, validated by pydantic. *)
Definition QueueCheck_of_json (c : json) : result QueueCheck :=
  d <-- as_dict c ;;
  if negb (Nat.eqb (List.length d) 5) then Err TypeError else
  n <-- (v <-- dict_item d "name" ;; as_str v) ;;
  de <-- (v <-- dict_item d "description" ;; as_str v) ;;
  u <-- (v <-- dict_item d "url" ;; as_optional as_str v) ;;
  st <-- (v <-- dict_item d "state" ;; as_CheckStateT v) ;;
  a <-- (v <-- dict_item d "avatar_url" ;; as_optional as_str v) ;;
  Ok (mkQueueCheck n de u st a).

(** [TrainCar._get_pulls_branch_ref] *)
Definition _get_pulls_branch_ref (initial : list EmbarkedPull) : string :=
  Py.join "-" (map (fun ep => Py.str (user_pull_request_number ep)) initial).

Section Deserialize.

(** [date.utcnow()] at the time of the call. *)
Variable utcnow : Z.

(** [TrainCar.deserialize]; the two inner loops find ["failure_history"]
    among the items of [data] and deserialize its elements. *)
Fixpoint deserialize (data : json) {struct data} : result TrainCar :=
  match data with
  | JDict d =>
      embarked <--
        (if dict_has d "initial_embarked_pulls" then
           i <-- (v <-- dict_item d "initial_embarked_pulls" ;;
                  l <-- as_list v ;; rmap EmbarkedPull_of_json l) ;;
           s <-- (v <-- dict_item d "still_queued_embarked_pulls" ;;
                  l <-- as_list v ;; rmap EmbarkedPull_of_json l) ;;
           Ok (i, s)
         else
           (* old format *)
           n <-- (v <-- dict_item d "user_pull_request_number" ;; as_int v) ;;
           c <-- (v <-- dict_item d "config" ;; as_config v) ;;
           t <-- (v <-- dict_item d "queued_at" ;; as_datetime v) ;;
           Ok ([mkEmbarkedPull n c t], [mkEmbarkedPull n c t])) ;;
      creation_state_ <--
        (if dict_has d "creation_state" then
           v <-- dict_item d "creation_state" ;; as_TrainCarState v
         else v <-- dict_item d "state" ;; as_TrainCarState v) ;;
      failure_history_ <--
        (fix find (items : list (string * json)) : result (list TrainCar) :=
           match items with
           | [] => Ok []
           | (k, v) :: items' =>
               if String.eqb k "failure_history" then
                 match v with
                 | JList l =>
                     (fix each (l : list json) : result (list TrainCar) :=
                        match l with
                        | [] => Ok []
                        | fh :: l' =>
                            c <-- deserialize fh ;;
                            cs <-- each l' ;; Ok (c :: cs)
                        end) l
                 | _ => Err TypeError
                 end
               else find items'
           end) d ;;
      creation_date_ <--
        (if dict_has d "creation_date" then
           v <-- dict_item d "creation_date" ;; as_datetime v
         else Ok utcnow) ;;
      last_checks_ <--
        (if dict_has d "last_checks" then
           v <-- dict_item d "last_checks" ;;
           l <-- as_list v ;; rmap QueueCheck_of_json l
         else Ok []) ;;
      parents <-- (v <-- dict_item d "parent_pull_request_numbers" ;;
                   l <-- as_list v ;; rmap as_int l) ;;
      sha <-- (v <-- dict_item d "initial_current_base_sha" ;; as_str v) ;;
      conclusion <--
        (match dict_get d "checks_conclusion" with
         | Some v => as_conclusion v
         | None => Ok PENDING
         end) ;;
      number <-- (v <-- dict_item d "queue_pull_request_number" ;;
                  as_optional as_int v) ;;
      branch <--
        (match dict_get d "head_branch" with
         | Some v => as_optional as_str v
         | None => Ok None
         end) ;;
      conditions <--
        (match dict_get d "last_evaluated_conditions" with
         | Some v => as_optional as_str v
         | None => Ok None
         end) ;;
      timed_out <--
        (match dict_get d "has_timed_out" with
         | Some v => as_bool v
         | None => Ok false
         end) ;;
      Ok (mkTrainCar (fst embarked) (snd embarked) parents sha creation_date_
            creation_state_ conclusion number failure_history_
            (if dict_has d "head_branch" then branch
             else Some (_get_pulls_branch_ref (fst embarked)))
            last_checks_ conditions timed_out)
  | _ => Err TypeError
  end.

(** [Train.save]: the document written with [hset], or [None] when the key is
    deleted with [hdel]. *)
Definition save_document (self : Train) : option json :=
  match waiting_pulls self, cars self with
  | [], [] => None
  | _, _ =>
      Some (JDict [("waiting_pulls",
                     JList (map EmbarkedPull_json (waiting_pulls self)));
                   ("current_base_sha",
                     json_of_option JStr (current_base_sha self));
                   ("cars", JList (map serialized (cars self)))])
  end.

(** [Train.load] from the raw value found in the store. *)
Definition load (train_raw : option json) : result Train :=
  match train_raw with
  | Some train =>
      d <-- as_dict train ;;
      waiting <-- (v <-- dict_item d "waiting_pulls" ;;
                   l <-- as_list v ;; rmap EmbarkedPull_of_json l) ;;
      base <-- (v <-- dict_item d "current_base_sha" ;;
                as_optional as_str v) ;;
      cars_ <-- (v <-- dict_item d "cars" ;;
                 l <-- as_list v ;; rmap deserialize l) ;;
      Ok (mkTrain cars_ waiting base)
  | None => Ok (mkTrain [] [] None)
  end.

End Deserialize.

(* ================================================================== *)
(** * queue/merge_train.py: effects *)
(* ================================================================== *)

(** The requests the engine sends while it works on a train; titles, bodies
    and log records are left out. *)
Inductive action : Type :=
| CreateRef (head_branch : string) (sha : SHAType)
| MergeIntoRef (head_branch : string) (pull_number : Z)
| OpenPull (head_branch : string)
| DeleteRef (head_branch : option string)
| PatchPullBody (number : Z)
| SetSummaryCheck (number : Z) (conclusion : Conclusion)
| SetCheckRun (number : Z) (conclusion : Conclusion)
| PostComment (number : Z)
| ClosePull (number : Z)
| UpdateBranch (number : Z)
| SendPullRefresh (number : Z) (source : string)
| RefreshPulls (source : string) (additional : option Z)
| PlanRefreshAt (number : Z) (at_ : Z)
| RedisHSet (document : json)
| RedisHDel.

(** The answer of the hosting platform to a request: the status code and the
    message of the response. *)
Record answer : Type := mkAnswer {
  ans_status : Z;
  ans_message : string
}.

(** The pull request data read from a context ([ctxt.pull]) or from
    [GET pulls/<n>]. *)
Record Pull : Type := mkPull {
  number : GitHubPullRequestNumber;
  merged : bool;
  merge_commit_sha : option SHAType
}.

(** The collaborators of the train during one operation: the hosting
    platform, the rule evaluator, the branch updater, the token store and the
    clock. *)
Record Host : Type := mkHost {
  utcnow : Z;
  (** [GET branches/<ref>]: the head sha of the target branch *)
  base_sha : SHAType;
  (** [GET pulls/<n>] *)
  get_pull : Z -> Pull;
  (** [DELETE git/refs/heads/...] for a head branch *)
  delete_ref : option string -> answer;
  (** [POST git/refs] for a head branch *)
  create_ref : string -> answer;
  (** [POST merges] of a pull into a head branch, at the attempt numbered
      from 1 *)
  merge_into_ref : string -> Z -> nat -> answer;
  (** [POST pulls] from a head branch and the number of the pull opened *)
  open_pull : string -> answer * Z;
  (** whether the token store knows the bot account *)
  token_known : string -> bool;
  (** [ctxt.is_behind] of a pull *)
  is_behind : Z -> bool;
  (** whether [branch_updater.update] succeeds on a pull *)
  branch_update_ok : Z -> bool;
  (** whether the engine summary of a draft pull is missing or pending *)
  summary_pending : Z -> bool;
  (** whether the body of a draft pull already is the one generated *)
  body_up_to_date : Z -> bool;
  (** the rule evaluator on the pulls to evaluate: the summary of the
      conditions and whether the checks-timeout condition is unmatched *)
  evaluate : list Z -> string * bool;
  (** the check-runs (the engine's own left out) and statuses of a pull *)
  pull_checks : Z -> list QueueCheck
}.

(** Code that mutates [self] (a value of type [S]), sends requests and may
    raise: the state reached and the requests sent are kept when an exception
    is raised. *)
Definition M (S A : Type) : Type :=
  S -> list action -> result A * S * list action.

Definition ret {S A} (a : A) : M S A := fun s tr => (Ok a, s, tr).

Definition bind {S A B} (m : M S A) (f : A -> M S B) : M S B :=
  fun s tr =>
    match m s tr with
    | (Ok a, s', tr') => f a s' tr'
    | (Err e, s', tr') => (Err e, s', tr')
    end.

Definition raise {S A} (e : exn) : M S A := fun s tr => (Err e, s, tr).
Definition get {S} : M S S := fun s tr => (Ok s, s, tr).
Definition put {S} (s : S) : M S unit := fun _ tr => (Ok tt, s, tr).
Definition modify {S} (f : S -> S) : M S unit := fun s tr => (Ok tt, f s, tr).
Definition emit {S} (a : action) : M S unit :=
  fun s tr => (Ok tt, s, tr ++ [a]).
Definition lift {S A} (r : result A) : M S A := fun s tr => (r, s, tr).

(** [try: m except ...: handler]; the handler answers [None] for the
    exceptions no clause catches. *)
Definition try_except {S A} (m : M S A) (handler : exn -> option (M S A))
  : M S A :=
  fun s tr =>
    match m s tr with
    | (Err e, s', tr') =>
        match handler e with
        | Some h => h s' tr'
        | None => (Err e, s', tr')
        end
    | r => r
    end.

Notation "x <- c1 ;; c2" := (bind c1 (fun x => c2))
  (at level 61, c1 at next level, right associativity).
Notation "c1 ;;; c2" := (bind c1 (fun _ => c2))
  (at level 61, right associativity).

(** [for x in l: body x] *)
Fixpoint for_each {S A} (l : list A) (body : A -> M S unit) : M S unit :=
  match l with
  | [] => ret tt
  | x :: l' => body x ;;; for_each l' body
  end.

(** The exception an answer makes the client raise ([raise_for_status], after
    the retries of the client), if any. *)
Definition answer_exception (a : answer) : option exn :=
  match Http.raise_for_status (Http.mkResponse (ans_status a) None) with
  | inl _ => None
  | inr e => Some (HTTPError (Http.class_of e) (ans_status a) (ans_message a))
  end.

(** [isinstance(e, cls)] for the exceptions of the HTTP client. *)
Definition is_http (cls : Http.exc_class) (e : exn) : bool :=
  match e with
  | HTTPError c _ _ => Http.issubclass c cls
  | _ => false
  end.

Definition exn_status (e : exn) : Z :=
  match e with HTTPError _ st _ => st | _ => 0 end.
Definition exn_message (e : exn) : string :=
  match e with HTTPError _ _ m => m | _ => "" end.

(** [is_base_branch_not_exists_exception] *)
Definition is_base_branch_not_exists_exception (exc : exn) : bool :=
  is_http Http.HTTPNotFound exc &&
  Py.contains (exn_message exc) "Base does not exist".

(** ** Field updates of the mutable records *)

Definition set_initial_embarked_pulls (v : list EmbarkedPull) (c : TrainCar) :=
  mkTrainCar v (still_queued_embarked_pulls c)
    (parent_pull_request_numbers c) (initial_current_base_sha c)
    (creation_date c) (creation_state c) (checks_conclusion c)
    (queue_pull_request_number c) (failure_history c) (head_branch c)
    (last_checks c) (last_evaluated_conditions c) (has_timed_out c).

Definition set_still_queued_embarked_pulls (v : list EmbarkedPull)
    (c : TrainCar) :=
  mkTrainCar (initial_embarked_pulls c) v
    (parent_pull_request_numbers c) (initial_current_base_sha c)
    (creation_date c) (creation_state c) (checks_conclusion c)
    (queue_pull_request_number c) (failure_history c) (head_branch c)
    (last_checks c) (last_evaluated_conditions c) (has_timed_out c).

Definition set_parent_pull_request_numbers (v : list Z) (c : TrainCar) :=
  mkTrainCar (initial_embarked_pulls c) (still_queued_embarked_pulls c)
    v (initial_current_base_sha c)
    (creation_date c) (creation_state c) (checks_conclusion c)
    (queue_pull_request_number c) (failure_history c) (head_branch c)
    (last_checks c) (last_evaluated_conditions c) (has_timed_out c).

Definition set_creation_state (v : TrainCarState) (c : TrainCar) :=
  mkTrainCar (initial_embarked_pulls c) (still_queued_embarked_pulls c)
    (parent_pull_request_numbers c) (initial_current_base_sha c)
    (creation_date c) v (checks_conclusion c)
    (queue_pull_request_number c) (failure_history c) (head_branch c)
    (last_checks c) (last_evaluated_conditions c) (has_timed_out c).

Definition set_checks_conclusion (v : Conclusion) (c : TrainCar) :=
  mkTrainCar (initial_embarked_pulls c) (still_queued_embarked_pulls c)
    (parent_pull_request_numbers c) (initial_current_base_sha c)
    (creation_date c) (creation_state c) v
    (queue_pull_request_number c) (failure_history c) (head_branch c)
    (last_checks c) (last_evaluated_conditions c) (has_timed_out c).

Definition set_queue_pull_request_number (v : option Z) (c : TrainCar) :=
  mkTrainCar (initial_embarked_pulls c) (still_queued_embarked_pulls c)
    (parent_pull_request_numbers c) (initial_current_base_sha c)
    (creation_date c) (creation_state c) (checks_conclusion c)
    v (failure_history c) (head_branch c)
    (last_checks c) (last_evaluated_conditions c) (has_timed_out c).

Definition set_head_branch (v : option string) (c : TrainCar) :=
  mkTrainCar (initial_embarked_pulls c) (still_queued_embarked_pulls c)
    (parent_pull_request_numbers c) (initial_current_base_sha c)
    (creation_date c) (creation_state c) (checks_conclusion c)
    (queue_pull_request_number c) (failure_history c) v
    (last_checks c) (last_evaluated_conditions c) (has_timed_out c).

Definition set_last_checks (v : list QueueCheck) (c : TrainCar) :=
  mkTrainCar (initial_embarked_pulls c) (still_queued_embarked_pulls c)
    (parent_pull_request_numbers c) (initial_current_base_sha c)
    (creation_date c) (creation_state c) (checks_conclusion c)
    (queue_pull_request_number c) (failure_history c) (head_branch c)
    v (last_evaluated_conditions c) (has_timed_out c).

Definition set_last_evaluated_conditions (v : option string) (c : TrainCar) :=
  mkTrainCar (initial_embarked_pulls c) (still_queued_embarked_pulls c)
    (parent_pull_request_numbers c) (initial_current_base_sha c)
    (creation_date c) (creation_state c) (checks_conclusion c)
    (queue_pull_request_number c) (failure_history c) (head_branch c)
    (last_checks c) v (has_timed_out c).

Definition set_has_timed_out (v : bool) (c : TrainCar) :=
  mkTrainCar (initial_embarked_pulls c) (still_queued_embarked_pulls c)
    (parent_pull_request_numbers c) (initial_current_base_sha c)
    (creation_date c) (creation_state c) (checks_conclusion c)
    (queue_pull_request_number c) (failure_history c) (head_branch c)
    (last_checks c) (last_evaluated_conditions c) v.

Definition set_cars (v : list TrainCar) (t : Train) :=
  mkTrain v (waiting_pulls t) (current_base_sha t).
Definition set_waiting_pulls (v : list EmbarkedPull) (t : Train) :=
  mkTrain (cars t) v (current_base_sha t).
Definition set_current_base_sha (v : option SHAType) (t : Train) :=
  mkTrain (cars t) (waiting_pulls t) v.

(** The numbers of a list of embarked pulls. *)
Definition numbers (l : list EmbarkedPull) : list Z :=
  map user_pull_request_number l.

(* ================================================================== *)
(** * queue/merge_train.py: [TrainCar] *)
(* ================================================================== *)

Section TrainCarMethods.

Variable host : Host.

(** [TrainCar._delete_branch] *)
Definition _delete_branch : M TrainCar unit :=
  self <- get ;;
  emit (DeleteRef (head_branch self)) ;;;
  match answer_exception (delete_ref host (head_branch self)) with
  | None => ret tt
  | Some exc =>
      if is_http Http.HTTPNotFound exc then ret tt
      else if is_http Http.HTTPClientSideError exc then
        if (exn_status exc =? 422) &&
           Py.contains (exn_message exc) "Reference does not exist"
        then ret tt
        else raise exc
      else raise exc
  end.

(** [TrainCar._set_creation_failure]; [pull_requests] restricts the pulls
    that are told. *)
Definition _set_creation_failure (pull_requests : option (list Z))
  : M TrainCar unit :=
  modify (set_creation_state failed) ;;;
  self <- get ;;
  for_each (still_queued_embarked_pulls self) (fun embarked_pull =>
    let n := user_pull_request_number embarked_pull in
    match pull_requests with
    | Some l =>
        if negb (existsb (Z.eqb n) l) then ret tt
        else emit (SetCheckRun n ACTION_REQUIRED) ;;;
             emit (SendPullRefresh n "draft pull creation error")
    | None =>
        emit (SetCheckRun n ACTION_REQUIRED) ;;;
        emit (SendPullRefresh n "draft pull creation error")
    end).

(** [TrainCar.get_pull_requests_to_evaluate], as the numbers of the pulls
    handed to the rule evaluator. *)
Definition get_pull_requests_to_evaluate : M TrainCar (list Z) :=
  self <- get ;;
  match creation_state self with
  | updated =>
      match still_queued_embarked_pulls self with
      | [ep] => ret [user_pull_request_number ep]
      | _ => raise (RuntimeError "multiple embarked_pulls but state==updated")
      end
  | created =>
      match queue_pull_request_number self with
      | None =>
          raise (RuntimeError
                   "car state is created, but queue_pull_request_number is None")
      | Some _ => ret (numbers (still_queued_embarked_pulls self))
      end
  | failed => ret (numbers (still_queued_embarked_pulls self))
  | pending => raise (RuntimeError "Invalid state: pending")
  end.

(** [TrainCar.update_state]; [evaluated_queue_rule] is the summary of the
    evaluated conditions and whether the checks-timeout condition is
    unmatched. *)
Definition update_state (conclusion : Conclusion)
    (evaluated_queue_rule : string * bool) : M TrainCar unit :=
  modify (set_checks_conclusion conclusion) ;;;
  modify (set_last_evaluated_conditions (Some (fst evaluated_queue_rule))) ;;;
  modify (set_last_checks []) ;;;
  modify (set_has_timed_out false) ;;;
  (if Conclusion_eqb conclusion FAILURE && snd evaluated_queue_rule
   then modify (set_has_timed_out true) else ret tt) ;;;
  self <- get ;;
  match creation_state self with
  | created =>
      match queue_pull_request_number self with
      | None =>
          raise (RuntimeError
                   "car state is created, but queue_pull_request_number is None")
      | Some n => modify (set_last_checks (pull_checks host n))
      end
  | updated =>
      match still_queued_embarked_pulls self with
      | [ep] =>
          modify (set_last_checks
                    (pull_checks host (user_pull_request_number ep)))
      | _ => raise (RuntimeError "multiple embarked_pulls but state==updated")
      end
  | _ => ret tt
  end.

(** [TrainCar.update_summaries] without an unexpected change: the check-runs
    posted and, for a draft pull that concluded, the comment and the
    closing. *)
Definition update_summaries (conclusion : Conclusion) : M TrainCar unit :=
  self <- get ;;
  (match creation_state self with
   | created =>
       match queue_pull_request_number self with
       | None =>
           raise (RuntimeError
                    "car state is created, but queue_pull_request_number is None")
       | Some n =>
           (if negb (body_up_to_date host n) then emit (PatchPullBody n)
            else ret tt) ;;;
           emit (SetSummaryCheck n conclusion)
       end
   | updated =>
       match still_queued_embarked_pulls self with
       | [_] => ret tt
       | _ => raise (RuntimeError "multiple embarked_pulls but state==updated")
       end
   | _ => ret tt
   end) ;;;
  for_each (still_queued_embarked_pulls self) (fun ep =>
    emit (SetCheckRun (user_pull_request_number ep) conclusion) ;;;
    if TrainCarState_eqb (creation_state self) created &&
       negb (Conclusion_eqb conclusion PENDING)
    then emit (SendPullRefresh (user_pull_request_number ep)
                 "draft pull request state change")
    else ret tt) ;;;
  match creation_state self, queue_pull_request_number self with
  | created, Some n =>
      if Conclusion_eqb conclusion SUCCESS || Conclusion_eqb conclusion FAILURE
      then emit (PostComment n) ;;; emit (ClosePull n)
      else ret tt
  | _, _ => ret tt
  end.

(** [TrainCar.update_user_pull] *)
Definition update_user_pull (queue_rule : QueueConfig) : M TrainCar unit :=
  self <- get ;;
  match still_queued_embarked_pulls self with
  | [ep] =>
      let n := user_pull_request_number ep in
      modify (set_creation_state updated) ;;;
      if negb (is_behind host n) then
        emit (SendPullRefresh n "updated pull need to be merge")
      else
        emit (UpdateBranch n) ;;;
        (if branch_update_ok host n then ret tt
         else _set_creation_failure None ;;;
              raise TrainCarPullRequestCreationFailure) ;;;
        update_state PENDING (evaluate host [n]) ;;;
        update_summaries PENDING
  | _ => raise (RuntimeError "multiple embarked_pulls but state==updated")
  end.

(** The [tenacity.AsyncRetrying] loop around [POST merges]: up to four
    attempts while the answer is "Base does not exist"; [reraise] is not set,
    so the loop ends with tenacity's [RetryError] when the fourth attempt
    still fails that way. *)
Fixpoint merge_attempts (remaining : nat) (attempt_number : nat)
    (branch : string) (pull_number : Z) : M TrainCar unit :=
  emit (MergeIntoRef branch pull_number) ;;;
  match answer_exception (merge_into_ref host branch pull_number attempt_number)
  with
  | None => ret tt
  | Some exc =>
      if negb (is_base_branch_not_exists_exception exc) then raise exc
      else if (4 <=? attempt_number)%nat then raise RetryError
      else
        match remaining with
        | O => raise RetryError
        | S remaining' =>
            merge_attempts remaining' (S attempt_number) branch pull_number
        end
  end.

(** [TrainCar.create_pull] *)
Definition create_pull (queue_rule : QueueConfig) : M TrainCar unit :=
  self0 <- get ;;
  let branch := _get_pulls_branch_ref (initial_embarked_pulls self0) in
  modify (set_head_branch (Some branch)) ;;;
  modify (set_creation_state created) ;;;
  (match draft_bot_account queue_rule with
   | Some bot_account =>
       if String.eqb bot_account "" then ret tt
       else if token_known host bot_account then ret tt
       else _set_creation_failure None ;;;
            raise TrainCarPullRequestCreationFailure
   | None => ret tt
   end) ;;;
  emit (CreateRef branch (initial_current_base_sha self0)) ;;;
  (match answer_exception (create_ref host branch) with
   | None => ret tt
   | Some exc =>
       if is_http Http.HTTPClientSideError exc then
         if (exn_status exc =? 422) &&
            Py.contains (exn_message exc) "Reference already exists"
         then
           try_except _delete_branch (fun exc_patch =>
             if is_http Http.HTTPClientSideError exc_patch then
               Some (_set_creation_failure None ;;;
                     raise TrainCarPullRequestCreationFailure)
             else None)
         else _set_creation_failure None ;;;
              raise TrainCarPullRequestCreationFailure
       else raise exc
   end) ;;;
  for_each (parent_pull_request_numbers self0 ++
            numbers (still_queued_embarked_pulls self0))
    (fun pull_number =>
       try_except (merge_attempts 3 1 branch pull_number) (fun e =>
         if is_http Http.HTTPClientSideError e then
           Some
             (if is_base_branch_not_exists_exception e then
                _delete_branch ;;; raise TrainCarPullRequestCreationPostponed
              else if (exn_status e =? 403) &&
                      Py.contains (exn_message e)
                        "Resource not accessible by integration"
              then
                _delete_branch ;;; raise TrainCarPullRequestCreationPostponed
              else if Py.contains (exn_message e) "Merge conflict" then
                _set_creation_failure (Some [pull_number]) ;;;
                _delete_branch ;;; raise TrainCarPullRequestCreationFailure
              else
                _set_creation_failure (Some [pull_number]) ;;;
                _delete_branch ;;; raise TrainCarPullRequestCreationFailure)
         else None)) ;;;
  emit (OpenPull branch) ;;;
  match answer_exception (fst (open_pull host branch)) with
  | Some e =>
      if is_http Http.HTTPClientSideError e then
        _set_creation_failure None ;;;
        raise TrainCarPullRequestCreationFailure
      else raise e
  | None =>
      modify (set_queue_pull_request_number (Some (snd (open_pull host branch)))) ;;;
      queue_pull_requests <- get_pull_requests_to_evaluate ;;
      update_state PENDING (evaluate host queue_pull_requests) ;;;
      update_summaries PENDING
  end.

(** [TrainCar.delete_pull] *)
Definition delete_pull (reason : option string) : M TrainCar unit :=
  self <- get ;;
  match queue_pull_request_number self, head_branch self with
  | Some n, Some _ =>
      if n =? 0 then ret tt
      else
        (if TrainCarState_eqb (creation_state self) created then
           match reason with
           | Some _ =>
               if summary_pending host n then
                 (if negb (body_up_to_date host n) then emit (PatchPullBody n)
                  else ret tt) ;;;
                 emit (SetSummaryCheck n CANCELLED)
               else ret tt
           | None => ret tt
           end
         else ret tt) ;;;
        _delete_branch
  | _, _ => ret tt
  end.

(** [TrainCar.has_previous_car_status_succeeded], on the cars of the train
    of [self]. *)
Definition has_previous_car_status_succeeded (train_cars : list TrainCar)
    (self : TrainCar) : result bool :=
  match Py.index TrainCar_eqb self train_cars with
  | None => Err ValueError
  | Some position =>
      if Nat.eqb position 0 then Ok true
      else Ok (Py.all (fun c => Conclusion_eqb (checks_conclusion c) SUCCESS)
                      (firstn position train_cars))
  end.

(** [TrainCar._get_previous_car] *)
Definition _get_previous_car (train_cars : list TrainCar) (self : TrainCar)
  : result (option TrainCar) :=
  match Py.index TrainCar_eqb self train_cars with
  | None => Err ValueError
  | Some position =>
      if Nat.eqb position 0 then Ok None
      else Ok (nth_error train_cars (position - 1))
  end.

End TrainCarMethods.

(* ================================================================== *)
(** * queue/merge_train.py: [Train] *)
(* ================================================================== *)

(** Modelled from the spec: [utils.split_list], whose code is not among the
    source files: "split xs into parts contiguous sublists whose sizes differ
    by at most 1; if parts > len(xs), trailing partitions are empty and
    skipped".  The first [len(xs) mod parts] sublists take the extra
    element. *)
Fixpoint take_groups {A} (xs : list A) (sizes : list nat) : list (list A) :=
  match sizes with
  | [] => []
  | O :: sizes' => take_groups xs sizes'
  | n :: sizes' => firstn n xs :: take_groups (skipn n xs) sizes'
  end.

Definition split_list {A} (xs : list A) (parts : Z) : list (list A) :=
  let p := Z.to_nat parts in
  let q := (List.length xs / p)%nat in
  let r := (List.length xs mod p)%nat in
  take_groups xs (repeat (S q) r ++ repeat q (p - r)).

(** [Train._get_next_batch]: the loop, with the loop variable [_i] (unbound
    before the first iteration) and whether the loop ended on [break]. *)
Fixpoint next_batch_loop (queue_name : string) (pulls : list EmbarkedPull)
    (position : nat) (_i : option nat) : option nat * bool :=
  match pulls with
  | [] => (_i, false)
  | pull :: pulls' =>
      if negb (String.eqb (name (config pull)) queue_name)
      then (Some position, true)
      else next_batch_loop queue_name pulls' (S position) (Some position)
  end.

Definition _get_next_batch (pulls : list EmbarkedPull) (queue_name : string)
    (batch_size : Z) : result (list EmbarkedPull * list EmbarkedPull) :=
  match pulls with
  | [] => Ok ([], [])
  | _ =>
      match next_batch_loop queue_name (Py.slice_to pulls batch_size) 0 None
      with
      | (Some _i, true) => Ok (firstn _i pulls, skipn _i pulls)
      | (Some _i, false) => Ok (firstn (S _i) pulls, skipn (S _i) pulls)
      | (None, _) => Err UnboundLocalError
      end
  end.

(** [Train._iter_embarked_pulls] *)
Definition _iter_embarked_pulls (self : Train)
  : list (EmbarkedPull * option TrainCar) :=
  flat_map (fun car => map (fun embarked_pull => (embarked_pull, Some car))
                           (still_queued_embarked_pulls car))
           (cars self)
  ++ map (fun embarked_pull => (embarked_pull, None)) (waiting_pulls self).

(** [Train.get_pulls] *)
Definition get_pulls (self : Train) : list GitHubPullRequestNumber :=
  map (fun item => user_pull_request_number (fst item))
      (_iter_embarked_pulls self).

(** [Train.find_embarked_pull] *)
Definition find_embarked_pull (self : Train) (pull_number : Z)
  : option (EmbarkedPull * option TrainCar) :=
  find (fun c => user_pull_request_number (fst c) =? pull_number)
       (_iter_embarked_pulls self).

(** [Train.get_config] *)
Definition get_config (self : Train) (pull_number : Z)
  : result PullQueueConfig :=
  match find_embarked_pull self pull_number with
  | Some item => Ok (config (fst item))
  | None => Err (RuntimeError "get_config on unknown pull request")
  end.

(** [Train.is_first_pull] *)
Definition is_first_pull (self : Train) (ctxt_pull : Pull) : bool :=
  match _iter_embarked_pulls self with
  | item :: _ => user_pull_request_number (fst item) =? number ctxt_pull
  | [] => false
  end.

(** [Train.get_car] *)
Definition get_car (self : Train) (ctxt_pull : Pull) : option TrainCar :=
  find (fun car => existsb (Z.eqb (number ctxt_pull))
                     (numbers (still_queued_embarked_pulls car)))
       (cars self).

(** [Train.get_car_by_tmp_pull] *)
Definition get_car_by_tmp_pull (self : Train) (ctxt_pull : Pull)
  : option TrainCar :=
  find (fun car => option_eqb Z.eqb (queue_pull_request_number car)
                     (Some (number ctxt_pull)))
       (cars self).

(** Modelled from the spec: [QueueBase.get_position], defined outside the
    source files: the position of the pull in [get_pulls], or [None]. *)
Fixpoint position_of (n : Z) (l : list Z) : option Z :=
  match l with
  | [] => None
  | x :: l' => if x =? n then Some 0
               else option_map Z.succ (position_of n l')
  end.

Definition get_position (self : Train) (ctxt_pull : Pull) : option Z :=
  position_of (number ctxt_pull) (get_pulls self).

(** The number of pulls in the cars:
    [sum(len(c.still_queued_embarked_pulls) for c in cars)]. *)
Definition number_of_pulls_in (cs : list TrainCar) : Z :=
  Py.sum (map (fun c => Py.len (still_queued_embarked_pulls c)) cs).

(** A fresh [TrainCar(...)] with the defaults of the dataclass. *)
Definition new_TrainCar (now : Z) (initial still : list EmbarkedPull)
    (parents : list Z) (sha : SHAType) (history : list TrainCar) : TrainCar :=
  mkTrainCar initial still parents sha now pending PENDING None history None
             [] None false.

Section TrainMethods.

Variable host : Host.

(** The queue rules of the configuration: [rules.QueueRules], by name. *)
Variable queue_rules : string -> option QueueConfig.

(** A method of a car called from the train, on a car it does not mutate. *)
Definition with_car {A} (c : TrainCar) (m : M TrainCar A) : M Train A :=
  fun t tr => let '(r, _, tr') := m c tr in (r, t, tr').

Fixpoint replace_nth {A} (l : list A) (i : nat) (x : A) : list A :=
  match l, i with
  | [], _ => []
  | _ :: l', O => x :: l'
  | y :: l', S i' => y :: replace_nth l' i' x
  end.

(** A method called on the car at position [i] of [self._cars]: the car is
    the object held by the list, so what the method changes is seen there. *)
Definition on_car {A} (i : nat) (m : M TrainCar A) : M Train A :=
  fun t tr =>
    match nth_error (cars t) i with
    | None => (Err IndexError, t, tr)
    | Some c =>
        let '(r, c', tr') := m c tr in
        (r, set_cars (replace_nth (cars t) i c') t, tr')
    end.

(** [Train.save] *)
Definition save : M Train unit :=
  self <- get ;;
  match save_document self with
  | Some document => emit (RedisHSet document)
  | None => emit RedisHDel
  end.

(** [Train._slice_cars]: the loop over [self._cars]. *)
Fixpoint _slice_cars_loop (todo : list TrainCar) (new_queue_size : Z)
    (reason : string) (new_cars : list TrainCar)
    (new_waiting_pulls : list EmbarkedPull)
  : M Train (list TrainCar * list EmbarkedPull) :=
  match todo with
  | [] => ret (new_cars, new_waiting_pulls)
  | c :: todo' =>
      let new_queue_size :=
        new_queue_size - Py.len (still_queued_embarked_pulls c) in
      if 0 <=? new_queue_size then
        _slice_cars_loop todo' new_queue_size reason (new_cars ++ [c])
                         new_waiting_pulls
      else
        with_car c (delete_pull host (Some reason)) ;;;
        _slice_cars_loop todo' new_queue_size reason new_cars
          (new_waiting_pulls ++ still_queued_embarked_pulls c)
  end.

Definition _slice_cars (new_queue_size : Z) (reason : string) : M Train unit :=
  self <- get ;;
  r <- _slice_cars_loop (cars self) new_queue_size reason [] [] ;;
  modify (fun self =>
            mkTrain (fst r) (snd r ++ waiting_pulls self)
                    (current_base_sha self)).

(** [Train.reset] *)
Definition reset (unexpected_change : string) : M Train unit :=
  _slice_cars 0 ("Unexpected queue change: " ++ unexpected_change ++ ".")%string ;;;
  save.

(** [Train._refresh_pulls] *)
Definition _refresh_pulls (source : string) (additional : option Z)
  : M Train unit :=
  emit (RefreshPulls source additional).

(** [Train.is_synced_with_the_base_branch] *)
Definition is_synced_with_the_base_branch (base : SHAType) : M Train bool :=
  self <- get ;;
  match cars self with
  | [] => ret true
  | car :: _ =>
      if option_eqb String.eqb (Some base) (current_base_sha self)
      then ret true
      else
        match still_queued_embarked_pulls car with
        | [] => raise IndexError
        | ep :: _ =>
            let pull := get_pull host (user_pull_request_number ep) in
            ret (merged pull &&
                 option_eqb String.eqb (merge_commit_sha pull) (Some base))
        end
  end.

(** The condition of the fast path of [Train.remove_pull], evaluated from
    left to right. *)
Definition head_was_merged (ctxt_pull : Pull) : M Train bool :=
  self <- get ;;
  if negb (merged ctxt_pull) then ret false
  else
    match cars self with
    | [] => ret false
    | car :: _ =>
        match still_queued_embarked_pulls car with
        | [] => raise IndexError
        | ep :: _ =>
            if negb (number ctxt_pull =? user_pull_request_number ep)
            then ret false
            else is_synced_with_the_base_branch (base_sha host)
        end
    end.

(** [Train.remove_pull] *)
Definition remove_pull (ctxt_pull : Pull) : M Train unit :=
  fast <- head_was_merged ctxt_pull ;;
  if fast then
    self <- get ;;
    match cars self with
    | [] => raise IndexError
    | car :: others =>
        let car' :=
          set_still_queued_embarked_pulls
            (tl (still_queued_embarked_pulls car)) car in
        put (set_cars (car' :: others) self) ;;;
        (match still_queued_embarked_pulls car' with
         | [] =>
             with_car car' (delete_pull host None) ;;;
             modify (set_cars others)
         | _ => ret tt
         end) ;;;
        match merge_commit_sha ctxt_pull with
        | None =>
            raise (RuntimeError
                     "merged pull request without merge_commit_sha set")
        | Some sha =>
            modify (set_current_base_sha (Some sha)) ;;;
            save ;;;
            _refresh_pulls "merged pull removed from queue"
                           (Some (number ctxt_pull))
        end
    end
  else
    self <- get ;;
    match get_position self ctxt_pull with
    | None => ret tt
    | Some position =>
        _slice_cars position
          "Pull request which was ahead in the queue has been dequeued" ;;;
        self <- get ;;
        match Py.del_at (waiting_pulls self)
                        (position - number_of_pulls_in (cars self)) with
        | None => raise IndexError
        | Some waiting =>
            put (set_waiting_pulls waiting self) ;;;
            save ;;;
            _refresh_pulls "pull removed from queue" (Some (number ctxt_pull))
        end
    end.

(** [Train.add_pull]: the scan of the embarked pulls.  The result is
    [inl tt] when the pull is found in place ([return]), and otherwise the
    best position ([-1] for none) and whether the pull must be re-added. *)
Fixpoint add_pull_scan (ctxt_pull : Pull) (config_ : PullQueueConfig)
    (items : list (EmbarkedPull * option TrainCar)) (position : Z)
    (best_position : Z) : unit + (Z * bool) :=
  match items with
  | [] => inr (best_position, false)
  | (embarked_pull, car) :: items' =>
      let car_can_be_interrupted :=
        match car with
        | None => true
        | Some car =>
            Conclusion_eqb (checks_conclusion car) PENDING &&
            allow_checks_interruption (queue_config config_)
        end in
      if user_pull_request_number embarked_pull =? number ctxt_pull then
        if (negb (effective_priority config_
                  =? effective_priority (config embarked_pull))
            || negb (String.eqb (name config_) (name (config embarked_pull))))
           && car_can_be_interrupted
        then inr (best_position, true)
        else inl tt
      else
        add_pull_scan ctxt_pull config_ items' (position + 1)
          (if (best_position =? -1)
              && (effective_priority (config embarked_pull)
                  <? effective_priority config_)
              && car_can_be_interrupted
           then position else best_position)
  end.

(** [Train.add_pull] on this train (the eviction of the pull from the trains
    of the other branches works on other trains); [fuel] bounds the
    re-additions, one per occurrence of the pull in the train. *)
Fixpoint add_pull_fuel (fuel : nat) (ctxt_pull : Pull)
    (config_ : PullQueueConfig) : M Train unit :=
  self <- get ;;
  match add_pull_scan ctxt_pull config_ (_iter_embarked_pulls self) 0 (-1) with
  | inl _ => ret tt
  | inr (_, true) =>
      match fuel with
      | O => raise (RuntimeError "RecursionError")
      | S fuel' =>
          remove_pull ctxt_pull ;;;
          add_pull_fuel fuel' ctxt_pull config_
      end
  | inr (best_position, false) =>
      let new_embarked_pull :=
        mkEmbarkedPull (number ctxt_pull) config_ (utcnow host) in
      (if best_position =? -1 then
         modify (fun self =>
                   set_waiting_pulls (waiting_pulls self ++ [new_embarked_pull])
                                     self)
       else
         _slice_cars best_position
           "Pull request with higher priority has been queued" ;;;
         modify (fun self =>
                   set_waiting_pulls
                     (Py.insert (waiting_pulls self)
                        (best_position - number_of_pulls_in (cars self))
                        new_embarked_pull)
                     self)) ;;;
      save ;;;
      _refresh_pulls "pull added to queue" None
  end.

Definition add_pull (ctxt_pull : Pull) (config_ : PullQueueConfig)
  : M Train unit :=
  self <- get ;;
  add_pull_fuel (S (List.length (_iter_embarked_pulls self))) ctxt_pull config_.

(** [Train._start_checking_car]; the car is the object at position [i] of
    [self._cars]. *)
Definition _start_checking_car (queue_rule : QueueConfig) (i : nat)
  : M Train unit :=
  self <- get ;;
  match nth_error (cars self) i, cars self with
  | Some car, first :: _ =>
      let can_be_updated :=
        TrainCar_eqb first car
        && (Py.len (still_queued_embarked_pulls car) =? 1)
        && (Py.len (parent_pull_request_numbers car) =? 0) in
      let must_be_updated :=
        if can_be_updated then allow_inplace_checks queue_rule else false in
      try_except
        (if must_be_updated then on_car i (update_user_pull host queue_rule)
         else on_car i (create_pull host queue_rule))
        (fun e =>
           match e with
           | TrainCarPullRequestCreationPostponed =>
               Some (modify (fun self =>
                               set_cars (Py.del_last (cars self)) self) ;;;
                     modify (fun self =>
                               set_waiting_pulls
                                 (waiting_pulls self
                                  ++ still_queued_embarked_pulls car) self) ;;;
                     raise TrainCarPullRequestCreationPostponed)
           | _ => None
           end)
  | _, _ => raise IndexError
  end.

(** [Train._remove_duplicate_pulls]: the loop over the still queued pulls of
    one car, with the set [known_prs] and the counter [i]. *)
Fixpoint remove_duplicates_in_car (pulls : list EmbarkedPull)
    (known_prs : list Z) (i : Z) : M Train (list Z * Z) :=
  match pulls with
  | [] => ret (known_prs, i)
  | embarked_pull :: pulls' =>
      let n := user_pull_request_number embarked_pull in
      if existsb (Z.eqb n) known_prs then
        _slice_cars i "The pull request has been queued twice" ;;;
        ret (known_prs, i)
      else remove_duplicates_in_car pulls' (n :: known_prs) (i + 1)
  end.

(** The loop over the cars (the list [self._cars] had when the loop
    started). *)
Fixpoint remove_duplicates_in_cars (todo : list TrainCar)
    (known_prs : list Z) (i : Z) : M Train (list Z) :=
  match todo with
  | [] => ret known_prs
  | car :: todo' =>
      r <- remove_duplicates_in_car (still_queued_embarked_pulls car)
                                    known_prs i ;;
      remove_duplicates_in_cars todo' (fst r) (snd r)
  end.

(** The filter of the waiting pulls. *)
Fixpoint waiting_pulls_to_keep (waiting : list EmbarkedPull)
    (known_prs : list Z) : list EmbarkedPull :=
  match waiting with
  | [] => []
  | wp :: waiting' =>
      let n := user_pull_request_number wp in
      if negb (existsb (Z.eqb n) known_prs)
      then wp :: waiting_pulls_to_keep waiting' (n :: known_prs)
      else waiting_pulls_to_keep waiting' known_prs
  end.

Definition _remove_duplicate_pulls : M Train unit :=
  self <- get ;;
  known_prs <- remove_duplicates_in_cars (cars self) [] 0 ;;
  modify (fun self =>
            set_waiting_pulls
              (waiting_pulls_to_keep (waiting_pulls self) known_prs) self).

(** [Train._sync_configuration_change] *)
Fixpoint sync_configuration_loop
    (items : list (EmbarkedPull * option TrainCar)) (i : Z) : M Train unit :=
  match items with
  | [] => ret tt
  | (embarked_pull, _) :: items' =>
      (match queue_rules (name (config embarked_pull)) with
       | None =>
           _slice_cars i "The associated queue rule does not exist anymore"
       | Some _ => ret tt
       end) ;;;
      sync_configuration_loop items' (i + 1)
  end.

Definition _sync_configuration_change : M Train unit :=
  self <- get ;;
  sync_configuration_loop (_iter_embarked_pulls self) 0.

(** [Train._split_failed_batches]: the loop over the groups given by
    [split_list], with the pulls of the groups already seen ([parents]);
    [car] is the failed car and [residual] the same object as it is once the
    split has updated it. *)
Fixpoint split_groups (queue_rule : QueueConfig) (car residual : TrainCar)
    (groups : list (list EmbarkedPull)) (pos : nat)
    (parents : list EmbarkedPull) : M Train unit :=
  match groups with
  | [] => ret tt
  | pulls :: groups' =>
      modify (fun self =>
        set_cars
          (cars self ++
           [new_TrainCar (utcnow host) pulls pulls
              (parent_pull_request_numbers car ++ numbers parents)
              (initial_current_base_sha car)
              (failure_history car ++ [residual])])
          self) ;;;
      (if (1 <? speculative_checks queue_rule) || Nat.eqb pos 0 then
         self <- get ;;
         try_except
           (_start_checking_car queue_rule (List.length (cars self) - 1))
           (fun e =>
              match e with
              | TrainCarPullRequestCreationPostponed
              | TrainCarPullRequestCreationFailure => Some (ret tt)
              | _ => None
              end)
       else ret tt) ;;;
      split_groups queue_rule car residual groups' (S pos) (parents ++ pulls)
  end.

(** The split of the failed [car], found when the pulls of the cars up to it
    number [current_queue_position].  The result tells whether the method
    returns at once. *)
Definition split_failed_car (car : TrainCar) (current_queue_position : Z)
  : M Train bool :=
  match still_queued_embarked_pulls car with
  | [] => raise IndexError
  | first :: _ =>
      match queue_rules (name (config first)) with
      | None => ret true
      | Some queue_rule =>
          _slice_cars current_queue_position
            "Pull request ahead in queue failed to get merged" ;;;
          self <- get ;;
          match cars self with
          | [] => raise IndexError
          | _ =>
              put (set_cars (Py.del_last (cars self)) self) ;;;
              let parts := Z.max 2 (speculative_checks queue_rule) in
              let groups :=
                split_list (Py.slice_to (still_queued_embarked_pulls car) (-1))
                           parts in
              let last_pull :=
                skipn (List.length (still_queued_embarked_pulls car) - 1)
                      (still_queued_embarked_pulls car) in
              let residual :=
                set_initial_embarked_pulls last_pull
                  (set_still_queued_embarked_pulls last_pull
                     (set_parent_pull_request_numbers
                        (parent_pull_request_numbers car
                         ++ numbers (List.concat groups)) car)) in
              split_groups queue_rule car residual groups 0 [] ;;;
              modify (fun self => set_cars (cars self ++ [residual]) self) ;;;
              _refresh_pulls "batch got split" None ;;;
              ret false
          end
      end
  end.

(** The loop that looks for a failed batch. *)
Fixpoint split_loop (all_cars todo : list TrainCar)
    (current_queue_position : Z) : M Train bool :=
  match todo with
  | [] => ret false
  | car :: todo' =>
      let current_queue_position :=
        current_queue_position + Py.len (still_queued_embarked_pulls car) in
      if Conclusion_eqb (checks_conclusion car) FAILURE then
        previous <- lift (has_previous_car_status_succeeded all_cars car) ;;
        if previous && (1 <? Py.len (initial_embarked_pulls car)) then
          split_failed_car car current_queue_position
        else split_loop all_cars todo' current_queue_position
      else split_loop all_cars todo' current_queue_position
  end.

Definition is_single_failed_pull (cs : list TrainCar) : bool :=
  match cs with
  | [car] =>
      Conclusion_eqb (checks_conclusion car) FAILURE
      && (Py.len (initial_embarked_pulls car) =? 1)
  | _ => false
  end.

Definition _split_failed_batches : M Train unit :=
  self <- get ;;
  if is_single_failed_pull (cars self) then
    match cars self with
    | car :: _ =>
        match queue_pull_request_number car with
        | Some n => emit (SendPullRefresh n "batch failed due to last pull")
        | None => ret tt
        end
    | [] => ret tt
    end
  else
    returned <- split_loop (cars self) (cars self) 0 ;;
    if returned then ret tt
    else
      self <- get ;;
      match cars self with
      | first :: _ =>
          if (0 <? Py.len (failure_history first))
             && TrainCarState_eqb (creation_state first) pending
          then
            match still_queued_embarked_pulls first with
            | [] => raise IndexError
            | ep :: _ =>
                match queue_rules (name (config ep)) with
                | None => ret tt
                | Some queue_rule =>
                    try_except (_start_checking_car queue_rule 0)
                      (fun e =>
                         match e with
                         | TrainCarPullRequestCreationPostponed
                         | TrainCarPullRequestCreationFailure => Some (ret tt)
                         | _ => None
                         end)
                end
            end
          else ret tt
      | [] => ret tt
      end.

(** [Train._populate_cars]: the loop [for _ in range(missing_cars)].  The
    result tells whether the method returned from inside the loop. *)
Fixpoint populate_loop (missing_cars : nat) (head : EmbarkedPull)
    (queue_rule : QueueConfig) : M Train unit :=
  match missing_cars with
  | O => ret tt
  | S missing_cars' =>
      self <- get ;;
      batch <- lift (_get_next_batch (waiting_pulls self) (name (config head))
                                     (batch_size queue_rule)) ;;
      match fst batch with
      | [] => ret tt
      | first :: _ =>
          let pulls_to_check := fst batch in
          let enough_to_batch :=
            Py.len pulls_to_check =? batch_size queue_rule in
          let wait_enough_time_to_batch :=
            batch_max_wait_time queue_rule <=? utcnow host - queued_at first in
          if negb enough_to_batch && negb wait_enough_time_to_batch then
            emit (PlanRefreshAt (user_pull_request_number first)
                    (queued_at first + batch_max_wait_time queue_rule))
          else
            put (set_waiting_pulls (snd batch) self) ;;;
            let parent_pull_request_numbers_ :=
              numbers (flat_map still_queued_embarked_pulls (cars self)) in
            match current_base_sha self with
            | None => raise TypeError
            | Some sha =>
                modify (fun self =>
                  set_cars
                    (cars self ++
                     [new_TrainCar (utcnow host) pulls_to_check pulls_to_check
                        parent_pull_request_numbers_ sha []])
                    self) ;;;
                returned <-
                  try_except
                    (_start_checking_car queue_rule (List.length (cars self)) ;;;
                     ret false)
                    (fun e =>
                       match e with
                       | TrainCarPullRequestCreationPostponed
                       | TrainCarPullRequestCreationFailure =>
                           Some (ret true)
                       | _ => None
                       end) ;;
                if returned then ret tt
                else populate_loop missing_cars' head queue_rule
            end
      end
  end.

Definition _populate_cars : M Train unit :=
  self <- get ;;
  let searching :=
    match Py.last_opt (cars self) with
    | Some last_car =>
        TrainCarState_eqb (creation_state last_car) failed
        || Conclusion_eqb (checks_conclusion last_car) FAILURE
    | None => false
    end in
  if searching then ret tt
  else
    match _iter_embarked_pulls self with
    | [] => ret tt
    | (head, _) :: _ =>
        (match current_base_sha self, cars self with
         | Some _, _ :: _ => ret tt
         | _, _ => modify (set_current_base_sha (Some (base_sha host)))
         end) ;;;
        self <- get ;;
        match queue_rules (name (config head)) with
        | None =>
            match current_base_sha self with
            | None => raise TypeError
            | Some sha =>
                with_car (new_TrainCar (utcnow host) [head] [head] [] sha [])
                         (_set_creation_failure None)
            end
        | Some queue_rule =>
            let missing_cars :=
              speculative_checks queue_rule - Py.len (cars self) in
            if missing_cars <? 0 then
              _slice_cars
                (number_of_pulls_in
                   (Py.slice_to (cars self) (speculative_checks queue_rule)))
                "The number of speculative checks has been reduced"
            else if (0 <? missing_cars)
                    && negb (Nat.eqb (List.length (waiting_pulls self)) 0)
            then populate_loop (Z.to_nat missing_cars) head queue_rule
            else ret tt
        end
    end.

(** [Train.refresh]; [None] for the rules is a missing or invalid
    configuration. *)
Definition refresh (has_queue_rules : bool) : M Train unit :=
  if negb has_queue_rules then ret tt
  else
    _remove_duplicate_pulls ;;;
    _sync_configuration_change ;;;
    _split_failed_batches ;;;
    _populate_cars ;;;
    save.

End TrainMethods.

(* ================================================================== *)
(** * Sample data: the queues and trains of the unit tests *)
(* ================================================================== *)

(** The queue rule [five] of the tests: five speculative checks, batches of
    one pull. *)
Definition rule_five : QueueConfig := mkQueueConfig 5 1 0 true true None.

(** The queue rule [1x5] of the tests: one speculative check, batches of
    five pulls. *)
Definition rule_1x5 : QueueConfig := mkQueueConfig 1 5 0 true true None.

Definition sample_rules (queue_name : string) : option QueueConfig :=
  if String.eqb queue_name "five" then Some rule_five
  else if String.eqb queue_name "1x5" then Some rule_1x5
  else None.

Definition sample_config : PullQueueConfig :=
  mkPullQueueConfig "five" 2100 100 (Some "merge") None rule_five.

Definition sample_pull (n : Z) : EmbarkedPull :=
  mkEmbarkedPull n sample_config 0.

(** A configuration of the same queue with a higher priority. *)
Definition urgent_config : PullQueueConfig :=
  mkPullQueueConfig "five" 5000 3000 (Some "merge") None rule_five.

Definition urgent_pull (n : Z) : EmbarkedPull :=
  mkEmbarkedPull n urgent_config 0.

Definition config_1x5 : PullQueueConfig :=
  mkPullQueueConfig "1x5" 3000 1000 (Some "merge") None rule_1x5.

Definition pull_1x5 (n : Z) : EmbarkedPull := mkEmbarkedPull n config_1x5 0.

(** A host that accepts every request; no pull is behind its base. *)
Definition obliging_host : Host :=
  mkHost 100 "sha1"
    (fun n => mkPull n false None)
    (fun _ => mkAnswer 204 "")
    (fun _ => mkAnswer 201 "")
    (fun _ _ _ => mkAnswer 201 "")
    (fun _ => (mkAnswer 201 "", 1000))
    (fun _ => true)
    (fun _ => false)
    (fun _ => true)
    (fun _ => true)
    (fun _ => true)
    (fun _ => ("", false))
    (fun _ => []).

(** The same host, whose integration may not merge into the draft
    branches: every [POST merges] is answered with a 403. *)
Definition restricted_host : Host :=
  mkHost 100 "sha42"
    (fun n => mkPull n false None)
    (fun _ => mkAnswer 204 "")
    (fun _ => mkAnswer 201 "")
    (fun _ _ _ => mkAnswer 403 "Resource not accessible by integration")
    (fun _ => (mkAnswer 201 "", 1000))
    (fun _ => true)
    (fun _ => false)
    (fun _ => true)
    (fun _ => true)
    (fun _ => true)
    (fun _ => ("", false))
    (fun _ => []).

(** The batch of the test [test_train_queue_splitted_on_failure_1x5] once it
    has failed and been split. *)
Definition failed_batch : TrainCar :=
  mkTrainCar [pull_1x5 45] [pull_1x5 45] [41; 42; 43; 44] "sha1" 0 created
             FAILURE (Some 55) [] (Some "41-42-43-44-45") [] None false.

(** The second half of the split batch, not started yet. *)
Definition second_half : TrainCar :=
  new_TrainCar 0 [pull_1x5 43; pull_1x5 44] [pull_1x5 43; pull_1x5 44]
               [41; 42] "sha1" [failed_batch].

(** The train of that test once 41 and 42 are merged: the second half of
    the batch, then the car of pull 45. *)
Definition train_after_first_half : Train :=
  mkTrain [second_half; failed_batch] [pull_1x5 6] (Some "sha42").

(** The train of that test when the batch of 41 to 45 has just failed. *)
Definition whole_failed_batch : TrainCar :=
  mkTrainCar (map pull_1x5 [41; 42; 43; 44; 45])
             (map pull_1x5 [41; 42; 43; 44; 45]) [] "sha1" 0 created
             FAILURE (Some 55) [] (Some "41-42-43-44-45") [] None false.

Definition train_with_failed_batch : Train :=
  mkTrain [whole_failed_batch] (map pull_1x5 [6; 7]) (Some "sha1").

(** A failed batch whose first pull has been merged already. *)
Definition partly_merged_batch : TrainCar :=
  mkTrainCar (map pull_1x5 [41; 42; 43]) (map pull_1x5 [42; 43]) [] "sha1" 0
             created FAILURE (Some 53) [] (Some "41-42-43") [] None false.

Definition train_with_partly_merged_batch : Train :=
  mkTrain [partly_merged_batch] [] (Some "sha41").

(* ================================================================== *)
(** * Properties *)
(* ================================================================== *)

Section HttpProperties.

Import Http.

Lemma issubclass_client_side (c : exc_class) :
  issubclass c HTTPClientSideError = true <->
  In c [HTTPClientSideError; HTTPForbidden; HTTPUnauthorized; HTTPNotFound;
        HTTPTooManyRequests].
Proof.
  split.
  - destruct c; cbn; intros H; try discriminate H; tauto.
  - cbn; intros H; repeat (destruct H as [<- | H]; [reflexivity |]); tauto.
Qed.

Lemma issubclass_server_side (c : exc_class) :
  issubclass c HTTPServerSideError = true <->
  In c [HTTPServerSideError; HTTPServiceUnavailable].
Proof.
  split.
  - destruct c; cbn; intros H; try discriminate H; tauto.
  - cbn; intros H; repeat (destruct H as [<- | H]; [reflexivity |]); tauto.
Qed.

Lemma isinstance_single (e : exception) (c : exc_class) :
  isinstance e [c] = issubclass (class_of e) c.
Proof. unfold isinstance. simpl existsb. apply orb_false_r. Qed.

Lemma in_range_b (lo hi v : Z) :
  (lo <=? v) && (v <=? hi) = true <-> lo <= v <= hi.
Proof. rewrite andb_true_iff, !Z.leb_le; tauto. Qed.

(** The class of the exception raised for a status in 400-499. *)
Definition client_class (status : Z) : exc_class :=
  if status =? 401 then HTTPUnauthorized
  else if status =? 403 then HTTPForbidden
  else if status =? 404 then HTTPNotFound
  else if status =? 429 then HTTPTooManyRequests
  else HTTPClientSideError.

(** The class of the exception raised for a status in 500-599. *)
Definition server_class (status : Z) : exc_class :=
  if status =? 503 then HTTPServiceUnavailable else HTTPServerSideError.

Lemma raise_for_status_client (resp : Response) :
  400 <= status_code resp <= 499 ->
  raise_for_status resp = inr (StatusExc (client_class (status_code resp)) resp).
Proof.
  intros H. unfold raise_for_status, is_client_error.
  rewrite (proj2 (in_range_b 400 499 _) H).
  unfold STATUS_CODE_TO_EXC, client_class, dict_get.
  destruct (status_code resp =? 401); [reflexivity |].
  destruct (status_code resp =? 403); [reflexivity |].
  destruct (status_code resp =? 404); [reflexivity |].
  destruct (status_code resp =? 429); [reflexivity |].
  destruct (Z.eqb_spec (status_code resp) 503); [lia | reflexivity].
Qed.

Lemma raise_for_status_server (resp : Response) :
  500 <= status_code resp <= 599 ->
  raise_for_status resp = inr (StatusExc (server_class (status_code resp)) resp).
Proof.
  intros H. unfold raise_for_status, is_client_error, is_server_error.
  destruct ((400 <=? _) && (_ <=? 499)) eqn:E.
  { apply in_range_b in E. lia. }
  rewrite (proj2 (in_range_b 500 599 _) H).
  unfold STATUS_CODE_TO_EXC, server_class, dict_get.
  destruct (Z.eqb_spec (status_code resp) 401); [lia |].
  destruct (Z.eqb_spec (status_code resp) 403); [lia |].
  destruct (Z.eqb_spec (status_code resp) 404); [lia |].
  destruct (Z.eqb_spec (status_code resp) 429); [lia |].
  destruct (status_code resp =? 503); reflexivity.
Qed.

Lemma raise_for_status_other (resp : Response) :
  ~ 400 <= status_code resp <= 599 ->
  raise_for_status resp = inl tt.
Proof.
  intros H. unfold raise_for_status, is_client_error, is_server_error.
  destruct ((400 <=? _) && (_ <=? 499)) eqn:E.
  { apply in_range_b in E. lia. }
  destruct ((500 <=? _) && (_ <=? 599)) eqn:E'.
  { apply in_range_b in E'. lia. }
  reflexivity.
Qed.

Lemma client_class_is_client (s : Z) :
  issubclass (client_class s) HTTPClientSideError = true.
Proof. unfold client_class. repeat destruct (_ =? _); reflexivity. Qed.

Lemma server_class_is_server (s : Z) :
  issubclass (server_class s) HTTPServerSideError = true.
Proof. unfold server_class. destruct (_ =? _); reflexivity. Qed.

Lemma client_class_not_server (s : Z) :
  issubclass (client_class s) HTTPServerSideError = false.
Proof. unfold client_class. repeat destruct (_ =? _); reflexivity. Qed.

Lemma server_class_not_client (s : Z) :
  issubclass (server_class s) HTTPClientSideError = false.
Proof. unfold server_class. destruct (_ =? _); reflexivity. Qed.

(** C10. [raise_for_status] raises a client-side error exactly for the
    statuses 400-499 (the mapped subclass for 401, 403, 404 and 429, the
    plain [HTTPClientSideError] otherwise), a server-side error exactly for
    the statuses 500-599 ([HTTPServiceUnavailable] for 503), and returns
    without raising for every other status. *)
Theorem C10_raise_for_status_classes (resp : Response) :
  let s := status_code resp in
  ((exists e, raise_for_status resp = inr e /\
              isinstance e [HTTPClientSideError] = true)
   <-> 400 <= s <= 499) /\
  ((exists e, raise_for_status resp = inr e /\
              isinstance e [HTTPServerSideError] = true)
   <-> 500 <= s <= 599) /\
  (raise_for_status resp = inl tt <-> ~ 400 <= s <= 599) /\
  (forall e, raise_for_status resp = inr e ->
     e = StatusExc (if s <=? 499 then client_class s else server_class s) resp) /\
  client_class 401 = HTTPUnauthorized /\
  client_class 403 = HTTPForbidden /\
  client_class 404 = HTTPNotFound /\
  client_class 429 = HTTPTooManyRequests /\
  server_class 503 = HTTPServiceUnavailable.
Proof.
  intros s. subst s.
  assert (D : 400 <= status_code resp <= 499 \/ 500 <= status_code resp <= 599
              \/ ~ 400 <= status_code resp <= 599) by lia.
  split; [split | split; [split | split; [split | split]]].
  - intros (e & He & Hi).
    destruct D as [D | [D | D]]; [exact D | |].
    + rewrite (raise_for_status_server _ D) in He.
      injection He as <-. rewrite isinstance_single in Hi. simpl class_of in Hi.
      rewrite server_class_not_client in Hi. discriminate.
    + rewrite (raise_for_status_other _ D) in He. discriminate.
  - intros H. eexists. split; [apply raise_for_status_client; lia |].
    rewrite isinstance_single. apply client_class_is_client.
  - intros (e & He & Hi).
    destruct D as [D | [D | D]]; [| exact D |].
    + rewrite (raise_for_status_client _ D) in He.
      injection He as <-. rewrite isinstance_single in Hi. simpl class_of in Hi.
      rewrite client_class_not_server in Hi. discriminate.
    + rewrite (raise_for_status_other _ D) in He. discriminate.
  - intros H. eexists. split; [apply raise_for_status_server; lia |].
    rewrite isinstance_single. apply server_class_is_server.
  - intros H.
    destruct D as [D | [D | D]]; [| | exact D].
    + rewrite (raise_for_status_client _ D) in H. discriminate.
    + rewrite (raise_for_status_server _ D) in H. discriminate.
  - apply raise_for_status_other.
  - intros e He.
    destruct D as [D | [D | D]].
    + rewrite (raise_for_status_client _ D) in He. injection He as <-.
      destruct (Z.leb_spec (status_code resp) 499); [reflexivity | lia].
    + rewrite (raise_for_status_server _ D) in He. injection He as <-.
      destruct (Z.leb_spec (status_code resp) 499); [lia | reflexivity].
    + rewrite (raise_for_status_other _ D) in He. discriminate.
  - repeat split.
Qed.

(** The transport answers after which [connectivity_issue_retry] tries
    again: a transport error, a 5xx response or a 429 response. *)
Definition retried (t : transport) : Prop :=
  t = Fails true \/
  exists resp, t = Responds resp /\
               (500 <= status_code resp <= 599 \/ status_code resp = 429).

Lemma connectivity_retry_status (c : exc_class) (r : Response) :
  connectivity_retry (Raised (StatusExc c r)) =
  match c with
  | RequestError | HTTPServerSideError | HTTPServiceUnavailable
  | HTTPTooManyRequests => true
  | _ => false
  end.
Proof. destruct c; reflexivity. Qed.

Lemma connectivity_retry_iff (t : transport) :
  connectivity_retry (request_body t) = true <-> retried t.
Proof.
  unfold retried. destruct t as [resp | [|]].
  - unfold request_body.
    assert (D : 400 <= status_code resp <= 499 \/ 500 <= status_code resp <= 599
                \/ ~ 400 <= status_code resp <= 599) by lia.
    assert (R : forall P : Response -> Prop,
              ((Responds resp = Fails true \/
                exists r, Responds resp = Responds r /\ P r) <-> P resp)).
    { intros P. split.
      - intros [H | (r & [= <-] & H)]; [discriminate | exact H].
      - intros H. right. now exists resp. }
    rewrite (R (fun r => 500 <= status_code r <= 599 \/ status_code r = 429)).
    destruct D as [D | [D | D]].
    + rewrite (raise_for_status_client _ D), connectivity_retry_status.
      unfold client_class.
      destruct (Z.eqb_spec (status_code resp) 401);
        [split; [discriminate | lia] |].
      destruct (Z.eqb_spec (status_code resp) 403);
        [split; [discriminate | lia] |].
      destruct (Z.eqb_spec (status_code resp) 404);
        [split; [discriminate | lia] |].
      destruct (Z.eqb_spec (status_code resp) 429);
        [split; [lia | reflexivity] |].
      split; [discriminate | lia].
    + rewrite (raise_for_status_server _ D), connectivity_retry_status.
      unfold server_class.
      destruct (status_code resp =? 503); (split; [lia | reflexivity]).
    + rewrite (raise_for_status_other _ D).
      split; [discriminate | lia].
  - split; [now left | reflexivity].
  - split; [discriminate | intros [H | (r & H & _)]; discriminate].
Qed.

Lemma int_of_digits_nonneg (s : string) :
  Py.isdigit s = true -> 0 <= Py.int_of_digits s.
Proof.
  intros H. unfold Py.int_of_digits.
  assert (F : forallb Py.is_ascii_digit (list_ascii_of_string s) = true).
  { destruct s; [discriminate H | exact H]. }
  clear H. revert F. generalize (list_ascii_of_string s). intros l.
  assert (G : forall acc, 0 <= acc ->
            forallb Py.is_ascii_digit l = true ->
            0 <= fold_left
                   (fun a c => 10 * a + (Z.of_nat (nat_of_ascii c) - 48)) l acc).
  { induction l as [| c l IHl]; intros acc Hacc Hl; [exact Hacc |].
    cbn [fold_left]. cbn [forallb] in Hl. apply andb_true_iff in Hl.
    destruct Hl as [Hc Hl]. apply IHl; [| exact Hl].
    unfold Py.is_ascii_digit in Hc. apply andb_true_iff in Hc.
    destruct Hc as [Hc _]. apply Nat.leb_le in Hc. lia. }
  apply G. lia.
Qed.

Section RetryProperties.

Variable parse_date : string -> option Z.
Variable utcnow : Z.
Variable answers : nat -> transport.

Let body (k : nat) : outcome := request_body (answers k).

Lemma retrying_spec (remaining : nat) :
  forall (n : nat) (made : list outcome) (slept : list Z),
  let r := retrying parse_date utcnow remaining n answers made slept in
  exists m : nat,
    (1 <= m <= S remaining)%nat /\
    attempts r = made ++ map body (seq n m) /\
    sleeps r =
      slept ++ map (fun k => connectivity_wait parse_date utcnow k (body k))
                   (seq n (m - 1)) /\
    result r = body (n + m - 1)%nat /\
    (forall k, (n <= k < n + m - 1)%nat ->
               connectivity_retry (body k) = true /\ (k < 5)%nat) /\
    (connectivity_retry (body (n + m - 1)%nat) = false \/
     (5 <= n + m - 1)%nat \/ m = S remaining).
Proof.
  induction remaining as [| remaining IH]; intros n made slept; cbn zeta.
  - exists 1%nat. cbn [retrying]. fold (body n).
    replace (n + 1 - 1)%nat with n by lia.
    destruct (connectivity_retry (body n)) eqn:R; cbn [negb];
      [destruct (connectivity_stop n) |]; cbn;
      (repeat split; [lia | lia | now rewrite app_nil_r | lia | lia | tauto]).
  - cbn [retrying]. fold (body n).
    destruct (connectivity_retry (body n)) eqn:R; cbn [negb].
    + destruct (connectivity_stop n) eqn:St.
      * exists 1%nat. replace (n + 1 - 1)%nat with n by lia. cbn.
        unfold connectivity_stop, stop_after_attempt in St.
        apply Nat.leb_le in St.
        repeat split; [lia | lia | now rewrite app_nil_r | lia | lia | tauto].
      * unfold connectivity_stop, stop_after_attempt in St.
        apply Nat.leb_gt in St.
        destruct (IH (S n) (made ++ [body n])
                     (slept ++ [connectivity_wait parse_date utcnow n (body n)]))
          as (m & Hm & Ha & Hs & Hr & Hk & Hl).
        exists (S m).
        replace (n + S m - 1)%nat with (S n + m - 1)%nat by lia.
        repeat split.
        -- lia.
        -- lia.
        -- rewrite Ha, <- app_assoc. reflexivity.
        -- rewrite Hs, <- app_assoc.
           replace (S m - 1)%nat with (S (m - 1)) by lia. reflexivity.
        -- exact Hr.
        -- destruct (Nat.eq_dec k n) as [-> | Hne]; [exact R |].
           apply Hk. lia.
        -- destruct (Nat.eq_dec k n) as [-> | Hne]; [exact St |].
           apply Hk. lia.
        -- destruct Hl as [Hl | [Hl | Hl]]; [tauto | tauto | right; right; lia].
    + exists 1%nat. replace (n + 1 - 1)%nat with n by lia. cbn.
      repeat split; [lia | lia | now rewrite app_nil_r | lia | lia | tauto].
Qed.

Lemma wait_retry_after_header_nonneg (o : option outcome) :
  0 <= wait_retry_after_header parse_date utcnow o.
Proof.
  unfold wait_retry_after_header.
  destruct o as [[resp | [cls resp | cls]] |]; try lia.
  destruct (negb _); [lia |].
  destruct (retry_after resp) as [value |]; [| lia].
  destruct (Py.isdigit value) eqn:Hd.
  - pose proof (int_of_digits_nonneg _ Hd). unfold second. lia.
  - destruct (parse_date value); lia.
Qed.

(** C9. A call through [AsyncClient.request] makes between one and five
    attempts; every attempt but the last one ended with a transport error, a
    5xx response or a 429 response, and the call stops earlier only on an
    outcome of another kind; the result of the call is the outcome of the last
    attempt, so after a fifth failure that exception is raised unchanged; the
    sleep before the retry numbered [k] (from 0) is the Retry-After wait of
    the failed attempt, which is never negative and is 0 without the header
    and the header's value in seconds when it is a number, plus
    0.2 * 2^k seconds. *)
Theorem C9_connectivity_issue_retry :
  let r := request parse_date utcnow answers in
  exists m : nat,
    (1 <= m <= 5)%nat /\
    attempts r = map body (seq 1 m) /\
    result r = body m /\
    (forall k, (1 <= k < m)%nat -> retried (answers k)) /\
    (m = 5%nat \/ ~ retried (answers m)) /\
    sleeps r =
      map (fun k => wait_retry_after_header parse_date utcnow (Some (body (S k)))
                    + 200000 * 2 ^ Z.of_nat k)
          (seq 0 (m - 1)) /\
    (forall o, 0 <= wait_retry_after_header parse_date utcnow o) /\
    (forall cls resp,
        retry_after resp = None ->
        wait_retry_after_header parse_date utcnow
          (Some (Raised (StatusExc cls resp))) = 0) /\
    (forall cls resp value,
        issubclass cls HTTPStatusError = true ->
        retry_after resp = Some value -> Py.isdigit value = true ->
        wait_retry_after_header parse_date utcnow
          (Some (Raised (StatusExc cls resp)))
        = Py.int_of_digits value * second).
Proof.
  cbn zeta. unfold request.
  destruct (retrying_spec 5 1 [] []) as (m & Hm & Ha & Hs & Hr & Hk & Hl).
  cbn zeta in *.
  assert (Hm5 : (m <= 5)%nat).
  { destruct (Nat.le_gt_cases m 5) as [H | H]; [exact H |].
    destruct (Hk 5%nat) as [_ Hlt]; lia. }
  exists m. repeat split.
  - lia.
  - exact Hm5.
  - exact Ha.
  - rewrite Hr. f_equal. lia.
  - intros k Hk'. apply connectivity_retry_iff. apply Hk. lia.
  - destruct Hl as [Hl | [Hl | Hl]]; [| left; lia | lia].
    right. intros Hc. apply connectivity_retry_iff in Hc.
    replace (1 + m - 1)%nat with m in Hl by lia.
    fold (body m) in Hc. congruence.
  - rewrite Hs. cbn [app]. rewrite <- seq_shift, map_map.
    apply map_ext. intros k.
    unfold connectivity_wait, wait_combine, wait_exponential, Py.sum.
    cbn [fold_right]. replace (S k - 1)%nat with k by lia. lia.
  - apply wait_retry_after_header_nonneg.
  - intros cls resp H. unfold wait_retry_after_header. rewrite H.
    now destruct (negb _).
  - intros cls resp value Hc H Hd. unfold wait_retry_after_header.
    rewrite Hc, H, Hd. reflexivity.
Qed.

End RetryProperties.

End HttpProperties.

Section DocumentProperties.

Variable utcnow : Z.

(** Induction on a car together with the cars of its failure history. *)
Fixpoint TrainCar_history_ind (P : TrainCar -> Prop)
    (step : forall i s p sha d cs cc q fh hb lc le t,
        Forall P fh -> P (mkTrainCar i s p sha d cs cc q fh hb lc le t))
    (c : TrainCar) {struct c} : P c :=
  match c with
  | mkTrainCar i s p sha d cs cc q fh hb lc le t =>
      step i s p sha d cs cc q fh hb lc le t
        ((fix all (l : list TrainCar) : Forall P l :=
            match l with
            | [] => @Forall_nil _ P
            | x :: l' =>
                @Forall_cons _ P x l' (TrainCar_history_ind P step x) (all l')
            end) fh)
  end.

Lemma rmap_map_ok {A B} (f : A -> B) (g : B -> result A) (l : list A) :
  (forall a, g (f a) = Ok a) -> rmap g (map f l) = Ok l.
Proof.
  intros H. induction l as [| a l IH]; [reflexivity |].
  cbn. now rewrite H, IH.
Qed.

Lemma EmbarkedPull_roundtrip (ep : EmbarkedPull) :
  EmbarkedPull_of_json (EmbarkedPull_json ep) = Ok ep.
Proof. now destruct ep. Qed.

Lemma as_optional_str_roundtrip (o : option string) :
  as_optional as_str (json_of_option JStr o) = Ok o.
Proof. now destruct o. Qed.

Lemma as_optional_int_roundtrip (o : option Z) :
  as_optional as_int (json_of_option JInt o) = Ok o.
Proof. now destruct o. Qed.

Lemma TrainCarState_roundtrip (st : TrainCarState) :
  as_TrainCarState (JStr (TrainCarState_str st)) = Ok st.
Proof. now destruct st. Qed.

Lemma CheckStateT_roundtrip (st : CheckStateT) :
  as_CheckStateT (JStr (CheckStateT_str st)) = Ok st.
Proof. now destruct st. Qed.

Lemma QueueCheck_roundtrip (c : QueueCheck) :
  QueueCheck_of_json (QueueCheck_asdict c) = Ok c.
Proof.
  destruct c as [n d u st a]. unfold QueueCheck_of_json, QueueCheck_asdict.
  cbn -[as_CheckStateT as_optional].
  rewrite !as_optional_str_roundtrip, CheckStateT_roundtrip. reflexivity.
Qed.

Lemma deserialize_serialized (car : TrainCar) :
  deserialize utcnow (serialized car) = Ok car.
Proof.
  induction car as [i s p sha d cs cc q fh hb lc le t IH]
    using TrainCar_history_ind.
  cbn -[as_TrainCarState as_optional rmap].
  rewrite !(rmap_map_ok _ _ _ EmbarkedPull_roundtrip).
  cbn -[as_TrainCarState as_optional rmap].
  rewrite TrainCarState_roundtrip.
  cbn -[as_TrainCarState as_optional rmap].
  match goal with
  | |- rbind (?each (map serialized fh)) _ = _ =>
      assert (E : each (map serialized fh) = Ok fh)
  end.
  { induction IH as [| x l Hx _ IHl]; [reflexivity |].
    cbn [map]. rewrite Hx. cbn [rbind]. rewrite IHl. reflexivity. }
  rewrite E. cbn [rbind].
  rewrite (rmap_map_ok _ _ _ QueueCheck_roundtrip). cbn [rbind].
  rewrite (rmap_map_ok JInt as_int p (fun a => eq_refl)). cbn [rbind].
  rewrite as_optional_int_roundtrip, !as_optional_str_roundtrip.
  reflexivity.
Qed.

Lemma load_save_nonempty (t : Train) :
  cars t <> [] \/ waiting_pulls t <> [] ->
  load utcnow (save_document t) = Ok t.
Proof.
  intros H. destruct t as [cs wp base]. cbn [cars waiting_pulls] in H.
  assert (E : save_document (mkTrain cs wp base)
              = Some (JDict [("waiting_pulls", JList (map EmbarkedPull_json wp));
                             ("current_base_sha", json_of_option JStr base);
                             ("cars", JList (map serialized cs))])).
  { unfold save_document. cbn [cars waiting_pulls current_base_sha].
    destruct wp; [destruct cs; [tauto | reflexivity] | reflexivity]. }
  rewrite E. cbn -[as_optional rmap].
  rewrite (rmap_map_ok _ _ _ EmbarkedPull_roundtrip). cbn [rbind].
  rewrite as_optional_str_roundtrip. cbn [rbind].
  rewrite (rmap_map_ok _ _ _ deserialize_serialized). reflexivity.
Qed.

(** A car document of the old layout: one embedded pull, the creation state
    under ["state"], and none of the later fields. *)
Definition old_layout_document (ep : EmbarkedPull)
    (parents : list GitHubPullRequestNumber) (sha : SHAType)
    (state : TrainCarState) (number : option GitHubPullRequestNumber) : json :=
  JDict [("user_pull_request_number", JInt (user_pull_request_number ep));
         ("config", JConfig (config ep));
         ("queued_at", JDatetime (queued_at ep));
         ("parent_pull_request_numbers", JList (map JInt parents));
         ("initial_current_base_sha", JStr sha);
         ("state", JStr (TrainCarState_str state));
         ("queue_pull_request_number", json_of_option JInt number)].

Lemma deserialize_old_layout (ep : EmbarkedPull)
    (parents : list GitHubPullRequestNumber) (sha : SHAType)
    (state : TrainCarState) (number : option GitHubPullRequestNumber) :
  deserialize utcnow (old_layout_document ep parents sha state number)
  = Ok (mkTrainCar [ep] [ep] parents sha utcnow state PENDING number []
          (Some (Py.str (user_pull_request_number ep))) [] None false).
Proof.
  destruct ep as [n c t]. unfold old_layout_document.
  cbn -[as_TrainCarState as_optional rmap Py.str].
  rewrite TrainCarState_roundtrip. cbn -[as_optional rmap Py.str].
  rewrite (rmap_map_ok JInt as_int parents (fun a => eq_refl)). cbn [rbind].
  rewrite as_optional_int_roundtrip. reflexivity.
Qed.

(** C8, as the code has it.  For a train with at least one car or one
    waiting pull, loading the document written by [save] gives back the train:
    equal cars (every serialized field, failure histories included), waiting
    pulls and base sha.  A car document of the old layout deserializes to a
    car holding the one embedded pull, with [creation_date] set to the time of
    the load, no checks, no timeout, and [head_branch] recomputed from the
    pull number. *)
Theorem C8_load_save_round_trip (t : Train) :
  cars t <> [] \/ waiting_pulls t <> [] ->
  load utcnow (save_document t) = Ok t /\
  (forall ep parents sha state number,
     deserialize utcnow (old_layout_document ep parents sha state number)
     = Ok (mkTrainCar [ep] [ep] parents sha utcnow state PENDING number []
             (Some (_get_pulls_branch_ref [ep])) [] None false)).
Proof.
  intros H. split; [now apply load_save_nonempty |].
  intros. apply deserialize_old_layout.
Qed.

End DocumentProperties.

(** The claim C8 as stated fails on an empty train that still records a base
    sha: [save] deletes the stored key and [load] then starts from no base
    sha. *)
Lemma C8_empty_train_loses_base_sha :
  load 0 (save_document (mkTrain [] [] (Some "sha1")))
  = Ok (mkTrain [] [] None) /\
  load 0 (save_document (mkTrain [] [] (Some "sha1")))
  <> Ok (mkTrain [] [] (Some "sha1")).
Proof. split; [reflexivity | discriminate]. Qed.

(** The round trip on a train with two cars, one of them with a failure
    history, and a waiting pull. *)
Lemma C8_load_save_round_trip_witness :
  (cars train_after_first_half <> [] \/
   waiting_pulls train_after_first_half <> []) /\
  load 0 (save_document train_after_first_half) = Ok train_after_first_half.
Proof.
  assert (H : cars train_after_first_half <> [] \/
              waiting_pulls train_after_first_half <> []).
  { left. discriminate. }
  split; [exact H |].
  exact (proj1 (C8_load_save_round_trip 0 _ H)).
Defined.

(* ------------------------------------------------------------------ *)
(** ** Batch selection *)

Section NextBatch.

Variable queue_name : string.

Let same_queue (p : EmbarkedPull) : bool :=
  String.eqb (name (config p)) queue_name.

(** The number of leading pulls of the queue. *)
Fixpoint leading (same : EmbarkedPull -> bool) (l : list EmbarkedPull) : nat :=
  match l with
  | [] => 0
  | p :: l' => if same p then S (leading same l') else 0
  end.

Lemma leading_le (l : list EmbarkedPull) :
  (leading same_queue l <= List.length l)%nat.
Proof.
  induction l as [| p l IH]; cbn; [lia |].
  destruct (same_queue p); cbn; lia.
Qed.

Lemma leading_forall (l : list EmbarkedPull) (n : nat) :
  (n <= leading same_queue l)%nat ->
  Forall (fun p => name (config p) = queue_name) (firstn n l).
Proof.
  revert n. induction l as [| p l IH]; intros n Hn.
  - rewrite firstn_nil. constructor.
  - destruct n as [| n]; [constructor |].
    cbn in Hn. destruct (same_queue p) eqn:E; [| lia].
    cbn. constructor; [now apply String.eqb_eq | apply IH; lia].
Qed.

Lemma leading_maximal (l pre post : list EmbarkedPull) :
  pre ++ post = l ->
  Forall (fun p => name (config p) = queue_name) pre ->
  (List.length pre <= leading same_queue l)%nat.
Proof.
  revert pre. induction l as [| p l IH]; intros pre E F.
  - destruct pre; [cbn; lia | discriminate].
  - destruct pre as [| x pre]; [cbn; lia |].
    injection E as -> E. apply Forall_cons_iff in F as [Hx F'].
    cbn. unfold same_queue at 1. rewrite (proj2 (String.eqb_eq _ _) Hx).
    cbn. apply le_n_S. now apply (IH pre).
Qed.

Lemma leading_firstn (n : nat) (l : list EmbarkedPull) :
  leading same_queue (firstn n l) = Nat.min n (leading same_queue l).
Proof.
  revert n. induction l as [| p l IH]; intros [| n]; cbn; try reflexivity.
  destruct (same_queue p); [now rewrite IH | reflexivity].
Qed.

Lemma next_batch_loop_spec (l : list EmbarkedPull) :
  forall (position : nat) (_i : option nat),
    next_batch_loop queue_name l position _i =
    if (leading same_queue l <? List.length l)%nat
    then (Some (position + leading same_queue l)%nat, true)
    else (match l with
          | [] => _i
          | _ => Some (position + List.length l - 1)%nat
          end, false).
Proof.
  induction l as [| p l IH]; intros position _i; [reflexivity |].
  cbn [next_batch_loop leading List.length]. fold (same_queue p).
  destruct (same_queue p); cbn [negb].
  - rewrite IH.
    change (S (leading same_queue l) <? S (List.length l))%nat
      with (leading same_queue l <? List.length l)%nat.
    destruct (leading same_queue l <? List.length l)%nat.
    + do 2 f_equal. lia.
    + destruct l; f_equal; f_equal; cbn [List.length]; lia.
  - cbn. do 2 f_equal. lia.
Qed.

Lemma _get_next_batch_positive (pulls : list EmbarkedPull) (b : Z) :
  1 <= b ->
  _get_next_batch pulls queue_name b =
  Ok (firstn (leading same_queue (firstn (Z.to_nat b) pulls)) pulls,
      skipn (leading same_queue (firstn (Z.to_nat b) pulls)) pulls).
Proof.
  intros Hb. unfold _get_next_batch.
  destruct pulls as [| p pulls]; [now destruct (Z.to_nat b) |].
  unfold Py.slice_to. destruct (Z.leb_spec 0 b); [| lia].
  rewrite next_batch_loop_spec.
  set (l := firstn (Z.to_nat b) (p :: pulls)).
  assert (Hl : l <> []).
  { subst l. destruct (Z.to_nat b) eqn:E; [lia | discriminate]. }
  destruct (Nat.ltb_spec (leading same_queue l) (List.length l)) as [Hlt | Hge].
  - reflexivity.
  - destruct l as [| x l'] eqn:El; [congruence |].
    pose proof (leading_le (x :: l')) as Hle.
    replace (S (0 + List.length (x :: l') - 1))
      with (leading same_queue (x :: l')) by (cbn [List.length] in *; lia).
    reflexivity.
Qed.

(** C6, as the code has it.  For a batch size of at least 1,
    [_get_next_batch] returns a pair [(batch, rest)] whose concatenation is
    the list of pulls, where [batch] has at most [batch_size] pulls, all of
    the queue, and no longer prefix has these two properties; on an empty
    list it returns two empty lists. *)
Theorem C6_get_next_batch_longest_prefix
    (pulls : list EmbarkedPull) (batch_size_ : Z) :
  1 <= batch_size_ ->
  exists batch rest,
    _get_next_batch pulls queue_name batch_size_ = Ok (batch, rest) /\
    batch ++ rest = pulls /\
    Py.len batch <= batch_size_ /\
    Forall (fun p => name (config p) = queue_name) batch /\
    (forall pre post,
        pre ++ post = pulls -> Py.len pre <= batch_size_ ->
        Forall (fun p => name (config p) = queue_name) pre ->
        Py.len pre <= Py.len batch) /\
    (pulls = [] -> batch = [] /\ rest = []).
Proof.
  intros Hb.
  set (n := leading same_queue (firstn (Z.to_nat batch_size_) pulls)).
  exists (firstn n pulls), (skipn n pulls).
  assert (Hn : n = Nat.min (Z.to_nat batch_size_) (leading same_queue pulls)).
  { subst n. apply leading_firstn. }
  pose proof (leading_le pulls) as Hle.
  assert (Hlen : List.length (firstn n pulls) = n).
  { rewrite length_firstn. lia. }
  split; [| split; [| split; [| split; [| split]]]].
  - now apply _get_next_batch_positive.
  - apply firstn_skipn.
  - unfold Py.len. rewrite Hlen. lia.
  - apply leading_forall. lia.
  - intros pre post E Hp F. unfold Py.len in *. rewrite Hlen.
    pose proof (leading_maximal _ _ _ E F). lia.
  - intros ->. now rewrite firstn_nil, skipn_nil.
Qed.

End NextBatch.

(* ------------------------------------------------------------------ *)
(** ** Tear-down and slicing *)

(** An answer to a ref deletion that [_delete_branch] accepts: a success, a
    404, or a 422 whose message says that the reference does not exist. *)
Definition delete_tolerated (a : answer) : bool :=
  match answer_exception a with
  | None => true
  | Some exc =>
      is_http Http.HTTPNotFound exc
      || (is_http Http.HTTPClientSideError exc
          && (exn_status exc =? 422)
          && Py.contains (exn_message exc) "Reference does not exist")
  end.

(** The host never answers a ref deletion with another error. *)
Definition quiet_deletes (host : Host) : Prop :=
  forall branch, delete_tolerated (delete_ref host branch) = true.

(** The requests of [delete_pull(reason)] on a car. *)
Definition teardown (host : Host) (reason : option string) (c : TrainCar)
  : list action :=
  match queue_pull_request_number c, head_branch c with
  | Some n, Some _ =>
      if n =? 0 then []
      else
        (match creation_state c, reason with
         | created, Some _ =>
             if summary_pending host n then
               (if body_up_to_date host n then [] else [PatchPullBody n])
               ++ [SetSummaryCheck n CANCELLED]
             else []
         | _, _ => []
         end) ++ [DeleteRef (head_branch c)]
  | _, _ => []
  end.

(** The number of leading cars that [_slice_cars] keeps. *)
Fixpoint kept (new_queue_size : Z) (cs : list TrainCar) : nat :=
  match cs with
  | [] => 0
  | c :: cs' =>
      let size := new_queue_size - Py.len (still_queued_embarked_pulls c) in
      if 0 <=? size then S (kept size cs') else 0
  end.

(** The still queued pulls of a list of cars, in order. *)
Definition pulls_of (cs : list TrainCar) : list EmbarkedPull :=
  flat_map still_queued_embarked_pulls cs.

Section Slicing.

Variable host : Host.
Hypothesis quiet : quiet_deletes host.

Lemma _delete_branch_ok (c : TrainCar) (tr : list action) :
  _delete_branch host c tr = (Ok tt, c, tr ++ [DeleteRef (head_branch c)]).
Proof.
  unfold _delete_branch, bind, get, emit.
  specialize (quiet (head_branch c)). unfold delete_tolerated in quiet.
  destruct (answer_exception (delete_ref host (head_branch c))) as [exc |];
    [| reflexivity].
  destruct (is_http Http.HTTPNotFound exc); [reflexivity |].
  cbn [orb] in quiet.
  destruct (is_http Http.HTTPClientSideError exc); [| discriminate].
  cbn [andb] in quiet. now rewrite quiet.
Qed.

Lemma delete_pull_ok (reason : option string) (c : TrainCar)
    (tr : list action) :
  delete_pull host reason c tr = (Ok tt, c, tr ++ teardown host reason c).
Proof.
  unfold delete_pull, teardown, bind, get.
  destruct (queue_pull_request_number c) as [n |];
    [| now rewrite app_nil_r].
  destruct (head_branch c) as [b |] eqn:Hb; [| now rewrite app_nil_r].
  destruct (n =? 0); [now rewrite app_nil_r |].
  destruct (creation_state c); cbn [TrainCarState_eqb];
    try (unfold ret; rewrite _delete_branch_ok, Hb; reflexivity).
  destruct reason as [r |];
    [| unfold ret; rewrite _delete_branch_ok, Hb; reflexivity].
  destruct (summary_pending host n);
    [| unfold ret; rewrite _delete_branch_ok, Hb; reflexivity].
  destruct (body_up_to_date host n); cbn [negb]; unfold ret, emit;
    rewrite _delete_branch_ok, Hb; now rewrite <- !app_assoc.
Qed.

Lemma kept_negative (n : Z) (cs : list TrainCar) : n < 0 -> kept n cs = 0%nat.
Proof.
  intros H. destruct cs as [| c cs]; [reflexivity |]. cbn.
  unfold Py.len. destruct (Z.leb_spec 0 (n - Z.of_nat (List.length
    (still_queued_embarked_pulls c)))); [lia | reflexivity].
Qed.

Lemma _slice_cars_loop_spec (reason : string) (todo : list TrainCar) :
  forall (n : Z) (new_cars : list TrainCar) (new_waiting : list EmbarkedPull)
         (t : Train) (tr : list action),
    _slice_cars_loop host todo n reason new_cars new_waiting t tr =
    (Ok (new_cars ++ firstn (kept n todo) todo,
         new_waiting ++ pulls_of (skipn (kept n todo) todo)),
     t,
     tr ++ flat_map (teardown host (Some reason)) (skipn (kept n todo) todo)).
Proof.
  induction todo as [| c todo IH]; intros n new_cars new_waiting t tr.
  - cbn. unfold ret. now rewrite !app_nil_r.
  - cbn [_slice_cars_loop kept].
    destruct (Z.leb_spec 0 (n - Py.len (still_queued_embarked_pulls c)))
      as [Hge | Hlt].
    + rewrite IH. cbn [firstn skipn]. now rewrite <- app_assoc.
    + unfold bind, with_car. rewrite delete_pull_ok. rewrite IH.
      rewrite (kept_negative _ todo Hlt). cbn [firstn skipn flat_map pulls_of].
      unfold pulls_of. cbn [flat_map]. now rewrite !app_nil_r, <- !app_assoc.
Qed.

Lemma _slice_cars_spec (n : Z) (reason : string) (t : Train)
    (tr : list action) :
  _slice_cars host n reason t tr =
  (Ok tt,
   mkTrain (firstn (kept n (cars t)) (cars t))
           (pulls_of (skipn (kept n (cars t)) (cars t)) ++ waiting_pulls t)
           (current_base_sha t),
   tr ++ flat_map (teardown host (Some reason))
                  (skipn (kept n (cars t)) (cars t))).
Proof.
  unfold _slice_cars, bind, get. rewrite _slice_cars_loop_spec.
  reflexivity.
Qed.

End Slicing.

Lemma number_of_pulls_in_app (a b : list TrainCar) :
  number_of_pulls_in (a ++ b) = number_of_pulls_in a + number_of_pulls_in b.
Proof.
  unfold number_of_pulls_in, Py.sum. induction a as [| c a IH]; cbn; [lia |].
  cbn in IH. lia.
Qed.

Lemma number_of_pulls_in_nonneg (a : list TrainCar) :
  0 <= number_of_pulls_in a.
Proof.
  unfold number_of_pulls_in, Py.sum, Py.len.
  induction a as [| c a IH]; cbn; lia.
Qed.

Lemma kept_le (n : Z) (cs : list TrainCar) :
  (kept n cs <= List.length cs)%nat.
Proof.
  revert n. induction cs as [| c cs IH]; intros n; cbn; [lia |].
  destruct (0 <=? _); [specialize (IH (n - Py.len (still_queued_embarked_pulls c)))|];
    lia.
Qed.

Lemma number_of_pulls_in_cons (c : TrainCar) (cs : list TrainCar) :
  number_of_pulls_in (c :: cs)
  = Py.len (still_queued_embarked_pulls c) + number_of_pulls_in cs.
Proof. reflexivity. Qed.

Lemma number_of_pulls_in_firstn_mono (cs : list TrainCar) (i j : nat) :
  (i <= j)%nat ->
  number_of_pulls_in (firstn i cs) <= number_of_pulls_in (firstn j cs).
Proof.
  revert i j. induction cs as [| c cs IH]; intros i j H.
  - rewrite !firstn_nil. lia.
  - destruct i as [| i].
    + cbn [firstn]. apply number_of_pulls_in_nonneg.
    + destruct j as [| j]; [lia |]. cbn [firstn].
      rewrite !number_of_pulls_in_cons.
      specialize (IH i j ltac:(lia)). lia.
Qed.

(** The cars kept hold at most [n] pulls. *)
Lemma kept_fits (n : Z) (cs : list TrainCar) :
  0 <= n -> number_of_pulls_in (firstn (kept n cs) cs) <= n.
Proof.
  revert n. induction cs as [| c cs IH]; intros n Hn; [exact Hn |].
  cbn [kept].
  destruct (Z.leb_spec 0 (n - Py.len (still_queued_embarked_pulls c)))
    as [Hge | Hlt]; [| exact Hn].
  cbn [firstn]. rewrite number_of_pulls_in_cons. specialize (IH _ Hge). lia.
Qed.

(** No longer prefix of the cars holds at most [n] pulls. *)
Lemma kept_longest (n : Z) (cs : list TrainCar) (k : nat) :
  (k <= List.length cs)%nat ->
  number_of_pulls_in (firstn k cs) <= n ->
  (k <= kept n cs)%nat.
Proof.
  revert n k. induction cs as [| c cs IH]; intros n k Hk Hfit.
  - cbn in Hk. lia.
  - destruct k as [| k]; [lia |].
    cbn [firstn] in Hfit. rewrite number_of_pulls_in_cons in Hfit.
    pose proof (number_of_pulls_in_nonneg (firstn k cs)).
    cbn [kept].
    destruct (Z.leb_spec 0 (n - Py.len (still_queued_embarked_pulls c)));
      [| lia].
    apply le_n_S, IH; [cbn in Hk; lia | lia].
Qed.

Lemma pulls_of_app (a b : list TrainCar) :
  pulls_of (a ++ b) = pulls_of a ++ pulls_of b.
Proof. apply flat_map_app. Qed.

Lemma _iter_embarked_pulls_fst (t : Train) :
  map fst (_iter_embarked_pulls t) = pulls_of (cars t) ++ waiting_pulls t.
Proof.
  unfold _iter_embarked_pulls, pulls_of. rewrite map_app, map_map. cbn.
  rewrite map_id. f_equal.
  induction (cars t) as [| c cs IH]; [reflexivity |].
  cbn. rewrite map_app, map_map, IH. cbn. now rewrite map_id.
Qed.

Lemma get_pulls_numbers (t : Train) :
  get_pulls t = numbers (pulls_of (cars t) ++ waiting_pulls t).
Proof.
  unfold get_pulls, numbers. rewrite <- _iter_embarked_pulls_fst.
  now rewrite map_map.
Qed.

(** C5.  When the host accepts the ref deletions, [_slice_cars(n, reason)]
    keeps the longest prefix of the cars whose still queued pulls number at
    most [n], calls [delete_pull(reason)] on every other car, in order, and
    puts the still queued pulls of these cars, in car order, in front of the
    waiting pulls; the sequence of the pull numbers of the train, and so their
    multiset, is unchanged. *)
Theorem C5_slice_cars_keeps_longest_prefix
    (host : Host) (n : nat) (reason : string) (t : Train) (tr : list action) :
  quiet_deletes host ->
  exists k : nat,
    let t' := mkTrain (firstn k (cars t))
                      (pulls_of (skipn k (cars t)) ++ waiting_pulls t)
                      (current_base_sha t) in
    _slice_cars host (Z.of_nat n) reason t tr =
      (Ok tt, t',
       tr ++ flat_map (teardown host (Some reason)) (skipn k (cars t))) /\
    (k <= List.length (cars t))%nat /\
    number_of_pulls_in (firstn k (cars t)) <= Z.of_nat n /\
    (forall j, (j <= List.length (cars t))%nat ->
               number_of_pulls_in (firstn j (cars t)) <= Z.of_nat n ->
               (j <= k)%nat) /\
    get_pulls t' = get_pulls t /\
    Permutation (get_pulls t') (get_pulls t).
Proof.
  intros quiet. exists (kept (Z.of_nat n) (cars t)). cbn zeta.
  assert (E : get_pulls
                (mkTrain (firstn (kept (Z.of_nat n) (cars t)) (cars t))
                   (pulls_of (skipn (kept (Z.of_nat n) (cars t)) (cars t))
                    ++ waiting_pulls t) (current_base_sha t))
              = get_pulls t).
  { rewrite !get_pulls_numbers. cbn [cars waiting_pulls].
    rewrite app_assoc, <- pulls_of_app, firstn_skipn. reflexivity. }
  split; [now apply _slice_cars_spec |].
  split; [apply kept_le |].
  split; [apply kept_fits; lia |].
  split; [intros j; apply kept_longest |].
  split; [exact E | now rewrite E].
Qed.

(* ------------------------------------------------------------------ *)
(** ** Adding a pull *)

(** A position of the train is interruptible for an incoming configuration
    when it has no car, or its car is pending and the configuration allows
    the interruption of checks. *)
Definition interruptible (config_ : PullQueueConfig)
    (item : EmbarkedPull * option TrainCar) : bool :=
  match snd item with
  | None => true
  | Some car =>
      Conclusion_eqb (checks_conclusion car) PENDING
      && allow_checks_interruption (queue_config config_)
  end.

(** The occupant of a position has a strictly lower effective priority. *)
Definition lower_priority (config_ : PullQueueConfig)
    (item : EmbarkedPull * option TrainCar) : bool :=
  effective_priority (config (fst item)) <? effective_priority config_.

(** The first position of a list that satisfies a test. *)
Fixpoint first_position {A} (p : A -> bool) (l : list A) : option nat :=
  match l with
  | [] => None
  | x :: l' => if p x then Some 0%nat else option_map S (first_position p l')
  end.

Lemma first_position_some {A} (p : A -> bool) (l : list A) (i : nat) :
  first_position p l = Some i ->
  (exists x, nth_error l i = Some x /\ p x = true) /\
  (forall j x, (j < i)%nat -> nth_error l j = Some x -> p x = false).
Proof.
  revert i. induction l as [| y l IH]; intros i H; [discriminate |].
  cbn in H. destruct (p y) eqn:E.
  - injection H as <-. split; [now exists y | intros; lia].
  - destruct (first_position p l) as [k |]; [| discriminate].
    injection H as <-. destruct (IH k eq_refl) as [Hx Hj].
    split; [exact Hx |].
    intros [| j] x Hlt Hn; [now injection Hn as <- |].
    cbn in Hn. apply (Hj j); [lia | exact Hn].
Qed.

Lemma first_position_none {A} (p : A -> bool) (l : list A) :
  first_position p l = None -> forall x, In x l -> p x = false.
Proof.
  induction l as [| y l IH]; intros H x Hin; [destruct Hin |].
  cbn in H. destruct (p y) eqn:E; [discriminate |].
  destruct (first_position p l); [discriminate |].
  destruct Hin as [<- | Hin]; [exact E | now apply IH].
Qed.

Lemma add_pull_scan_absent (ctxt_pull : Pull) (config_ : PullQueueConfig)
    (items : list (EmbarkedPull * option TrainCar)) :
  ~ In (number ctxt_pull) (map (fun item => user_pull_request_number (fst item))
                               items) ->
  forall position best_position,
    0 <= position -> best_position = -1 \/ 0 <= best_position ->
    add_pull_scan ctxt_pull config_ items position best_position =
    inr (if best_position =? -1 then
           match first_position
                   (fun item => interruptible config_ item
                                && lower_priority config_ item) items with
           | Some i => position + Z.of_nat i
           | None => -1
           end
         else best_position, false).
Proof.
  induction items as [| [ep car] items IH]; intros Hin position best Hp Hb.
  - cbn. destruct (Z.eqb_spec best (-1)) as [-> |]; reflexivity.
  - cbn [add_pull_scan first_position].
    cbn [map fst] in Hin.
    destruct (Z.eqb_spec (user_pull_request_number ep) (number ctxt_pull))
      as [E | _]; [exfalso; apply Hin; now left |].
    rewrite IH; [| intros H; apply Hin; now right | lia |].
    + unfold interruptible, lower_priority. cbn [fst snd].
      set (can := match car with
                  | Some car0 => Conclusion_eqb (checks_conclusion car0) PENDING
                       && allow_checks_interruption (queue_config config_)
                  | None => true end).
      destruct (Z.eqb_spec best (-1)) as [-> | Hne].
      * cbn [andb].
        destruct (effective_priority (config ep) <? effective_priority config_);
          cbn [andb].
        -- destruct can; cbn [andb].
           ++ destruct (Z.eqb_spec position (-1)); [lia |].
              f_equal. f_equal. lia.
           ++ rewrite Z.eqb_refl.
              destruct (first_position _ items); cbn [option_map];
                f_equal; f_equal; lia.
        -- rewrite andb_false_r, Z.eqb_refl.
           destruct (first_position _ items); cbn [option_map];
             f_equal; f_equal; lia.
      * cbn [andb]. destruct (Z.eqb_spec best (-1)); [lia | reflexivity].
    + destruct ((best =? -1) && _ && _); [right; lia | exact Hb].
Qed.

Lemma pulls_of_length (cs : list TrainCar) :
  number_of_pulls_in cs = Z.of_nat (List.length (pulls_of cs)).
Proof.
  induction cs as [| c cs IH]; [reflexivity |].
  rewrite number_of_pulls_in_cons, IH. unfold pulls_of. cbn [flat_map].
  rewrite length_app. unfold Py.len. lia.
Qed.

Lemma insert_in_sequence {A} (a w : list A) (i : nat) (x : A) :
  (List.length a <= i)%nat ->
  a ++ Py.insert w (Z.of_nat i - Z.of_nat (List.length a)) x
  = firstn i (a ++ w) ++ x :: skipn i (a ++ w).
Proof.
  intros H. unfold Py.insert, Py.slice_to, Py.slice_from.
  destruct (Z.leb_spec 0 (Z.of_nat i - Z.of_nat (List.length a))); [| lia].
  replace (Z.to_nat (Z.of_nat i - Z.of_nat (List.length a)))
    with (i - List.length a)%nat by lia.
  rewrite firstn_app, skipn_app.
  rewrite (firstn_all2 a) by lia. rewrite (skipn_all2 a) by lia.
  now rewrite <- app_assoc.
Qed.

(** The car that holds position [i] of the sequence made of the still queued
    pulls of the cars followed by the waiting pulls; a position of the waiting
    pulls has no car. *)
Fixpoint car_at (cs : list TrainCar) (i : nat) : option TrainCar :=
  match cs with
  | [] => None
  | c :: cs' =>
      let n := List.length (still_queued_embarked_pulls c) in
      if Nat.ltb i n then Some c else car_at cs' (i - n)
  end.

(** Position [i] of the sequence of the train is eligible for an incoming
    configuration: it is occupied, its occupant has a strictly lower
    effective priority, and it is interruptible, that is, it has no car, or
    its car is pending and the configuration allows the interruption of
    checks. *)
Definition eligible (config_ : PullQueueConfig) (t : Train) (i : nat)
  : bool :=
  match nth_error (pulls_of (cars t) ++ waiting_pulls t) i with
  | None => false
  | Some occupant =>
      (effective_priority (config occupant) <? effective_priority config_)
      && match car_at (cars t) i with
         | None => true
         | Some car =>
             Conclusion_eqb (checks_conclusion car) PENDING
             && allow_checks_interruption (queue_config config_)
         end
  end.

Lemma nth_error_seq_lt (n s i : nat) :
  nth_error (List.seq s n) i = if Nat.ltb i n then Some (s + i)%nat else None.
Proof.
  revert s i. induction n as [| n IH]; intros s i.
  - now destruct i.
  - destruct i as [| i]; cbn [List.seq nth_error].
    + cbn. f_equal. lia.
    + rewrite IH. change (Nat.ltb (S i) (S n)) with (Nat.ltb i n).
      destruct (Nat.ltb i n); [f_equal; lia | reflexivity].
Qed.

(** The first position of the positions [0 .. n-1] that passes a test is a
    position where the test passes, and the test fails before it; when there
    is none the test fails below [n]. *)
Lemma first_position_seq_some (q : nat -> bool) (n i : nat) :
  first_position q (List.seq 0 n) = Some i ->
  q i = true /\ forall j, (j < i)%nat -> q j = false.
Proof.
  intros H. apply first_position_some in H as [[x [Hx Hq]] Hbefore].
  rewrite nth_error_seq_lt in Hx.
  destruct (Nat.ltb_spec i n) as [Hlt |]; [| discriminate].
  injection Hx as <-. split; [exact Hq |].
  intros j Hj. apply (Hbefore j j Hj). rewrite nth_error_seq_lt.
  destruct (Nat.ltb_spec j n); [reflexivity | lia].
Qed.

Lemma first_position_seq_none (q : nat -> bool) (n : nat) :
  first_position q (List.seq 0 n) = None ->
  forall j, (j < n)%nat -> q j = false.
Proof.
  intros H j Hj. apply (first_position_none _ _ H). apply in_seq. lia.
Qed.

(** The first position of a list for a test on its items is the first of its
    positions for the same test on the positions. *)
Lemma first_position_positions {A} (p : A -> bool) (q : nat -> bool)
    (l : list A) :
  forall s,
    (forall i x, nth_error l i = Some x -> p x = q (s + i)%nat) ->
    first_position p l = first_position q (List.seq s (List.length l)).
Proof.
  induction l as [| x l IH]; intros s H; [reflexivity |].
  cbn [List.length List.seq first_position].
  rewrite (H 0%nat x eq_refl), Nat.add_0_r.
  rewrite (IH (S s)); [reflexivity |].
  intros i y Hy. rewrite (H (S i) y Hy). f_equal. lia.
Qed.

(** The items that [_iter_embarked_pulls] yields are the pulls of the
    sequence of the train, each with the car of its position. *)
Lemma _iter_embarked_pulls_nth (t : Train) (i : nat) :
  nth_error (_iter_embarked_pulls t) i
  = option_map (fun embarked_pull => (embarked_pull, car_at (cars t) i))
               (nth_error (pulls_of (cars t) ++ waiting_pulls t) i).
Proof.
  unfold _iter_embarked_pulls, pulls_of.
  revert i. induction (cars t) as [| c cs IH]; intros i.
  - cbn [flat_map app car_at]. apply nth_error_map.
  - cbn [flat_map car_at]. rewrite <- !app_assoc.
    destruct (Nat.ltb_spec i (List.length (still_queued_embarked_pulls c)))
      as [Hlt | Hge].
    + rewrite (nth_error_app1 (map _ (still_queued_embarked_pulls c)))
        by (rewrite length_map; exact Hlt).
      rewrite (nth_error_app1 (still_queued_embarked_pulls c)) by exact Hlt.
      apply nth_error_map.
    + rewrite (nth_error_app2 (map _ (still_queued_embarked_pulls c)))
        by (rewrite length_map; exact Hge).
      rewrite (nth_error_app2 (still_queued_embarked_pulls c)) by exact Hge.
      rewrite length_map. apply IH.
Qed.

Lemma eligible_item (config_ : PullQueueConfig) (t : Train) (i : nat)
    (item : EmbarkedPull * option TrainCar) :
  nth_error (_iter_embarked_pulls t) i = Some item ->
  interruptible config_ item && lower_priority config_ item
  = eligible config_ t i.
Proof.
  rewrite _iter_embarked_pulls_nth. unfold eligible.
  destruct (nth_error (pulls_of (cars t) ++ waiting_pulls t) i) as [ep |];
    [| discriminate].
  cbn [option_map]. intros H. injection H as <-.
  unfold interruptible, lower_priority. cbn [fst snd]. apply andb_comm.
Qed.

Lemma eligible_occupied (config_ : PullQueueConfig) (t : Train) (i : nat) :
  (List.length (pulls_of (cars t) ++ waiting_pulls t) <= i)%nat ->
  eligible config_ t i = false.
Proof.
  intros H. unfold eligible.
  now rewrite (proj2 (nth_error_None _ _) H).
Qed.

(** C4.  For a pull that is not embarked yet and a host that accepts the ref
    deletions, [add_pull] succeeds.  The sequence is made of the still queued
    pulls of the cars followed by the waiting pulls.  When [i] is its first
    eligible position (interruptible, and with an occupant of strictly lower
    effective priority), the train keeps the longest prefix of its cars that
    holds at most [i] pulls, tears down the other cars, and its new sequence
    is the old one with the new pull inserted at position [i].  When the
    sequence has no eligible position, the pull is appended to the waiting
    pulls, the cars are unchanged and nothing is torn down. *)
Theorem C4_add_pull_position
    (host : Host) (ctxt_pull : Pull) (config_ : PullQueueConfig) (t : Train)
    (tr : list action) :
  quiet_deletes host ->
  ~ In (number ctxt_pull)
       (map user_pull_request_number
            (pulls_of (cars t) ++ waiting_pulls t)) ->
  let new_embarked_pull :=
    mkEmbarkedPull (number ctxt_pull) config_ (utcnow host) in
  let sequence := pulls_of (cars t) ++ waiting_pulls t in
  exists t' tr',
    add_pull host ctxt_pull config_ t tr = (Ok tt, t', tr') /\
    match first_position (eligible config_ t)
                         (List.seq 0 (List.length sequence)) with
    | Some i =>
        let k := kept (Z.of_nat i) (cars t) in
        eligible config_ t i = true /\
        (forall j, (j < i)%nat -> eligible config_ t j = false) /\
        cars t' = firstn k (cars t) /\
        pulls_of (cars t') ++ waiting_pulls t'
        = firstn i sequence ++ new_embarked_pull :: skipn i sequence /\
        exists document,
          tr' = tr
                ++ flat_map
                     (teardown host
                        (Some
                           "Pull request with higher priority has been queued"))
                     (skipn k (cars t))
                ++ [document; RefreshPulls "pull added to queue" None]
    | None =>
        (forall j, eligible config_ t j = false) /\
        cars t' = cars t /\
        waiting_pulls t' = waiting_pulls t ++ [new_embarked_pull] /\
        exists document,
          tr' = tr ++ [document; RefreshPulls "pull added to queue" None]
    end.
Proof.
  intros quiet Hin. cbn zeta.
  assert (Hitems : ~ In (number ctxt_pull)
                        (map (fun item => user_pull_request_number (fst item))
                             (_iter_embarked_pulls t))).
  { rewrite <- (map_map fst user_pull_request_number).
    now rewrite _iter_embarked_pulls_fst. }
  assert (Hlen : List.length (pulls_of (cars t) ++ waiting_pulls t)
                 = List.length (_iter_embarked_pulls t)).
  { now rewrite <- _iter_embarked_pulls_fst, length_map. }
  unfold add_pull, bind at 1, get at 1.
  cbn [add_pull_fuel]. unfold bind at 1, get at 1.
  rewrite add_pull_scan_absent; [| exact Hitems | lia | now left].
  rewrite Z.eqb_refl.
  rewrite (first_position_positions _ (eligible config_ t) _ 0%nat)
    by (intros i x Hx; now apply eligible_item).
  rewrite <- Hlen.
  destruct (first_position (eligible config_ t) _) as [i |] eqn:Hfp.
  - destruct (first_position_seq_some _ _ _ Hfp) as [Hi Hbefore].
    destruct (Z.eqb_spec (0 + Z.of_nat i) (-1)); [lia |].
    unfold bind at 1. unfold bind at 1. rewrite _slice_cars_spec by exact quiet.
    unfold modify, save, _refresh_pulls, bind, get.
    replace (0 + Z.of_nat i) with (Z.of_nat i) by lia.
    set (k := kept (Z.of_nat i) (cars t)).
    assert (Hk : (List.length (pulls_of (firstn k (cars t))) <= i)%nat).
    { pose proof (kept_fits (Z.of_nat i) (cars t) ltac:(lia)) as F.
      fold k in F. rewrite pulls_of_length in F. lia. }
    match goal with
    | |- context [save_document ?x] => destruct (save_document x)
    end; unfold emit; (eexists; eexists; split; [reflexivity |]);
      unfold set_waiting_pulls; cbn [cars waiting_pulls current_base_sha];
      (split; [exact Hi |]); (split; [exact Hbefore |]);
      (split; [reflexivity |]);
      (split; [| eexists; rewrite <- !app_assoc; reflexivity]);
      rewrite pulls_of_length;
      rewrite (insert_in_sequence _ _ _ _ Hk);
      rewrite !app_assoc, <- pulls_of_app, firstn_skipn; reflexivity.
  - assert (Hnone : forall j, eligible config_ t j = false).
    { intros j.
      destruct (Nat.lt_ge_cases j
                  (List.length (pulls_of (cars t) ++ waiting_pulls t)))
        as [Hlt | Hge].
      - exact (first_position_seq_none _ _ Hfp j Hlt).
      - now apply eligible_occupied. }
    rewrite Z.eqb_refl. unfold modify, save, _refresh_pulls, bind, get.
    match goal with
    | |- context [save_document ?x] => destruct (save_document x)
    end; unfold emit; (eexists; eexists; split; [reflexivity |]);
      unfold set_waiting_pulls; cbn [cars waiting_pulls];
      (split; [exact Hnone |]);
      (split; [reflexivity | split; [reflexivity |]]);
      eexists; rewrite <- app_assoc; reflexivity.
Qed.

(* ------------------------------------------------------------------ *)
(** ** Removing the merged head *)

Lemma teardown_without_reason (host : Host) (c : TrainCar) :
  teardown host None c = [] \/
  teardown host None c = [DeleteRef (head_branch c)].
Proof.
  unfold teardown.
  destruct (queue_pull_request_number c) as [n |]; [| now left].
  destruct (head_branch c); [| now left].
  destruct (n =? 0); [now left | right].
  now destruct (creation_state c).
Qed.

(** C3.  When the pull is merged, is the first still queued pull of the
    first car, and the train is synced with the base branch, [remove_pull]
    removes that pull from the still queued pulls of the first car only; the
    car is dropped, after [delete_pull] without a reason (which at most
    deletes its branch), exactly when no pull is left in it; the base sha
    becomes the merge commit of the pull; the other cars and the waiting pulls
    are unchanged. *)
Theorem C3_remove_pull_merged_head
    (host : Host) (ctxt_pull : Pull) (t : Train) (tr : list action)
    (car : TrainCar) (others : list TrainCar)
    (ep : EmbarkedPull) (rest : list EmbarkedPull) (sha : SHAType) :
  quiet_deletes host ->
  cars t = car :: others ->
  still_queued_embarked_pulls car = ep :: rest ->
  merged ctxt_pull = true ->
  number ctxt_pull = user_pull_request_number ep ->
  merge_commit_sha ctxt_pull = Some sha ->
  is_synced_with_the_base_branch host (base_sha host) t tr = (Ok true, t, tr) ->
  let car' := set_still_queued_embarked_pulls rest car in
  exists document,
    remove_pull host ctxt_pull t tr =
    (Ok tt,
     mkTrain (match rest with [] => others | _ => car' :: others end)
             (waiting_pulls t) (Some sha),
     tr ++ (match rest with [] => teardown host None car' | _ => [] end)
        ++ [document;
            RefreshPulls "merged pull removed from queue"
                         (Some (number ctxt_pull))]) /\
    (teardown host None car' = [] \/
     teardown host None car' = [DeleteRef (head_branch car')]).
Proof.
  intros quiet Hcars Hstill Hmerged Hnumber Hsha Hsynced. cbn zeta.
  unfold remove_pull. unfold bind at 1.
  assert (Hfast : head_was_merged host ctxt_pull t tr = (Ok true, t, tr)).
  { unfold head_was_merged, bind, get. rewrite Hmerged, Hcars, Hstill.
    cbn [negb]. rewrite Hnumber, Z.eqb_refl. cbn [negb]. exact Hsynced. }
  rewrite Hfast. unfold bind at 1, get at 1. rewrite Hcars.
  unfold bind at 1, put at 1. rewrite Hstill. cbn [tl].
  unfold bind at 1.
  destruct rest as [| ep' rest'].
  - cbn [still_queued_embarked_pulls set_still_queued_embarked_pulls].
    unfold bind at 1, with_car. rewrite delete_pull_ok by exact quiet.
    unfold modify at 1. rewrite Hsha.
    unfold save, _refresh_pulls, bind, modify, get. cbv beta iota.
    match goal with
    | |- context [save_document ?x] => destruct (save_document x)
    end; unfold emit; eexists;
      (split; [| apply teardown_without_reason]);
      unfold set_cars, set_current_base_sha;
      cbn [cars waiting_pulls current_base_sha];
      rewrite <- !app_assoc; reflexivity.
  - cbn [still_queued_embarked_pulls set_still_queued_embarked_pulls].
    unfold ret at 1. rewrite Hsha.
    unfold save, _refresh_pulls, bind, modify, get. cbv beta iota.
    match goal with
    | |- context [save_document ?x] => destruct (save_document x)
    end; unfold emit; eexists;
      (split; [| apply teardown_without_reason]);
      unfold set_cars, set_current_base_sha;
      cbn [cars waiting_pulls current_base_sha];
      rewrite <- !app_assoc; reflexivity.
Qed.

(* ------------------------------------------------------------------ *)
(** ** Postponed creation of a car *)

(** C7 fails on the code.  The second half of a split batch is started as
    the first car of the train while the car of pull 45 follows it; the host
    answers the merges with a 403, so the creation is postponed:
    [_start_checking_car] deletes the last car of the train, which is the car
    of pull 45 and not the car being started.  Pull 45 leaves the train, and
    pulls 43 and 44 are both in the first car and among the waiting pulls. *)
Lemma C7_postponed_first_car_drops_last_car :
  let '(r, t', tr') :=
    _split_failed_batches restricted_host sample_rules
                          train_after_first_half [] in
  r = Ok tt /\
  get_pulls train_after_first_half = [43; 44; 45; 6] /\
  get_pulls t' = [43; 44; 6; 43; 44] /\
  ~ In 45 (get_pulls t') /\
  map (fun c => numbers (still_queued_embarked_pulls c)) (cars t')
  = [[43; 44]] /\
  In (DeleteRef (Some "43-44")) tr'.
Proof.
  vm_compute. repeat split; try reflexivity.
  - intros H. repeat (destruct H as [H | H]; [discriminate H |]). exact H.
  - tauto.
Qed.

(* ------------------------------------------------------------------ *)
(** ** What the methods of a car leave unchanged *)

(** The pulls, parents, base and history of two cars are equal. *)
Definition same_pulls (c c' : TrainCar) : Prop :=
  initial_embarked_pulls c' = initial_embarked_pulls c /\
  still_queued_embarked_pulls c' = still_queued_embarked_pulls c /\
  parent_pull_request_numbers c' = parent_pull_request_numbers c /\
  initial_current_base_sha c' = initial_current_base_sha c /\
  failure_history c' = failure_history c.

Lemma same_pulls_refl (c : TrainCar) : same_pulls c c.
Proof. now repeat split. Qed.

Lemma same_pulls_trans (a b c : TrainCar) :
  same_pulls a b -> same_pulls b c -> same_pulls a c.
Proof.
  intros (H1 & H2 & H3 & H4 & H5) (G1 & G2 & G3 & G4 & G5).
  repeat split; congruence.
Qed.

(** A computation keeps the relation [R] between the state it starts from
    and the state it ends in, whatever its result. *)
Definition preserves {S A} (R : S -> S -> Prop) (m : M S A) : Prop :=
  forall s tr, R s (snd (fst (m s tr))).

Section Preservation.

Context {S : Type} (R : S -> S -> Prop).
Hypothesis R_refl : forall s, R s s.
Hypothesis R_trans : forall a b c, R a b -> R b c -> R a c.

Lemma preserves_ret {A} (a : A) : preserves R (ret a).
Proof. intros s tr. apply R_refl. Qed.

Lemma preserves_raise {A} (e : exn) : preserves R (@raise S A e).
Proof. intros s tr. apply R_refl. Qed.

Lemma preserves_get : preserves R (@get S).
Proof. intros s tr. apply R_refl. Qed.

Lemma preserves_emit (a : action) : preserves R (@emit S a).
Proof. intros s tr. apply R_refl. Qed.

Lemma preserves_lift {A} (r : result A) : preserves R (@lift S A r).
Proof. intros s tr. apply R_refl. Qed.

Lemma preserves_modify (f : S -> S) :
  (forall s, R s (f s)) -> preserves R (modify f).
Proof. intros H s tr. apply H. Qed.

Lemma preserves_bind {A B} (m : M S A) (f : A -> M S B) :
  preserves R m -> (forall a, preserves R (f a)) -> preserves R (bind m f).
Proof.
  intros Hm Hf s tr. unfold bind. specialize (Hm s tr).
  destruct (m s tr) as [[[a | e] s'] tr']; cbn [fst snd] in *.
  - eapply R_trans; [exact Hm | apply Hf].
  - exact Hm.
Qed.

Lemma preserves_try_except {A} (m : M S A) (handler : exn -> option (M S A)) :
  preserves R m ->
  (forall e h, handler e = Some h -> preserves R h) ->
  preserves R (try_except m handler).
Proof.
  intros Hm Hh s tr. unfold try_except. specialize (Hm s tr).
  destruct (m s tr) as [[[a | e] s'] tr']; cbn [fst snd] in *; [exact Hm |].
  destruct (handler e) as [h |] eqn:E; [| exact Hm].
  eapply R_trans; [exact Hm | now apply (Hh e)].
Qed.

Lemma preserves_for_each {A} (l : list A) (body : A -> M S unit) :
  (forall x, preserves R (body x)) -> preserves R (for_each l body).
Proof.
  intros H. induction l as [| x l IH]; cbn [for_each].
  - apply preserves_ret.
  - apply preserves_bind; [apply H | intros _; exact IH].
Qed.

End Preservation.

Ltac frame_step :=
  match goal with
  | |- preserves _ (bind _ _) =>
      apply preserves_bind; [exact same_pulls_trans | | intros ?]
  | |- preserves _ (ret _) => apply preserves_ret; exact same_pulls_refl
  | |- preserves _ (raise _) => apply preserves_raise; exact same_pulls_refl
  | |- preserves _ get => apply preserves_get; exact same_pulls_refl
  | |- preserves _ (emit _) => apply preserves_emit; exact same_pulls_refl
  | |- preserves _ (lift _) => apply preserves_lift; exact same_pulls_refl
  | |- preserves _ (for_each _ _) =>
      apply preserves_for_each;
      [exact same_pulls_refl | exact same_pulls_trans | intros ?]
  | |- preserves _ (modify _) =>
      apply preserves_modify; intros ?; now repeat split
  | |- preserves _ (try_except _ _) =>
      apply preserves_try_except; [exact same_pulls_trans | | intros ? ? ?]
  | |- preserves _ (match ?x with _ => _ end) => destruct x
  | |- preserves _ (if ?x then _ else _) => destruct x
  | H : (if ?x then _ else _) = Some _ |- _ => destruct x
  | H : Some _ = Some _ |- _ => injection H as <-
  | H : None = Some _ |- _ => discriminate H
  | H : (match ?x with _ => _ end) = Some _ |- _ => destruct x
  end.

Ltac frame := repeat frame_step.

Section CarFrames.

Variable host : Host.

Lemma _delete_branch_frame : preserves same_pulls (_delete_branch host).
Proof. unfold _delete_branch. frame. Qed.

Lemma _set_creation_failure_frame (pull_requests : option (list Z)) :
  preserves same_pulls (_set_creation_failure pull_requests).
Proof. unfold _set_creation_failure. frame. Qed.

Lemma get_pull_requests_to_evaluate_frame :
  preserves same_pulls get_pull_requests_to_evaluate.
Proof. unfold get_pull_requests_to_evaluate. frame. Qed.

Lemma update_state_frame (conclusion : Conclusion) (ev : string * bool) :
  preserves same_pulls (update_state host conclusion ev).
Proof. unfold update_state. frame. Qed.

Lemma update_summaries_frame (conclusion : Conclusion) :
  preserves same_pulls (update_summaries host conclusion).
Proof. unfold update_summaries. frame. Qed.

Lemma merge_attempts_frame (remaining attempt_number : nat) (branch : string)
    (pull_number : Z) :
  preserves same_pulls
    (merge_attempts host remaining attempt_number branch pull_number).
Proof.
  revert attempt_number.
  induction remaining as [| remaining IH]; intros attempt_number;
    cbn [merge_attempts]; frame; apply IH.
Qed.

Lemma update_user_pull_frame (queue_rule : QueueConfig) :
  preserves same_pulls (update_user_pull host queue_rule).
Proof.
  unfold update_user_pull. frame;
    first [ apply _set_creation_failure_frame
          | apply update_state_frame
          | apply update_summaries_frame ].
Qed.

Lemma create_pull_frame (queue_rule : QueueConfig) :
  preserves same_pulls (create_pull host queue_rule).
Proof.
  unfold create_pull. frame;
    first [ apply _set_creation_failure_frame
          | apply _delete_branch_frame
          | apply merge_attempts_frame
          | apply get_pull_requests_to_evaluate_frame
          | apply update_state_frame
          | apply update_summaries_frame ].
Qed.

End CarFrames.

(* ------------------------------------------------------------------ *)
(** ** Starting a car, seen from the train *)

(** Two trains hold cars with the same pulls, parents, base and history, the
    same waiting pulls and the same base sha. *)
Definition same_layout (t t' : Train) : Prop :=
  Forall2 same_pulls (cars t) (cars t') /\
  waiting_pulls t' = waiting_pulls t /\
  current_base_sha t' = current_base_sha t.

Lemma Forall2_same_pulls_refl (cs : list TrainCar) : Forall2 same_pulls cs cs.
Proof.
  induction cs; constructor; [apply same_pulls_refl | assumption].
Qed.

Lemma Forall2_same_pulls_trans (a b c : list TrainCar) :
  Forall2 same_pulls a b -> Forall2 same_pulls b c -> Forall2 same_pulls a c.
Proof.
  intros H. revert c. induction H as [| x y a b Hxy _ IH]; intros c Hc.
  - inversion Hc. constructor.
  - inversion Hc as [| ? z ? c' Hyz Hbc]; subst.
    constructor; [eapply same_pulls_trans; eassumption | now apply IH].
Qed.

Lemma same_layout_refl (t : Train) : same_layout t t.
Proof. split; [apply Forall2_same_pulls_refl | now split]. Qed.

Lemma same_layout_trans (a b c : Train) :
  same_layout a b -> same_layout b c -> same_layout a c.
Proof.
  intros (H1 & H2 & H3) (G1 & G2 & G3).
  split; [eapply Forall2_same_pulls_trans; eassumption | split; congruence].
Qed.

Lemma replace_nth_same_pulls (cs : list TrainCar) (i : nat) (c c' : TrainCar) :
  nth_error cs i = Some c -> same_pulls c c' ->
  Forall2 same_pulls cs (replace_nth cs i c').
Proof.
  revert i. induction cs as [| x cs IH]; intros [| i] Hn Hs; try discriminate.
  - injection Hn as ->. cbn. constructor;
      [exact Hs | apply Forall2_same_pulls_refl].
  - cbn. constructor; [apply same_pulls_refl | now apply IH].
Qed.

Lemma on_car_frame {A} (i : nat) (m : M TrainCar A) :
  preserves same_pulls m -> preserves same_layout (on_car i m).
Proof.
  intros Hm t tr. unfold on_car.
  destruct (nth_error (cars t) i) as [c |] eqn:E; [| apply same_layout_refl].
  specialize (Hm c tr). destruct (m c tr) as [[r c'] tr']. cbn [fst snd] in *.
  split; [| now split]. now apply replace_nth_same_pulls with (c := c).
Qed.

Lemma with_car_frame {A} (c : TrainCar) (m : M TrainCar A) :
  preserves same_layout (with_car c m).
Proof.
  intros t tr. unfold with_car. destruct (m c tr) as [[r c'] tr'].
  apply same_layout_refl.
Qed.

(** Every start of a car on this host succeeds or fails for good: it is
    never postponed and raises nothing else. *)
Definition starts_or_fails (host : Host) : Prop :=
  forall (queue_rule : QueueConfig) (c : TrainCar) (tr : list action),
    (fst (fst (create_pull host queue_rule c tr)) = Ok tt \/
     fst (fst (create_pull host queue_rule c tr))
     = Err TrainCarPullRequestCreationFailure) /\
    (forall ep, still_queued_embarked_pulls c = [ep] ->
       fst (fst (update_user_pull host queue_rule c tr)) = Ok tt \/
       fst (fst (update_user_pull host queue_rule c tr))
       = Err TrainCarPullRequestCreationFailure).

Lemma on_car_result {A} (i : nat) (m : M TrainCar A) (t : Train)
    (tr : list action) (c : TrainCar) :
  nth_error (cars t) i = Some c ->
  fst (fst (on_car i m t tr)) = fst (fst (m c tr)).
Proof.
  intros H. unfold on_car. rewrite H. now destruct (m c tr) as [[r c'] tr'].
Qed.

Lemma length_one {A} (l : list A) :
  (Py.len l =? 1) = true -> exists x, l = [x].
Proof.
  unfold Py.len. intros H. apply Z.eqb_eq in H.
  destruct l as [| x [| y l]]; cbn in H; try lia. now exists x.
Qed.

Lemma _start_checking_car_clean (host : Host) (queue_rule : QueueConfig)
    (i : nat) (t : Train) (tr : list action)
    (r : result unit) (t' : Train) (tr' : list action) :
  starts_or_fails host ->
  (i < List.length (cars t))%nat ->
  _start_checking_car host queue_rule i t tr = (r, t', tr') ->
  (r = Ok tt \/ r = Err TrainCarPullRequestCreationFailure) /\
  same_layout t t'.
Proof.
  intros Hs Hi. unfold _start_checking_car, bind at 1, get at 1.
  destruct (nth_error (cars t) i) as [car |] eqn:En;
    [| apply nth_error_None in En; lia].
  destruct (cars t) as [| first others] eqn:Ec; [cbn in Hi; lia |].
  rewrite <- Ec in *.
  set (can := TrainCar_eqb first car
              && (Py.len (still_queued_embarked_pulls car) =? 1)
              && (Py.len (parent_pull_request_numbers car) =? 0)).
  assert (Hm : exists m : M TrainCar unit,
             (if (if can then allow_inplace_checks queue_rule else false)
              then on_car i (update_user_pull host queue_rule)
              else on_car i (create_pull host queue_rule)) = on_car i m /\
             preserves same_pulls m /\
             (fst (fst (m car tr)) = Ok tt \/
              fst (fst (m car tr)) = Err TrainCarPullRequestCreationFailure)).
  { destruct can eqn:Hcan; [destruct (allow_inplace_checks queue_rule) |].
    - exists (update_user_pull host queue_rule).
      split; [reflexivity | split; [apply update_user_pull_frame |]].
      subst can. apply andb_true_iff in Hcan as [Hcan _].
      apply andb_true_iff in Hcan as [_ Hone].
      destruct (length_one _ Hone) as [ep Hep].
      now apply (proj2 (Hs queue_rule car tr) ep).
    - exists (create_pull host queue_rule).
      split; [reflexivity | split; [apply create_pull_frame |]].
      apply (proj1 (Hs queue_rule car tr)).
    - exists (create_pull host queue_rule).
      split; [reflexivity | split; [apply create_pull_frame |]].
      apply (proj1 (Hs queue_rule car tr)). }
  destruct Hm as (m & -> & Hframe & Hres).
  pose proof (on_car_result i m t tr _ En) as Hr.
  pose proof (on_car_frame i m Hframe t tr) as Hf.
  unfold try_except.
  destruct (on_car i m t tr) as [[r0 t0] tr0]. cbn [fst snd] in *.
  rewrite <- Hr in Hres.
  destruct Hres as [-> | ->]; intros [= <- <- <-]; split; auto.
Qed.

(** Whatever happens, starting a car does not add a car to the train. *)
Lemma _start_checking_car_length (host : Host) (queue_rule : QueueConfig)
    (i : nat) (t : Train) (tr : list action)
    (r : result unit) (t' : Train) (tr' : list action) :
  _start_checking_car host queue_rule i t tr = (r, t', tr') ->
  (List.length (cars t') <= List.length (cars t))%nat.
Proof.
  unfold _start_checking_car, bind at 1, get at 1.
  destruct (nth_error (cars t) i) as [car |] eqn:En;
    [| intros [= <- <- <-]; lia].
  destruct (cars t) as [| first others] eqn:Ec;
    [intros [= <- <- <-]; rewrite Ec; lia |].
  rewrite <- Ec in *.
  assert (Hm : exists m : M TrainCar unit,
             (if (if TrainCar_eqb first car
                     && (Py.len (still_queued_embarked_pulls car) =? 1)
                     && (Py.len (parent_pull_request_numbers car) =? 0)
                  then allow_inplace_checks queue_rule else false)
              then on_car i (update_user_pull host queue_rule)
              else on_car i (create_pull host queue_rule)) = on_car i m /\
             preserves same_pulls m).
  { destruct (_ && _ && _); [destruct (allow_inplace_checks queue_rule) |];
      eexists; (split; [reflexivity |]);
      first [apply update_user_pull_frame | apply create_pull_frame]. }
  destruct Hm as (m & -> & Hframe).
  pose proof (on_car_frame i m Hframe t tr) as (Hf & _ & _).
  apply Forall2_length in Hf.
  unfold try_except.
  destruct (on_car i m t tr) as [[[a | e] t0] tr0]; cbn [fst snd] in *;
    [intros [= <- <- <-]; lia |].
  destruct e; try (intros [= <- <- <-]; lia).
  unfold bind, modify, raise. intros [= <- <- <-].
  unfold set_waiting_pulls, set_cars. cbn [cars]. unfold Py.del_last.
  rewrite removelast_firstn_len, length_firstn. lia.
Qed.

(* ------------------------------------------------------------------ *)
(** ** The number of cars *)

Lemma populate_loop_length (host : Host) (missing_cars : nat)
    (head : EmbarkedPull) (queue_rule : QueueConfig) :
  forall (t : Train) (tr : list action)
         (r : result unit) (t' : Train) (tr' : list action),
    populate_loop host missing_cars head queue_rule t tr = (r, t', tr') ->
    (List.length (cars t') <= List.length (cars t) + missing_cars)%nat.
Proof.
  induction missing_cars as [| m IH]; intros t tr r t' tr' H.
  - cbn in H. injection H as <- <- <-. lia.
  - cbn [populate_loop] in H. unfold bind at 1, get at 1 in H.
    unfold bind at 1, lift at 1 in H.
    destruct (_get_next_batch (waiting_pulls t) (name (config head))
                              (batch_size queue_rule)) as [[pulls rest] | e];
      [| injection H as <- <- <-; lia].
    cbn [fst snd] in H.
    destruct pulls as [| first pulls]; [injection H as <- <- <-; lia |].
    destruct (negb _ && negb _); [injection H as <- <- <-; lia |].
    unfold bind at 1, put at 1 in H.
    destruct (current_base_sha t) as [sha |];
      [| injection H as <- <- <-; cbn; lia].
    unfold bind at 1, modify at 1 in H.
    unfold bind at 1, try_except at 1, bind at 1 in H.
    match type of H with
    | context [_start_checking_car ?h ?q ?i ?s ?x] =>
        destruct (_start_checking_car h q i s x) as [[rs ts] trs] eqn:Es
    end.
    apply _start_checking_car_length in Es.
    unfold set_cars, set_waiting_pulls in Es. cbn [cars] in Es.
    rewrite length_app in Es. cbn [List.length] in Es.
    destruct rs as [[] | e].
    + unfold ret at 1 in H. apply IH in H. lia.
    + destruct e; try (injection H as <- <- <-; lia);
        unfold ret at 1 in H; injection H as <- <- <-; lia.
Qed.

Lemma kept_exact (cs : list TrainCar) (k : nat) :
  Forall (fun c => still_queued_embarked_pulls c <> []) cs ->
  (k <= List.length cs)%nat ->
  kept (number_of_pulls_in (firstn k cs)) cs = k.
Proof.
  revert k. induction cs as [| c cs IH]; intros k Hne Hk.
  - cbn in Hk. now replace k with 0%nat by lia.
  - apply Forall_cons_iff in Hne as [Hc Hne].
    assert (Hpos : 0 < Py.len (still_queued_embarked_pulls c)).
    { unfold Py.len. destruct (still_queued_embarked_pulls c);
        [congruence | cbn; lia]. }
    destruct k as [| k].
    + cbn [firstn kept]. change (number_of_pulls_in []) with 0.
      destruct (Z.leb_spec 0 (0 - Py.len (still_queued_embarked_pulls c)));
        [lia | reflexivity].
    + cbn [firstn kept]. rewrite number_of_pulls_in_cons.
      pose proof (number_of_pulls_in_nonneg (firstn k cs)).
      destruct (Z.leb_spec 0 (Py.len (still_queued_embarked_pulls c)
                              + number_of_pulls_in (firstn k cs)
                              - Py.len (still_queued_embarked_pulls c)));
        [| lia].
      f_equal.
      replace (Py.len (still_queued_embarked_pulls c)
               + number_of_pulls_in (firstn k cs)
               - Py.len (still_queued_embarked_pulls c))
        with (number_of_pulls_in (firstn k cs)) by lia.
      apply IH; [exact Hne | cbn in Hk; lia].
Qed.

(** Whether [_populate_cars] leaves the train alone because its last car
    failed. *)
Definition searching_failure (t : Train) : bool :=
  match Py.last_opt (cars t) with
  | Some last_car =>
      TrainCarState_eqb (creation_state last_car) failed
      || Conclusion_eqb (checks_conclusion last_car) FAILURE
  | None => false
  end.

(** C1, as the code has it.  On a host that accepts the ref deletions, for
    a train whose cars each hold a still queued pull and whose first pull
    names a queue rule with a speculative-checks setting of at least 0:
    [_populate_cars] leaves the cars as they are when the last car failed (in
    its creation or in its checks), and otherwise ends with at most
    [speculative_checks] cars, whatever the starts of the new cars answer. *)
Theorem C1_populate_cars_bound
    (host : Host) (queue_rules : string -> option QueueConfig)
    (t : Train) (tr : list action)
    (head : EmbarkedPull) (queue_rule : QueueConfig)
    (r : result unit) (t' : Train) (tr' : list action) :
  quiet_deletes host ->
  Forall (fun c => still_queued_embarked_pulls c <> []) (cars t) ->
  hd_error (pulls_of (cars t) ++ waiting_pulls t) = Some head ->
  queue_rules (name (config head)) = Some queue_rule ->
  0 <= speculative_checks queue_rule ->
  _populate_cars host queue_rules t tr = (r, t', tr') ->
  if searching_failure t then cars t' = cars t
  else Py.len (cars t') <= speculative_checks queue_rule.
Proof.
  intros quiet Hne Hhead Hrule Hsc H.
  unfold _populate_cars, bind at 1, get at 1 in H.
  fold (searching_failure t) in H.
  destruct (searching_failure t); [now injection H as <- <- <- |].
  rewrite <- _iter_embarked_pulls_fst in Hhead.
  destruct (_iter_embarked_pulls t) as [| [head' car] items] eqn:Ei;
    [discriminate |].
  cbn in Hhead. injection Hhead as ->.
  unfold bind at 1 in H.
  set (t1 := match current_base_sha t, cars t with
             | Some _, _ :: _ => t
             | _, _ => set_current_base_sha (Some (base_sha host)) t
             end).
  assert (E1 : (match current_base_sha t, cars t with
                | Some _, _ :: _ => ret tt
                | _, _ => modify (set_current_base_sha (Some (base_sha host)))
                end) t tr = (Ok tt, t1, tr)).
  { subst t1. destruct (current_base_sha t); [destruct (cars t) |];
      reflexivity. }
  rewrite E1 in H. clear E1.
  assert (Hc1 : cars t1 = cars t).
  { subst t1. destruct (current_base_sha t); [destruct (cars t) eqn:E |];
      unfold set_current_base_sha; cbn [cars]; congruence. }
  unfold bind at 1, get at 1 in H. rewrite Hrule in H. rewrite Hc1 in H.
  destruct (Z.ltb_spec (speculative_checks queue_rule - Py.len (cars t)) 0)
    as [Hlt | Hge].
  - rewrite _slice_cars_spec in H by exact quiet.
    injection H as <- <- <-. cbn [cars]. rewrite Hc1.
    unfold Py.slice_to.
    destruct (Z.leb_spec 0 (speculative_checks queue_rule)); [| lia].
    rewrite kept_exact; [| exact Hne | unfold Py.len in Hlt; lia].
    unfold Py.len. rewrite length_firstn. lia.
  - destruct ((0 <? speculative_checks queue_rule - Py.len (cars t))
              && negb (Nat.eqb (List.length (waiting_pulls t1)) 0)).
    + apply populate_loop_length in H. rewrite Hc1 in H.
      unfold Py.len in *. lia.
    + injection H as <- <- <-. rewrite Hc1. lia.
Qed.

(* ------------------------------------------------------------------ *)
(** ** Equality of cars *)

Lemma option_eqb_refl {A} (eqb : A -> A -> bool) (o : option A) :
  (forall a, eqb a a = true) -> option_eqb eqb o o = true.
Proof. intros H. destruct o; cbn; auto. Qed.

Lemma list_eqb_refl {A} (eqb : A -> A -> bool) (l : list A) :
  (forall a, eqb a a = true) -> list_eqb eqb l l = true.
Proof. intros H. induction l; cbn; [reflexivity | now rewrite H, IHl]. Qed.

Lemma QueueConfig_eqb_refl (a : QueueConfig) : QueueConfig_eqb a a = true.
Proof.
  unfold QueueConfig_eqb.
  now rewrite !Z.eqb_refl, !Bool.eqb_reflx,
    (option_eqb_refl String.eqb _ String.eqb_refl).
Qed.

Lemma PullQueueConfig_eqb_refl (a : PullQueueConfig) :
  PullQueueConfig_eqb a a = true.
Proof.
  unfold PullQueueConfig_eqb.
  now rewrite String.eqb_refl, !Z.eqb_refl,
    !(option_eqb_refl String.eqb _ String.eqb_refl), QueueConfig_eqb_refl.
Qed.

Lemma EmbarkedPull_eqb_refl (a : EmbarkedPull) : EmbarkedPull_eqb a a = true.
Proof.
  unfold EmbarkedPull_eqb.
  now rewrite !Z.eqb_refl, PullQueueConfig_eqb_refl.
Qed.

Lemma QueueCheck_eqb_refl (a : QueueCheck) : QueueCheck_eqb a a = true.
Proof.
  unfold QueueCheck_eqb.
  rewrite !String.eqb_refl, !(option_eqb_refl String.eqb _ String.eqb_refl).
  now destruct (qc_state a).
Qed.

Lemma TrainCar_eqb_refl (c : TrainCar) : TrainCar_eqb c c = true.
Proof.
  induction c as [i s p sha d cs cc q fh hb lc le t IH]
    using TrainCar_history_ind.
  cbn [TrainCar_eqb].
  rewrite !(list_eqb_refl EmbarkedPull_eqb _ EmbarkedPull_eqb_refl),
    (list_eqb_refl Z.eqb _ Z.eqb_refl), String.eqb_refl, Z.eqb_refl,
    (option_eqb_refl Z.eqb _ Z.eqb_refl),
    !(option_eqb_refl String.eqb _ String.eqb_refl),
    (list_eqb_refl QueueCheck_eqb _ QueueCheck_eqb_refl), Bool.eqb_reflx.
  replace (TrainCarState_eqb cs cs) with true by now destruct cs.
  replace (Conclusion_eqb cc cc) with true by now destruct cc.
  cbn [andb]. rewrite !andb_true_r.
  induction IH as [| x l Hx _ IHl]; [reflexivity | now rewrite Hx, IHl].
Qed.

Lemma index_bound {A} (eqb : A -> A -> bool) (x : A) (before after : list A) :
  eqb x x = true ->
  exists j, Py.index eqb x (before ++ x :: after) = Some j /\
            (j <= List.length before)%nat.
Proof.
  intros H. induction before as [| y before IH]; cbn.
  - rewrite H. exists 0%nat. split; [reflexivity | lia].
  - destruct (eqb y x); [exists 0%nat; split; [reflexivity | lia] |].
    destruct IH as (j & -> & Hj). exists (S j). split; [reflexivity | lia].
Qed.

Lemma in_firstn {A} (l : list A) (n : nat) (x : A) :
  In x (firstn n l) -> In x l.
Proof.
  intros H. rewrite <- (firstn_skipn n l). apply in_or_app. now left.
Qed.

(** When every car before [car] succeeded, the test the split makes on the
    previous cars answers yes. *)
Lemma has_previous_car_status_succeeded_yes
    (before after : list TrainCar) (car : TrainCar) :
  Forall (fun b => checks_conclusion b = SUCCESS) before ->
  has_previous_car_status_succeeded (before ++ car :: after) car = Ok true.
Proof.
  intros Hb. unfold has_previous_car_status_succeeded.
  destruct (index_bound TrainCar_eqb car before after (TrainCar_eqb_refl car))
    as (j & -> & Hj).
  destruct (Nat.eqb j 0); [reflexivity |]. f_equal.
  unfold Py.all. apply forallb_forall. intros c Hc.
  rewrite firstn_app in Hc. replace (j - List.length before)%nat with 0%nat in Hc
    by lia.
  cbn [firstn] in Hc. rewrite app_nil_r in Hc.
  rewrite Forall_forall in Hb.
  assert (In c before) by (eapply in_firstn; eassumption).
  now rewrite (Hb c).
Qed.

(* ------------------------------------------------------------------ *)
(** ** Partitioning a batch *)

Lemma take_groups_concat {A} (sizes : list nat) :
  forall xs : list A,
    List.concat (take_groups xs sizes) = firstn (list_sum sizes) xs.
Proof.
  induction sizes as [| n sizes IH]; intros xs; [reflexivity |].
  destruct n as [| n]; [cbn; apply IH |].
  cbn [take_groups List.concat list_sum fold_right]. rewrite IH.
  change (fold_right Nat.add 0%nat sizes) with (list_sum sizes).
  rewrite <- (firstn_skipn (S n) xs) at 3.
  rewrite firstn_app.
  destruct (Nat.le_gt_cases (S n) (List.length xs)) as [Hle | Hgt].
  - rewrite length_firstn, Nat.min_l by exact Hle.
    rewrite firstn_all2 with (n := (S n + list_sum sizes)%nat)
      by (rewrite length_firstn; lia).
    f_equal. f_equal. lia.
  - rewrite skipn_all2 by lia. rewrite !firstn_nil, !app_nil_r.
    rewrite firstn_firstn. f_equal. lia.
Qed.

Lemma take_groups_lengths {A} (sizes : list nat) :
  forall xs : list A,
    (list_sum sizes <= List.length xs)%nat ->
    map (@List.length A) (take_groups xs sizes)
    = filter (fun n => negb (Nat.eqb n 0)) sizes.
Proof.
  induction sizes as [| n sizes IH]; intros xs H; [reflexivity |].
  cbn [list_sum fold_right] in H.
  change (fold_right Nat.add 0%nat sizes) with (list_sum sizes) in H.
  destruct n as [| n]; [cbn; apply IH; exact H |].
  cbn [take_groups map filter Nat.eqb negb].
  rewrite length_firstn, Nat.min_l by lia. f_equal.
  apply IH. rewrite length_skipn. lia.
Qed.

Lemma list_sum_repeat (a n : nat) : list_sum (repeat a n) = (n * a)%nat.
Proof.
  induction n as [| n IH]; [reflexivity |]. cbn [repeat].
  change (list_sum (a :: repeat a n)) with (a + list_sum (repeat a n))%nat.
  rewrite IH. lia.
Qed.

Lemma split_list_sizes {A} (xs : list A) (parts : Z) :
  1 <= parts ->
  let p := Z.to_nat parts in
  let q := (List.length xs / p)%nat in
  let r := (List.length xs mod p)%nat in
  list_sum (repeat (S q) r ++ repeat q (p - r)) = List.length xs.
Proof.
  intros Hp p q r. rewrite list_sum_app, !list_sum_repeat.
  assert (Hp0 : p <> 0%nat) by (subst p; lia).
  pose proof (Nat.div_mod_eq (List.length xs) p) as E.
  pose proof (Nat.mod_upper_bound (List.length xs) p Hp0) as Hr.
  fold q r in E, Hr. nia.
Qed.

(** The groups of [split_list] are contiguous and cover the list. *)
Lemma split_list_concat {A} (xs : list A) (parts : Z) :
  1 <= parts -> List.concat (split_list xs parts) = xs.
Proof.
  intros Hp. unfold split_list. rewrite take_groups_concat.
  rewrite (split_list_sizes xs parts Hp). apply firstn_all.
Qed.

(** The groups of [split_list] are not empty, number at most [parts], and
    each holds the quotient of the length by [parts], or one more. *)
Lemma split_list_groups {A} (xs : list A) (parts : Z) :
  1 <= parts ->
  Forall (fun g => g <> []) (split_list xs parts) /\
  Py.len (split_list xs parts) <= parts /\
  Forall (fun g : list A =>
            let q := (List.length xs / Z.to_nat parts)%nat in
            List.length g = q \/ List.length g = S q)
         (split_list xs parts).
Proof.
  intros Hp.
  pose proof (split_list_sizes xs parts Hp) as Hsum. cbn zeta in Hsum.
  set (p := Z.to_nat parts) in *.
  set (q := (List.length xs / p)%nat) in *.
  set (r := (List.length xs mod p)%nat) in *.
  set (sizes := repeat (S q) r ++ repeat q (p - r)) in *.
  assert (Hl : map (@List.length A) (split_list xs parts)
               = filter (fun n => negb (Nat.eqb n 0)) sizes).
  { unfold split_list. apply take_groups_lengths. fold p q r sizes. lia. }
  assert (Hin : forall g, In g (split_list xs parts) ->
                In (List.length g)
                   (filter (fun n => negb (Nat.eqb n 0)) sizes)).
  { intros g Hg. rewrite <- Hl. now apply in_map. }
  split; [| split].
  - apply Forall_forall. intros g Hg. specialize (Hin g Hg).
    apply filter_In in Hin as [_ Hnz]. intros ->. discriminate.
  - unfold Py.len. rewrite <- (length_map (@List.length A)), Hl.
    pose proof (filter_length_le (fun n => negb (Nat.eqb n 0)) sizes) as Hf.
    subst sizes. rewrite length_app, !repeat_length in Hf.
    assert (Hr : (r < p)%nat) by (apply Nat.mod_upper_bound; lia).
    lia.
  - apply Forall_forall. intros g Hg. specialize (Hin g Hg).
    apply filter_In in Hin as [Hin _]. subst sizes.
    apply in_app_or in Hin as [Hin | Hin]; apply repeat_spec in Hin;
      [now right | now left].
Qed.

Lemma slice_to_minus_one {A} (l : list A) : Py.slice_to l (-1) = removelast l.
Proof.
  unfold Py.slice_to. cbn. rewrite removelast_firstn_len.
  f_equal. lia.
Qed.

(* ------------------------------------------------------------------ *)
(** ** Splitting a failed batch *)

(** The cars the split builds for the groups of a failed car, before they
    are started. *)
Fixpoint expected_new_cars (now : Z) (car residual : TrainCar)
    (groups : list (list EmbarkedPull)) (parents : list EmbarkedPull)
  : list TrainCar :=
  match groups with
  | [] => []
  | pulls :: groups' =>
      new_TrainCar now pulls pulls
        (parent_pull_request_numbers car ++ numbers parents)
        (initial_current_base_sha car) (failure_history car ++ [residual])
      :: expected_new_cars now car residual groups' (parents ++ pulls)
  end.

Lemma expected_new_cars_pulls (now : Z) (car residual : TrainCar)
    (groups : list (list EmbarkedPull)) :
  forall parents,
    map initial_embarked_pulls
        (expected_new_cars now car residual groups parents) = groups /\
    map still_queued_embarked_pulls
        (expected_new_cars now car residual groups parents) = groups.
Proof.
  induction groups as [| g groups IH]; intros parents; [now split |].
  cbn. destruct (IH (parents ++ g)) as [-> ->]. now split.
Qed.

Lemma Forall2_same_pulls_maps (a b : list TrainCar) :
  Forall2 same_pulls a b ->
  map initial_embarked_pulls b = map initial_embarked_pulls a /\
  map still_queued_embarked_pulls b = map still_queued_embarked_pulls a /\
  map parent_pull_request_numbers b = map parent_pull_request_numbers a.
Proof.
  induction 1 as [| x y a b (H1 & H2 & H3 & _) _ (IH1 & IH2 & IH3)];
    [now repeat split |].
  cbn. now rewrite H1, H2, H3, IH1, IH2, IH3.
Qed.

Lemma split_groups_spec (host : Host) (queue_rule : QueueConfig)
    (car residual : TrainCar) (groups : list (list EmbarkedPull)) :
  starts_or_fails host ->
  forall (pos : nat) (parents : list EmbarkedPull) (t : Train)
         (tr : list action),
  exists t' tr',
    split_groups host queue_rule car residual groups pos parents t tr
    = (Ok tt, t', tr') /\
    Forall2 same_pulls
      (cars t ++ expected_new_cars (utcnow host) car residual groups parents)
      (cars t') /\
    waiting_pulls t' = waiting_pulls t /\
    current_base_sha t' = current_base_sha t.
Proof.
  intros Hs. induction groups as [| pulls groups IH];
    intros pos parents t tr.
  - exists t, tr. cbn. rewrite app_nil_r.
    split; [reflexivity | split; [apply Forall2_same_pulls_refl | now split]].
  - cbn [split_groups expected_new_cars].
    unfold bind at 1, modify at 1. unfold bind at 1.
    set (new := new_TrainCar (utcnow host) pulls pulls
                  (parent_pull_request_numbers car ++ numbers parents)
                  (initial_current_base_sha car)
                  (failure_history car ++ [residual])).
    set (t1 := set_cars (cars t ++ [new]) t).
    assert (Hstart : exists t2 tr2,
      (if (1 <? speculative_checks queue_rule) || Nat.eqb pos 0
       then self <- get ;;
            try_except
              (_start_checking_car host queue_rule (List.length (cars self) - 1))
              (fun e =>
                 match e with
                 | TrainCarPullRequestCreationPostponed
                 | TrainCarPullRequestCreationFailure => Some (ret tt)
                 | _ => None
                 end)
       else ret tt) t1 tr = (Ok tt, t2, tr2) /\ same_layout t1 t2).
    { destruct ((1 <? speculative_checks queue_rule) || Nat.eqb pos 0).
      - unfold bind, get, try_except.
        destruct (_start_checking_car host queue_rule
                    (List.length (cars t1) - 1) t1 tr) as [[r t2] tr2] eqn:Es.
        apply _start_checking_car_clean in Es;
          [| exact Hs
           | subst t1; unfold set_cars; cbn [cars]; rewrite length_app;
             cbn; lia].
        destruct Es as [[-> | ->] Hl]; exists t2, tr2; now split.
      - exists t1, tr. split; [reflexivity | apply same_layout_refl]. }
    destruct Hstart as (t2 & tr2 & -> & (Hcars & Hw & Hb)).
    destruct (IH (S pos) (parents ++ pulls) t2 tr2)
      as (t' & tr' & -> & Hcars' & Hw' & Hb').
    exists t', tr'. split; [reflexivity |].
    split;
      [| subst t1; unfold set_cars in Hw, Hb;
         cbn [waiting_pulls current_base_sha] in Hw, Hb; split; congruence].
    eapply Forall2_same_pulls_trans; [| exact Hcars'].
    change (new :: expected_new_cars (utcnow host) car residual groups
                     (parents ++ pulls))
      with ([new] ++ expected_new_cars (utcnow host) car residual groups
                       (parents ++ pulls)).
    rewrite app_assoc. apply Forall2_app;
      [exact Hcars | apply Forall2_same_pulls_refl].
Qed.

Lemma split_loop_skips_succeeded (host : Host)
    (queue_rules : string -> option QueueConfig)
    (all_cars before rest : list TrainCar) :
  Forall (fun b => checks_conclusion b = SUCCESS) before ->
  forall position,
    split_loop host queue_rules all_cars (before ++ rest) position
    = split_loop host queue_rules all_cars rest
                 (position + number_of_pulls_in before).
Proof.
  induction 1 as [| b before Hb _ IH]; intros position.
  - cbn [app]. f_equal. change (number_of_pulls_in []) with 0. lia.
  - cbn [app split_loop]. rewrite Hb. cbn [Conclusion_eqb].
    rewrite IH, number_of_pulls_in_cons. f_equal. lia.
Qed.

Lemma skipn_last {A} (l : list A) (d : A) :
  l <> [] -> skipn (List.length l - 1) l = [last l d].
Proof.
  intros H. destruct (exists_last H) as (l' & x & ->).
  rewrite length_app, last_last. cbn [List.length].
  replace (List.length l' + 1 - 1)%nat with (List.length l') by lia.
  now rewrite skipn_app, skipn_all, Nat.sub_diag.
Qed.

Lemma split_failed_car_spec (host : Host)
    (queue_rules : string -> option QueueConfig)
    (t : Train) (tr : list action)
    (before after : list TrainCar) (car : TrainCar)
    (first : EmbarkedPull) (rest : list EmbarkedPull)
    (queue_rule : QueueConfig) :
  quiet_deletes host ->
  starts_or_fails host ->
  cars t = before ++ car :: after ->
  Forall (fun c => still_queued_embarked_pulls c <> []) (cars t) ->
  still_queued_embarked_pulls car = first :: rest ->
  queue_rules (name (config first)) = Some queue_rule ->
  let groups :=
    split_list (removelast (still_queued_embarked_pulls car))
               (Z.max 2 (speculative_checks queue_rule)) in
  let last_pull := [last (still_queued_embarked_pulls car) first] in
  exists t' tr',
    split_failed_car host queue_rules car
      (number_of_pulls_in (before ++ [car])) t tr = (Ok false, t', tr') /\
    map initial_embarked_pulls (cars t')
    = map initial_embarked_pulls before ++ groups ++ [last_pull] /\
    map still_queued_embarked_pulls (cars t')
    = map still_queued_embarked_pulls before ++ groups ++ [last_pull] /\
    waiting_pulls t' = pulls_of after ++ waiting_pulls t /\
    current_base_sha t' = current_base_sha t.
Proof.
  intros quiet Hs Hcars Hne Hstill Hrule groups last_pull.
  unfold split_failed_car. rewrite Hstill, Hrule. rewrite <- Hstill.
  unfold bind at 1. rewrite _slice_cars_spec by exact quiet.
  assert (Hk : kept (number_of_pulls_in (before ++ [car])) (cars t)
               = S (List.length before)).
  { replace (before ++ [car]) with (firstn (S (List.length before)) (cars t)).
    - apply kept_exact; [exact Hne |]. rewrite Hcars, length_app. cbn. lia.
    - rewrite Hcars.
      replace (S (List.length before)) with (List.length before + 1)%nat by lia.
      now rewrite firstn_app_2. }
  rewrite Hk.
  assert (Hfirst : firstn (S (List.length before)) (cars t) = before ++ [car]).
  { rewrite Hcars.
    replace (S (List.length before)) with (List.length before + 1)%nat by lia.
    now rewrite firstn_app_2. }
  assert (Hskip : skipn (S (List.length before)) (cars t) = after).
  { rewrite Hcars.
    replace (S (List.length before)) with (List.length before + 1)%nat by lia.
    rewrite skipn_app, skipn_all2 by lia.
    replace (List.length before + 1 - List.length before)%nat with 1%nat by lia.
    reflexivity. }
  rewrite Hfirst, Hskip. clear Hk Hfirst Hskip.
  unfold bind at 1, get at 1. cbn [cars].
  destruct (before ++ [car]) as [| x l] eqn:E;
    [destruct before; discriminate |].
  rewrite <- E. clear E x l.
  unfold bind at 1, put at 1. unfold Py.del_last. rewrite removelast_last.
  unfold set_cars. cbn [cars waiting_pulls current_base_sha].
  rewrite slice_to_minus_one. fold groups.
  rewrite (skipn_last _ first) by (rewrite Hstill; discriminate).
  fold last_pull.
  set (residual :=
         set_initial_embarked_pulls last_pull
           (set_still_queued_embarked_pulls last_pull
              (set_parent_pull_request_numbers
                 (parent_pull_request_numbers car
                  ++ numbers (List.concat groups)) car))).
  unfold bind at 1.
  destruct (split_groups_spec host queue_rule car residual groups Hs 0 []
              (mkTrain before (pulls_of after ++ waiting_pulls t)
                       (current_base_sha t))
              (tr ++ flat_map
                       (teardown host
                          (Some "Pull request ahead in queue failed to get merged"))
                       after))
    as (t2 & tr2 & -> & Hc2 & Hw2 & Hb2).
  cbn [cars waiting_pulls current_base_sha] in Hc2, Hw2, Hb2.
  unfold bind, modify, _refresh_pulls, emit, ret.
  eexists. eexists. split; [reflexivity |].
  unfold set_cars. cbn [cars waiting_pulls current_base_sha].
  apply Forall2_same_pulls_maps in Hc2 as (Hi & Hst & _).
  destruct (expected_new_cars_pulls (utcnow host) car residual groups [])
    as [Ei Est].
  rewrite !map_app, Hi, Hst, !map_app, Ei, Est. cbn [map].
  repeat split; try assumption; now rewrite <- app_assoc.
Qed.

Lemma is_single_failed_pull_no (before after : list TrainCar) (car : TrainCar) :
  1 < Py.len (initial_embarked_pulls car) ->
  is_single_failed_pull (before ++ car :: after) = false.
Proof.
  intros H. destruct before as [| b [| b' before]]; cbn.
  - destruct after; [| reflexivity].
    destruct (Z.eqb_spec (Py.len (initial_embarked_pulls car)) 1); [lia |].
    apply andb_false_r.
  - reflexivity.
  - reflexivity.
Qed.

(** C2, as the code has it.  When the first failed car with several initial
    pulls comes after cars that all succeeded, and every start of a car on the
    host succeeds or fails for good, [_split_failed_batches] tears down the
    cars after it and replaces it by one new car per group of
    [split_list(still_queued_embarked_pulls[:-1], max(2, speculative_checks))]
    followed by the car itself, reduced to its last still queued pull.  The
    groups are contiguous, not empty and at most [max(2, speculative_checks)];
    the initial pulls of the resulting cars, put end to end, are the still
    queued pulls of the failed car, in their order, so their sizes add up to
    their number. *)
Theorem C2_split_failed_batch
    (host : Host) (queue_rules : string -> option QueueConfig)
    (t : Train) (tr : list action)
    (before after : list TrainCar) (car : TrainCar)
    (first : EmbarkedPull) (rest : list EmbarkedPull)
    (queue_rule : QueueConfig) :
  quiet_deletes host ->
  starts_or_fails host ->
  cars t = before ++ car :: after ->
  Forall (fun b => checks_conclusion b = SUCCESS) before ->
  checks_conclusion car = FAILURE ->
  1 < Py.len (initial_embarked_pulls car) ->
  Forall (fun c => still_queued_embarked_pulls c <> []) (cars t) ->
  still_queued_embarked_pulls car = first :: rest ->
  queue_rules (name (config first)) = Some queue_rule ->
  let parts := Z.max 2 (speculative_checks queue_rule) in
  let groups :=
    split_list (removelast (still_queued_embarked_pulls car)) parts in
  let last_pull := [last (still_queued_embarked_pulls car) first] in
  exists t' tr',
    _split_failed_batches host queue_rules t tr = (Ok tt, t', tr') /\
    map initial_embarked_pulls (cars t')
    = map initial_embarked_pulls before ++ groups ++ [last_pull] /\
    map still_queued_embarked_pulls (cars t')
    = map still_queued_embarked_pulls before ++ groups ++ [last_pull] /\
    waiting_pulls t' = pulls_of after ++ waiting_pulls t /\
    List.concat (groups ++ [last_pull]) = still_queued_embarked_pulls car /\
    Py.sum (map (@Py.len EmbarkedPull) (groups ++ [last_pull]))
    = Py.len (still_queued_embarked_pulls car) /\
    Forall (fun g => g <> []) groups /\
    Py.len groups <= parts.
Proof.
  intros quiet Hs Hcars Hbefore Hfail Hlen Hne Hstill Hrule parts groups
    last_pull.
  destruct (split_failed_car_spec host queue_rules t tr before after car
              first rest queue_rule quiet Hs Hcars Hne Hstill Hrule)
    as (t2 & tr2 & Hsplit & Hi & Hst & Hw & Hb).
  fold parts groups last_pull in Hi, Hst.
  assert (Hconcat : List.concat (groups ++ [last_pull])
                    = still_queued_embarked_pulls car).
  { rewrite concat_app. subst groups. rewrite split_list_concat by lia.
    cbn [List.concat]. rewrite app_nil_r. subst last_pull.
    symmetry. apply app_removelast_last. rewrite Hstill. discriminate. }
  destruct (split_list_groups (removelast (still_queued_embarked_pulls car))
              parts ltac:(lia)) as (Hgne & Hgn & _).
  fold groups in Hgne, Hgn.
  (* the secondary pass keeps the layout *)
  assert (Hsecond : exists t' tr',
            _split_failed_batches host queue_rules t tr = (Ok tt, t', tr') /\
            same_layout t2 t').
  { unfold _split_failed_batches, bind at 1, get at 1.
    rewrite Hcars, is_single_failed_pull_no by exact Hlen.
    unfold bind at 1.
    rewrite split_loop_skips_succeeded by exact Hbefore.
    cbn [split_loop]. rewrite Hfail. cbn [Conclusion_eqb].
    unfold bind at 1, lift at 1.
    rewrite has_previous_car_status_succeeded_yes by exact Hbefore.
    destruct (Z.ltb_spec 1 (Py.len (initial_embarked_pulls car))); [| lia].
    cbn [andb].
    replace (0 + number_of_pulls_in before
             + Py.len (still_queued_embarked_pulls car))
      with (number_of_pulls_in (before ++ [car]))
      by (rewrite number_of_pulls_in_app, number_of_pulls_in_cons;
          change (number_of_pulls_in []) with 0; lia).
    rewrite Hsplit.
    unfold bind at 1, get at 1.
    destruct (cars t2) as [| c0 cs0] eqn:Ec.
    { exists t2, tr2. split; [reflexivity | apply same_layout_refl]. }
    destruct ((0 <? Py.len (failure_history c0))
              && TrainCarState_eqb (creation_state c0) pending).
    2:{ exists t2, tr2. split; [reflexivity | apply same_layout_refl]. }
    assert (Hc0 : still_queued_embarked_pulls c0 <> []).
    { assert (Hall : Forall (fun g : list EmbarkedPull => g <> [])
                       (map still_queued_embarked_pulls (c0 :: cs0))).
      { rewrite Hst. apply Forall_app. split.
        - rewrite Hcars in Hne. apply Forall_app in Hne as [Hne _].
          apply Forall_forall. intros g Hg. apply in_map_iff in Hg
            as (b & <- & Hb'). rewrite Forall_forall in Hne. now apply Hne.
        - apply Forall_app. split; [exact Hgne |].
          constructor; [discriminate | constructor]. }
      apply Forall_cons_iff in Hall as [Hall _]. exact Hall. }
    destruct (still_queued_embarked_pulls c0) as [| ep0 eps0]; [congruence |].
    destruct (queue_rules (name (config ep0))) as [rule0 |].
    2:{ exists t2, tr2. split; [reflexivity | apply same_layout_refl]. }
    unfold try_except.
    destruct (_start_checking_car host rule0 0 t2 tr2) as [[r3 t3] tr3] eqn:Es.
    apply _start_checking_car_clean in Es;
      [| exact Hs | rewrite Ec; cbn; lia].
    destruct Es as [[-> | ->] Hl]; exists t3, tr3; now split. }
  destruct Hsecond as (t' & tr' & Hrun & (Hcars' & Hw' & Hb')).
  apply Forall2_same_pulls_maps in Hcars' as (Hi' & Hst' & _).
  exists t', tr'.
  split; [exact Hrun |].
  split; [now rewrite Hi' |].
  split; [now rewrite Hst' |].
  split; [congruence |].
  split; [exact Hconcat |].
  split; [| split; [exact Hgne | exact Hgn]].
  rewrite <- Hconcat. clear.
  induction (groups ++ [last_pull]) as [| g gs IH]; [reflexivity |].
  cbn [map List.concat]. unfold Py.sum in *. cbn [fold_right].
  rewrite IH. unfold Py.len. rewrite length_app. lia.
Qed.

(* ------------------------------------------------------------------ *)
(** ** Creating a car on a host that accepts every request *)

(** The host accepts every creation of a ref, merge and pull, updates every
    branch and knows every bot account. *)
Definition accepting (host : Host) : Prop :=
  (forall branch, answer_exception (create_ref host branch) = None) /\
  (forall branch n k, answer_exception (merge_into_ref host branch n k) = None)
  /\ (forall branch, answer_exception (fst (open_pull host branch)) = None)
  /\ (forall n, branch_update_ok host n = true)
  /\ (forall account, token_known host account = true).

Lemma for_each_emits {S A} (l : list A) (body : A -> M S unit)
    (f : A -> list action) :
  (forall x s tr, body x s tr = (Ok tt, s, tr ++ f x)) ->
  forall s tr, for_each l body s tr = (Ok tt, s, tr ++ flat_map f l).
Proof.
  intros H. induction l as [| x l IH]; intros s tr; cbn [for_each flat_map].
  - unfold ret. now rewrite app_nil_r.
  - unfold bind. rewrite H, IH. now rewrite <- app_assoc.
Qed.

(** The requests of [update_summaries] for a pending car. *)
Definition pending_summaries (host : Host) (draft : option Z)
    (still : list EmbarkedPull) : list action :=
  match draft with
  | Some n =>
      (if body_up_to_date host n then [] else [PatchPullBody n])
      ++ [SetSummaryCheck n PENDING]
  | None => []
  end
  ++ map (fun ep => SetCheckRun (user_pull_request_number ep) PENDING) still.

(** [create_pull] on an accepting host: the car is created, with the branch
    named after its initial pulls, the number of the draft pull, pending
    checks and the checks and conditions read from the draft pull; the
    requests are the creation of the ref, one merge per parent and per still
    queued pull, the opening of the draft pull and the summaries. *)
Lemma create_pull_accepted (host : Host) (queue_rule : QueueConfig)
    (c : TrainCar) (tr : list action) :
  accepting host ->
  let branch := _get_pulls_branch_ref (initial_embarked_pulls c) in
  let n := snd (open_pull host branch) in
  let pulls := parent_pull_request_numbers c
               ++ numbers (still_queued_embarked_pulls c) in
  create_pull host queue_rule c tr =
  (Ok tt,
   mkTrainCar (initial_embarked_pulls c) (still_queued_embarked_pulls c)
     (parent_pull_request_numbers c) (initial_current_base_sha c)
     (creation_date c) created PENDING (Some n) (failure_history c)
     (Some branch) (pull_checks host n)
     (Some (fst (evaluate host (numbers (still_queued_embarked_pulls c)))))
     false,
   tr ++ [CreateRef branch (initial_current_base_sha c)]
      ++ map (MergeIntoRef branch) pulls
      ++ [OpenPull branch]
      ++ pending_summaries host (Some n) (still_queued_embarked_pulls c)).
Proof.
  intros (Hcreate & Hmerge & Hopen & _ & Htoken). cbn zeta.
  unfold create_pull. unfold bind at 1, get at 1.
  unfold bind at 1, modify at 1. unfold bind at 1, modify at 1.
  unfold bind at 1.
  assert (Hbot : forall s tr0,
            (match draft_bot_account queue_rule with
             | Some bot_account =>
                 if String.eqb bot_account "" then ret tt
                 else if token_known host bot_account then ret tt
                 else _set_creation_failure None ;;;
                      raise TrainCarPullRequestCreationFailure
             | None => ret tt
             end) s tr0 = (Ok tt, s, tr0)).
  { intros s tr0. destruct (draft_bot_account queue_rule) as [bot |];
      [| reflexivity].
    destruct (String.eqb bot ""); [reflexivity |]. now rewrite Htoken. }
  rewrite Hbot. clear Hbot.
  unfold bind at 1, emit at 1. unfold bind at 1. rewrite Hcreate.
  unfold ret at 1. unfold bind at 1.
  rewrite for_each_emits with (f := fun pull_number =>
    [MergeIntoRef (_get_pulls_branch_ref (initial_embarked_pulls c))
                  pull_number]).
  2:{ intros x s tr0. unfold try_except. cbn [merge_attempts].
      unfold bind, emit. now rewrite Hmerge. }
  unfold bind at 1, emit at 1. rewrite Hopen.
  unfold bind at 1, modify at 1.
  unfold bind at 1, get_pull_requests_to_evaluate, bind at 1, get at 1.
  cbn [creation_state queue_pull_request_number still_queued_embarked_pulls
       set_queue_pull_request_number set_creation_state set_head_branch].
  unfold ret at 1. unfold bind at 1.
  unfold update_state, update_summaries, bind, modify, get, ret.
  cbn [creation_state queue_pull_request_number still_queued_embarked_pulls
       set_queue_pull_request_number set_creation_state set_head_branch
       set_checks_conclusion set_last_evaluated_conditions set_last_checks
       set_has_timed_out Conclusion_eqb andb fst snd].
  cbn [creation_state queue_pull_request_number still_queued_embarked_pulls
       set_queue_pull_request_number set_creation_state set_head_branch
       set_checks_conclusion set_last_evaluated_conditions set_last_checks
       set_has_timed_out Conclusion_eqb andb fst snd].
  unfold pending_summaries.
  set (n := snd (open_pull host (_get_pulls_branch_ref (initial_embarked_pulls c)))).
  assert (Hmaps : forall {A} (g : A -> action) (l : list A),
            flat_map (fun x => [g x]) l = map g l).
  { intros A g l. induction l as [| x l IH];
      [reflexivity | cbn; now rewrite IH]. }
  rewrite Hmaps.
  destruct (body_up_to_date host n); cbn [negb]; unfold emit;
    cbv beta iota;
    (rewrite for_each_emits with (f := fun ep =>
       [SetCheckRun (user_pull_request_number ep) PENDING]);
     [| intros x s tr0; reflexivity]);
    rewrite Hmaps; cbn [orb]; rewrite <- ?app_assoc; reflexivity.
Qed.

(** [update_user_pull] on an accepting host, for a car of one pull: the car
    becomes [updated]; a pull that is not behind is only refreshed, a pull
    that is behind is updated and gets pending checks. *)
Lemma update_user_pull_accepted (host : Host) (queue_rule : QueueConfig)
    (c : TrainCar) (tr : list action) (ep : EmbarkedPull) :
  accepting host ->
  still_queued_embarked_pulls c = [ep] ->
  let n := user_pull_request_number ep in
  update_user_pull host queue_rule c tr =
  if is_behind host n then
    (Ok tt,
     mkTrainCar (initial_embarked_pulls c) [ep]
       (parent_pull_request_numbers c) (initial_current_base_sha c)
       (creation_date c) updated PENDING (queue_pull_request_number c)
       (failure_history c) (head_branch c) (pull_checks host n)
       (Some (fst (evaluate host [n]))) false,
     tr ++ [UpdateBranch n; SetCheckRun n PENDING])
  else
    (Ok tt, set_creation_state updated c,
     tr ++ [SendPullRefresh n "updated pull need to be merge"]).
Proof.
  intros (_ & _ & _ & Hupdate & _) Hstill. cbn zeta.
  unfold update_user_pull. unfold bind at 1, get at 1. rewrite Hstill.
  unfold bind at 1, modify at 1.
  destruct (is_behind host (user_pull_request_number ep)); cbn [negb];
    [| reflexivity].
  unfold bind at 1, emit at 1. rewrite Hupdate.
  unfold update_state, update_summaries, bind, modify, get, ret, emit.
  cbn [creation_state queue_pull_request_number still_queued_embarked_pulls
       set_creation_state set_checks_conclusion set_last_evaluated_conditions
       set_last_checks set_has_timed_out Conclusion_eqb andb fst snd].
  rewrite Hstill.
  cbn [creation_state queue_pull_request_number still_queued_embarked_pulls
       set_creation_state set_checks_conclusion set_last_evaluated_conditions
       set_last_checks set_has_timed_out Conclusion_eqb andb fst snd
       for_each TrainCarState_eqb].
  rewrite !Hstill. cbn [for_each]. unfold bind, ret. cbv beta iota.
  unfold set_last_checks, set_has_timed_out, set_last_evaluated_conditions,
    set_checks_conclusion, set_creation_state.
  cbn [initial_embarked_pulls still_queued_embarked_pulls
       parent_pull_request_numbers initial_current_base_sha creation_date
       creation_state checks_conclusion queue_pull_request_number
       failure_history head_branch last_checks last_evaluated_conditions
       has_timed_out].
  rewrite Hstill, <- !app_assoc. reflexivity.
Qed.

Lemma accepting_starts (host : Host) : accepting host -> starts_or_fails host.
Proof.
  intros H queue_rule c tr. split.
  - left. pose proof (create_pull_accepted host queue_rule c tr H) as E.
    cbn zeta in E. now rewrite E.
  - intros ep Hep. left.
    pose proof (update_user_pull_accepted host queue_rule c tr ep H Hep) as E.
    cbn zeta in E. rewrite E. now destruct (is_behind host _).
Qed.

Lemma obliging_host_accepting : accepting obliging_host.
Proof. repeat split. Qed.

Lemma obliging_host_quiet : quiet_deletes obliging_host.
Proof. intros branch. reflexivity. Qed.

(* ------------------------------------------------------------------ *)
(** ** The claims at concrete trains *)

Lemma triple_eta {A B C} (x : A * B * C) : x = (fst (fst x), snd (fst x), snd x).
Proof. now destruct x as [[a b] c]. Qed.

(** The claim C1 as stated fails on the train of the test
    [test_train_queue_splitted_on_failure_1x5]: with one speculative check,
    the failed batch of five pulls is replaced by three cars, and
    [_populate_cars] leaves them. *)
Lemma C1_split_exceeds_speculative_checks :
  let '(_, t1, tr1) :=
    _split_failed_batches obliging_host sample_rules
                          train_with_failed_batch [] in
  let '(_, t2, _) := _populate_cars obliging_host sample_rules t1 tr1 in
  sample_rules (name (config (pull_1x5 41))) = Some rule_1x5 /\
  speculative_checks rule_1x5 = 1 /\
  map (fun c => numbers (still_queued_embarked_pulls c)) (cars t1)
  = [[41; 42]; [43; 44]; [45]] /\
  Py.len (cars t2) = 3 /\
  ~ Py.len (cars t2) <= speculative_checks rule_1x5.
Proof. vm_compute. repeat split. intros H. now apply H. Qed.

Lemma C1_populate_cars_bound_witness :
  Py.len (cars (snd (fst (_populate_cars obliging_host sample_rules
                            (mkTrain [] (map pull_1x5 [1; 2; 3; 4; 5; 6]) None)
                            []))))
  <= speculative_checks rule_1x5.
Proof.
  assert (Hsc : 0 <= speculative_checks rule_1x5)
    by (intros E; discriminate E).
  exact (C1_populate_cars_bound obliging_host sample_rules
           (mkTrain [] (map pull_1x5 [1; 2; 3; 4; 5; 6]) None) []
           (pull_1x5 1) rule_1x5 _ _ _
           obliging_host_quiet (Forall_nil _) eq_refl eq_refl Hsc
           (triple_eta _)).
Defined.

(** The claim C2 as stated fails when the first pull of the failed batch is
    merged already: the code partitions the still queued pulls, so the initial
    pulls of the resulting cars number two and not three. *)
Lemma C2_split_partitions_still_queued_pulls :
  let '(_, t', _) :=
    _split_failed_batches obliging_host sample_rules
                          train_with_partly_merged_batch [] in
  numbers (initial_embarked_pulls partly_merged_batch) = [41; 42; 43] /\
  map (fun c => numbers (initial_embarked_pulls c)) (cars t') = [[42]; [43]] /\
  Py.sum (map (fun c => Py.len (initial_embarked_pulls c)) (cars t')) = 2 /\
  Py.sum (map (fun c => Py.len (initial_embarked_pulls c)) (cars t'))
  <> Py.len (initial_embarked_pulls partly_merged_batch).
Proof. vm_compute. repeat split. discriminate. Qed.

Lemma C2_split_failed_batch_witness :
  exists t' tr',
    _split_failed_batches obliging_host sample_rules train_with_failed_batch []
    = (Ok tt, t', tr') /\
    map initial_embarked_pulls (cars t')
    = [map pull_1x5 [41; 42]; map pull_1x5 [43; 44]; [pull_1x5 45]].
Proof.
  assert (Hne : Forall (fun c => still_queued_embarked_pulls c <> [])
                       (cars train_with_failed_batch)).
  { constructor; [discriminate | constructor]. }
  destruct (C2_split_failed_batch obliging_host sample_rules
              train_with_failed_batch [] [] [] whole_failed_batch
              (pull_1x5 41) (map pull_1x5 [42; 43; 44; 45]) rule_1x5
              obliging_host_quiet (accepting_starts _ obliging_host_accepting)
              eq_refl (Forall_nil _) eq_refl eq_refl Hne eq_refl eq_refl)
    as (t' & tr' & H & Hi & _).
  exists t', tr'. split; [exact H | exact Hi].
Defined.

Lemma C3_remove_pull_merged_head_witness :
  exists document,
    remove_pull obliging_host (mkPull 1 true (Some "new_sha1"))
      (mkTrain [new_TrainCar 0 [sample_pull 1] [sample_pull 1] [] "sha1" [];
                new_TrainCar 0 [sample_pull 2] [sample_pull 2] [1] "sha1" []]
               [sample_pull 3] (Some "sha1")) []
    = (Ok tt,
       mkTrain [new_TrainCar 0 [sample_pull 2] [sample_pull 2] [1] "sha1" []]
               [sample_pull 3] (Some "new_sha1"),
       [document;
        RefreshPulls "merged pull removed from queue" (Some 1)]).
Proof.
  destruct (C3_remove_pull_merged_head obliging_host
              (mkPull 1 true (Some "new_sha1"))
              (mkTrain
                 [new_TrainCar 0 [sample_pull 1] [sample_pull 1] [] "sha1" [];
                  new_TrainCar 0 [sample_pull 2] [sample_pull 2] [1] "sha1" []]
                 [sample_pull 3] (Some "sha1")) []
              (new_TrainCar 0 [sample_pull 1] [sample_pull 1] [] "sha1" [])
              [new_TrainCar 0 [sample_pull 2] [sample_pull 2] [1] "sha1" []]
              (sample_pull 1) [] "new_sha1"
              obliging_host_quiet eq_refl eq_refl eq_refl eq_refl eq_refl
              eq_refl)
    as (document & H & _).
  exists document. exact H.
Defined.

(** A pull of a higher priority arrives at a train of two pending cars and
    one waiting pull: the head, of the same priority, stays checked, the
    second car is torn down, and the pull goes in front of its pull. *)
Lemma C4_add_pull_position_witness :
  exists t' tr',
    add_pull obliging_host (mkPull 7 false None) urgent_config
      (mkTrain
         [new_TrainCar 0 [urgent_pull 1] [urgent_pull 1] [] "sha1" [];
          new_TrainCar 0 [sample_pull 2] [sample_pull 2] [1] "sha1" []]
         [sample_pull 3] (Some "sha1")) []
    = (Ok tt, t', tr') /\
    cars t' = [new_TrainCar 0 [urgent_pull 1] [urgent_pull 1] [] "sha1" []] /\
    pulls_of (cars t') ++ waiting_pulls t'
    = [urgent_pull 1;
       mkEmbarkedPull 7 urgent_config (utcnow obliging_host);
       sample_pull 2; sample_pull 3].
Proof.
  set (t := mkTrain
              [new_TrainCar 0 [urgent_pull 1] [urgent_pull 1] [] "sha1" [];
               new_TrainCar 0 [sample_pull 2] [sample_pull 2] [1] "sha1" []]
              [sample_pull 3] (Some "sha1")).
  assert (Hin : ~ In (number (mkPull 7 false None))
                     (map user_pull_request_number
                          (pulls_of (cars t) ++ waiting_pulls t))).
  { intros [H | [H | [H | []]]]; discriminate H. }
  destruct (C4_add_pull_position obliging_host (mkPull 7 false None)
              urgent_config t [] obliging_host_quiet Hin)
    as (t' & tr' & H & Hm).
  change (first_position (eligible urgent_config t)
            (List.seq 0 (List.length (pulls_of (cars t) ++ waiting_pulls t))))
    with (Some 1%nat) in Hm.
  destruct Hm as (_ & _ & Hc & Hs & _).
  exists t', tr'. split; [exact H | split; [exact Hc | exact Hs]].
Defined.

Lemma C5_slice_cars_keeps_longest_prefix_witness :
  exists k : nat,
    _slice_cars obliging_host (Z.of_nat 1) "reason"
      (mkTrain [new_TrainCar 0 [sample_pull 1] [sample_pull 1] [] "sha1" [];
                new_TrainCar 0 [sample_pull 2] [sample_pull 2] [1] "sha1" []]
               [sample_pull 3] (Some "sha1")) []
    = (Ok tt,
       mkTrain
         (firstn k
            [new_TrainCar 0 [sample_pull 1] [sample_pull 1] [] "sha1" [];
             new_TrainCar 0 [sample_pull 2] [sample_pull 2] [1] "sha1" []])
         (pulls_of
            (skipn k
               [new_TrainCar 0 [sample_pull 1] [sample_pull 1] [] "sha1" [];
                new_TrainCar 0 [sample_pull 2] [sample_pull 2] [1] "sha1" []])
          ++ [sample_pull 3])
         (Some "sha1"),
       [] ++ flat_map (teardown obliging_host (Some "reason"))
               (skipn k
                  [new_TrainCar 0 [sample_pull 1] [sample_pull 1] [] "sha1" [];
                   new_TrainCar 0 [sample_pull 2] [sample_pull 2] [1] "sha1"
                     []])).
Proof.
  destruct (C5_slice_cars_keeps_longest_prefix obliging_host 1 "reason"
              (mkTrain
                 [new_TrainCar 0 [sample_pull 1] [sample_pull 1] [] "sha1" [];
                  new_TrainCar 0 [sample_pull 2] [sample_pull 2] [1] "sha1" []]
                 [sample_pull 3] (Some "sha1")) []
              obliging_host_quiet)
    as (k & H & _).
  exists k. exact H.
Defined.

(** The claim C6 as stated fails for a batch size of 0: the loop does not
    run, its variable stays unbound and the [else] clause raises. *)
Lemma C6_batch_size_zero_raises :
  _get_next_batch [sample_pull 1] "five" 0 = Err UnboundLocalError.
Proof. reflexivity. Qed.

Lemma C6_get_next_batch_longest_prefix_witness :
  1 <= 2 /\
  exists batch rest,
    _get_next_batch [sample_pull 1; sample_pull 2; sample_pull 3] "five" 2
    = Ok (batch, rest) /\
    batch ++ rest = [sample_pull 1; sample_pull 2; sample_pull 3].
Proof.
  assert (H : 1 <= 2) by (intros E; discriminate E).
  split; [exact H |].
  destruct (C6_get_next_batch_longest_prefix "five"
              [sample_pull 1; sample_pull 2; sample_pull 3] 2 H)
    as (batch & rest & Hb & Happ & _).
  exists batch, rest. split; [exact Hb | exact Happ].
Defined.
